(** * Dropbox auto-organizer: the rule chain of [organize_dropbox.py]

    A shallow embedding of [DropboxOrganizer] (file [organize_dropbox.py]):
    the four classification methods, the folder-ensure and move helpers,
    [_organize_file] and [scan_and_organize], followed by the properties of
    the rule chain.

    Conventions of the embedding.
    - A Python [str] is the [string] of its bytes in UTF-8.  Equality,
      prefix and substring tests and [os.path.splitext] are on such strings
      what they are on the [str]: ["."], ["/"] and the other characters the
      source names are ASCII, and no byte of a longer character is.
    - [\d] in a [str] pattern matches every decimal digit of Unicode
      (category Nd), not only ['0'..'9']: the pattern is matched on decoded
      characters ([Py.decode], [Py.is_decimal]).
    - [str.lower] is the map [py_lower_char] on each byte: it lower-cases
      the letters ['A'..'Z'] and leaves every other byte as it is, which is
      [str.lower] on the names whose characters beyond ASCII have no
      lower-case form of their own.
    - [os.path] is [posixpath]: [sep = "/"], no [altsep], [extsep = "."].
    - The Dropbox client [self.dbx] is an abstract state machine
      ([DropboxApi]); a call either returns or raises [ApiError], the only
      exception the source handles.
    - [self.config] is immutable and passed as [cfg]; the mutable part of
      [self] ([dbx], [stats]) is threaded through a small state monad,
      together with a journal of the calls made (what a spy on [self] and on
      [self.dbx] would record). *)

From Stdlib Require Import ZArith Lia Bool Ascii.
From Stdlib Require String.
From stdpp Require Import base option list gmap strings.

Local Open Scope Z_scope.

(** Let [simpl] and [cbn] compute appends of literals. *)
#[local] Arguments String.append !_ _ : simpl nomatch.

(** ** Python string primitives *)

Module Py.

(** [s.startswith(prefix)] *)
Fixpoint startswith (s prefix : string) {struct prefix} : bool :=
  match prefix with
  | EmptyString => true
  | String c prefix' =>
      match s with
      | EmptyString => false
      | String d s' => Ascii.eqb c d && startswith s' prefix'
      end
  end.

(** [sub in s] for two strings *)
Fixpoint contains (sub s : string) : bool :=
  startswith s sub ||
  match s with
  | EmptyString => false
  | String _ s' => contains sub s'
  end.

(** [x in l] for a list of strings *)
Definition str_in (x : string) (l : list string) : bool :=
  existsb (String.eqb x) l.

Definition code (c : ascii) : Z := Z.of_nat (nat_of_ascii c).

Definition py_lower_char (c : ascii) : ascii :=
  let n := code c in
  if (65 <=? n) && (n <=? 90)
  then ascii_of_nat (Z.to_nat (n + 32))
  else c.

(** [s.lower()] *)
Fixpoint lower (s : string) : string :=
  match s with
  | EmptyString => EmptyString
  | String c s' => String (py_lower_char c) (lower s')
  end.

(** [s.rfind(c)] for a one-character [c]: the highest index, or [-1] *)
Fixpoint rfind (c : ascii) (s : string) : Z :=
  match s with
  | EmptyString => -1
  | String d s' =>
      let r := rfind c s' in
      if 0 <=? r then r + 1
      else if Ascii.eqb d c then 0 else -1
  end.

(** [s[i:]] and [s[:i]] for [0 <= i] *)
Definition slice_from (i : Z) (s : string) : string :=
  String.substring (Z.to_nat i) (String.length s - Z.to_nat i) s.

Definition slice_to (i : Z) (s : string) : string :=
  String.substring 0 (Z.to_nat i) s.

(** [s[i:i+1]] *)
Definition slice1 (i : Z) (s : string) : string :=
  String.substring (Z.to_nat i) 1 s.

(** The [while filenameIndex < dotIndex] loop of [genericpath._splitext];
    [n] bounds the iterations left ([dotIndex - filenameIndex]).  It answers
    whether some character of [p[filenameIndex:dotIndex]] is not a dot. *)
Fixpoint splitext_scan (n : nat) (p : string) (filenameIndex dotIndex : Z) : bool :=
  match n with
  | O => false
  | S n' =>
      if filenameIndex <? dotIndex then
        if negb (String.eqb (slice1 filenameIndex p) ".") then true
        else splitext_scan n' p (filenameIndex + 1) dotIndex
      else false
  end.

(** [os.path.splitext(p)] *)
Definition splitext (p : string) : string * string :=
  let sepIndex := rfind "/" p in
  let dotIndex := rfind "." p in
  if (sepIndex <? dotIndex) &&
     splitext_scan (Z.to_nat (dotIndex - (sepIndex + 1))) p (sepIndex + 1) dotIndex
  then (slice_to dotIndex p, slice_from dotIndex p)
  else (p, EmptyString).


(** The decimal digits of Unicode (general category Nd), the characters
    [\d] matches in a [str] pattern.  They come in runs of ten, ['0'] to
    ['9'] of one script each; [digit_zeros] lists the code point every run
    starts at (Unicode 14.0, the table of CPython 3.11). *)
Definition digit_zeros : list Z :=
  [48; 1632; 1776; 1984; 2406; 2534; 2662; 2790; 2918; 3046; 3174; 3302;
   3430; 3558; 3664; 3792; 3872; 4160; 4240; 6112; 6160; 6470; 6608; 6784;
   6800; 6992; 7088; 7232; 7248; 42528; 43216; 43264; 43472; 43504; 43600;
   44016; 65296; 66720; 68912; 69734; 69872; 69942; 70096; 70384; 70736;
   70864; 71248; 71360; 71472; 71904; 72016; 72784; 73040; 73120; 92768;
   92864; 93008; 120782; 120792; 120802; 120812; 120822; 123200; 123632;
   125264; 130032].

Definition is_decimal (cp : Z) : bool :=
  existsb (fun zero => (zero <=? cp) && (cp <=? zero + 9)) digit_zeros.

(** [n] continuation bytes at the start of [s], added to the code point
    [acc] six bits each: the code point, the bytes read, and what follows. *)
Fixpoint continuations (n : nat) (acc : Z) (s : string) : option (Z * string * string) :=
  match n with
  | O => Some (acc, EmptyString, s)
  | S n' =>
      match s with
      | EmptyString => None
      | String c s' =>
          let b := code c in
          if (128 <=? b) && (b <=? 191) then
            match continuations n' (acc * 64 + (b - 128)) s' with
            | Some (cp, bytes, rest) => Some (cp, String c bytes, rest)
            | None => None
            end
          else None
      end
  end.

(** The first character of [s]: its code point, its bytes in UTF-8, and
    what follows it. *)
Definition decode (s : string) : option (Z * string * string) :=
  match s with
  | EmptyString => None
  | String c s' =>
      let b := code c in
      let longer (n : nat) (lead least : Z) :=
        match continuations n lead s' with
        | Some (cp, bytes, rest) =>
            if least <=? cp then Some (cp, String c bytes, rest) else None
        | None => None
        end in
      if b <? 128 then Some (b, String c EmptyString, s')
      else if (192 <=? b) && (b <? 224) then longer 1%nat (b - 192) 128
      else if (224 <=? b) && (b <? 240) then longer 2%nat (b - 224) 2048
      else if (240 <=? b) && (b <? 248) then longer 3%nat (b - 240) 65536
      else None
  end.

(** [re.match(r'\d', s)]: the digit [s] starts with, and what follows it *)
Definition digit_at (s : string) : option (string * string) :=
  match decode s with
  | Some (cp, bytes, rest) => if is_decimal cp then Some (bytes, rest) else None
  | None => None
  end.

(** [re.fullmatch(r'\d', d)]: [d] is one decimal digit *)
Definition is_digit (d : string) : bool :=
  match digit_at d with
  | Some (_, EmptyString) => true
  | _ => false
  end.

(** A year as the default pattern sees it: ["20"] and two digits. *)
Definition is_year (y : string) : Prop :=
  exists d1 d2, is_digit d1 = true /\ is_digit d2 = true /\
                y = "20" +:+ d1 +:+ d2.

(** [re.match(r'20\d{2}', s)]: a match anchored at the start of [s] *)
Definition match_20dd (s : string) : option string :=
  match s with
  | String "2" (String "0" s2) =>
      match digit_at s2 with
      | Some (d1, s3) =>
          match digit_at s3 with
          | Some (d2, _) => Some ("20" +:+ d1 +:+ d2)
          | None => None
          end
      | None => None
      end
  | _ => None
  end.

(** [re.search(r'20\d{2}', s)] followed by [.group(0)]: the leftmost match *)
Fixpoint search_20dd (s : string) : option string :=
  match match_20dd s with
  | Some y => Some y
  | None =>
      match s with
      | EmptyString => None
      | String _ s' => search_20dd s'
      end
  end.

End Py.


(** ** Configuration ([config.yaml] after [yaml.safe_load]) *)

(** A configured regular expression is represented by what
    [re.search(pattern, s)] yields on each [s]: the text of the leftmost
    match ([match.group(0)]), or [None]. *)
Definition Pattern : Type := string -> option string.

(** Keys read with [.get(key, default)] are optional; keys read with
    [config[key]] are required. *)
Record PhotosRule := {
  photos_enabled : option bool;
  year_pattern : option Pattern
}.

Record DocumentsRule := {
  documents_enabled : option bool;
  extensions : option (list string)
}.

Record TempRule := {
  temp_enabled : option bool;
  patterns : option (list string)
}.

Record Rules := {
  photos : PhotosRule;
  documents : DocumentsRule;
  temp : TempRule
}.

Record SkipConfig := {
  skip_folders : option (list string);
  skip_files : option (list string)
}.

Record Config := {
  dry_run : option bool;
  skip : option SkipConfig;
  rules : Rules;
  folders : option (gmap string string)
}.

(** ** Classification methods *)

Section Classification.

Variable cfg : Config.

(** [self.config.get('dry_run', False)] *)
Definition is_dry_run : bool := default false (dry_run cfg).

Definition _should_skip (file_path file_name : string) : bool :=
  let skip_config := default {| skip_folders := None; skip_files := None |} (skip cfg) in
  let skip_folders := default [] (skip_folders skip_config) in
  if existsb (fun folder => Py.contains folder file_path) skip_folders then true
  else
    let skip_files := default [] (skip_files skip_config) in
    if existsb (fun skip_file => String.eqb file_name skip_file
                                 || Py.startswith file_name skip_file) skip_files
    then true
    else false.

Definition _extract_year_from_filename (filename : string) : option string :=
  if negb (default true (photos_enabled (photos (rules cfg)))) then None
  else
    let pattern := default Py.search_20dd (year_pattern (photos (rules cfg))) in
    pattern filename.

Definition _is_document (filename : string) : bool :=
  if negb (default true (documents_enabled (documents (rules cfg)))) then false
  else
    let extensions := default [] (extensions (documents (rules cfg))) in
    let file_ext := snd (Py.splitext (Py.lower filename)) in
    Py.str_in file_ext extensions.

Definition _is_temp_file (filename : string) : bool :=
  if negb (default true (temp_enabled (temp (rules cfg)))) then false
  else
    let patterns := default [] (patterns (temp (rules cfg))) in
    existsb (fun pattern => Py.contains pattern filename) patterns.

End Classification.

(** ** The Dropbox client and the mutable part of [self] *)

(** [FileMetadata] carries the two attributes the organizer reads. *)
Record FileMetadata := {
  name : string;
  path_display : string
}.

(** An entry of a folder listing: [isinstance(entry, FileMetadata)] holds of
    [File _] only. *)
Inductive Metadata :=
| File (f : FileMetadata)
| Folder (folder_name folder_path : string)
| Deleted (deleted_name : string).

Record ListFolderResult := {
  entries : list Metadata;
  has_more : bool;
  cursor : string
}.

(** Outcome of [files_get_metadata]: a return, or an [ApiError] that is a
    not-found path error, or any other [ApiError]. *)
Inductive GetMetadataResult :=
| MetadataFound
| PathNotFound
| OtherApiError.

(** The client.  A request that only reads (metadata, listings) is answered
    from the store as it is; [None] is an [ApiError].  A request that writes
    gives the new store, and whether it returned ([true]) or raised
    [ApiError] ([false]).  [files_move_v2] is always called with
    [autorename=True]. *)
Class DropboxApi (D : Type) := {
  files_get_metadata : D -> string -> GetMetadataResult;
  files_create_folder_v2 : D -> string -> D * bool;
  files_move_v2 : D -> string -> string -> D * bool;
  files_list_folder : D -> string -> option ListFolderResult;
  files_list_folder_continue : D -> string -> option ListFolderResult
}.

(** [self.stats] *)
Record Stats := {
  photos_moved : nat;
  documents_moved : nat;
  temp_moved : nat;
  errors : nat;
  skipped : nat
}.

Definition stats_init : Stats :=
  {| photos_moved := 0; documents_moved := 0; temp_moved := 0;
     errors := 0; skipped := 0 |}.

(** The journal.  A method record is appended when the method returns and
    carries its arguments and result; an API record is appended when the
    request is answered. *)
Inductive Event :=
| ShouldSkip (file_path file_name : string) (result : bool)
| ExtractYear (filename : string) (result : option string)
| IsDocument (filename : string) (result : bool)
| IsTempFile (filename : string) (result : bool)
| EnsureFolder (folder_path : string)
| MoveFile (from_path to_path : string) (result : bool)
| FilesGetMetadata (path : string) (result : GetMetadataResult)
| FilesCreateFolder (path : string) (ok : bool)
| FilesMove (from_path to_path : string) (ok : bool)
| FilesListFolder (path : string) (ok : bool)
| FilesListFolderContinue (cursor : string) (ok : bool).

Record Organizer (D : Type) := {
  dbx : D;
  stats : Stats;
  journal : list Event
}.
Arguments dbx {D} _.
Arguments stats {D} _.
Arguments journal {D} _.

(** ** A state monad over [Organizer] *)

Definition M (D A : Type) : Type := Organizer D -> A * Organizer D.

Definition ret {D A} (a : A) : M D A := fun s => (a, s).

Definition bind {D A B} (m : M D A) (k : A -> M D B) : M D B :=
  fun s => let (a, s') := m s in k a s'.

Notation "x <- m ;; k" := (bind m (fun x => k))
  (at level 100, m at next level, right associativity).
Notation "m ;;; k" := (bind m (fun _ => k))
  (at level 100, right associativity).

Definition record {D} (e : Event) : M D unit :=
  fun s => (tt, {| dbx := dbx s; stats := stats s; journal := journal s ++ [e] |}).

Definition set_dbx {D} (d : D) : M D unit :=
  fun s => (tt, {| dbx := d; stats := stats s; journal := journal s |}).

Definition get_dbx {D} : M D D := fun s => (dbx s, s).

Definition update_stats {D} (f : Stats -> Stats) : M D unit :=
  fun s => (tt, {| dbx := dbx s; stats := f (stats s); journal := journal s |}).

(** [self.stats[key] += 1] for each key *)
Definition incr_photos_moved (st : Stats) : Stats :=
  {| photos_moved := S (photos_moved st); documents_moved := documents_moved st;
     temp_moved := temp_moved st; errors := errors st; skipped := skipped st |}.
Definition incr_documents_moved (st : Stats) : Stats :=
  {| photos_moved := photos_moved st; documents_moved := S (documents_moved st);
     temp_moved := temp_moved st; errors := errors st; skipped := skipped st |}.
Definition incr_temp_moved (st : Stats) : Stats :=
  {| photos_moved := photos_moved st; documents_moved := documents_moved st;
     temp_moved := S (temp_moved st); errors := errors st; skipped := skipped st |}.
Definition incr_errors (st : Stats) : Stats :=
  {| photos_moved := photos_moved st; documents_moved := documents_moved st;
     temp_moved := temp_moved st; errors := S (errors st); skipped := skipped st |}.
Definition incr_skipped (st : Stats) : Stats :=
  {| photos_moved := photos_moved st; documents_moved := documents_moved st;
     temp_moved := temp_moved st; errors := errors st; skipped := S (skipped st) |}.

(** ** The effectful methods *)

Section Organizer.

Context {D : Type} `{DropboxApi D}.
Variable cfg : Config.

Definition _ensure_folder_exists (folder_path : string) : M D unit :=
  (if is_dry_run cfg then ret tt
   else
     d <- get_dbx ;;
     let r := files_get_metadata d folder_path in
     record (FilesGetMetadata folder_path r) ;;;
     match r with
     | MetadataFound => ret tt
     | PathNotFound =>
         let (d', ok) := files_create_folder_v2 d folder_path in
         set_dbx d' ;;;
         record (FilesCreateFolder folder_path ok)
     | OtherApiError => ret tt
     end) ;;;
  record (EnsureFolder folder_path).

Definition _move_file (from_path to_path : string) : M D bool :=
  result <-
    (if is_dry_run cfg then ret true
     else
       d <- get_dbx ;;
       let (d', ok) := files_move_v2 d from_path to_path in
       set_dbx d' ;;;
       record (FilesMove from_path to_path ok) ;;;
       if ok then ret true
       else update_stats incr_errors ;;; ret false) ;;
  record (MoveFile from_path to_path result) ;;;
  ret result.

(** A call of a classification method, with its record. *)
Definition call {A} (ev : A -> Event) (result : A) : M D A :=
  record (ev result) ;;; ret result.

(** Truth value of an [Optional[str]]: [None] and [''] are false. *)
Definition truthy (year : option string) : bool :=
  match year with
  | Some (String _ _) => true
  | _ => false
  end.

Definition _organize_file (file_metadata : FileMetadata) : M D unit :=
  let file_path := path_display file_metadata in
  let file_name := name file_metadata in
  skip_it <- call (ShouldSkip file_path file_name) (_should_skip cfg file_path file_name) ;;
  if skip_it then update_stats incr_skipped
  else
    let folders := default ∅ (folders cfg) in
    let moved := false in
    year <- call (ExtractYear file_name) (_extract_year_from_filename cfg file_name) ;;
    moved <-
      (if truthy year && negb moved then
         let photos_folder := default "Photos Archive" (folders !! "photos") in
         let year_folder := "/" +:+ photos_folder +:+ "/" +:+ default "" year in
         _ensure_folder_exists ("/" +:+ photos_folder) ;;;
         _ensure_folder_exists year_folder ;;;
         let new_path := year_folder +:+ "/" +:+ file_name in
         ok <- _move_file file_path new_path ;;
         if ok then update_stats incr_photos_moved ;;; ret true
         else ret moved
       else ret moved) ;;
    is_doc <- (if negb moved then call (IsDocument file_name) (_is_document cfg file_name)
               else ret false) ;;
    moved <-
      (if negb moved && is_doc then
         let documents_folder := default "Documents & Files" (folders !! "documents") in
         let dest_folder := "/" +:+ documents_folder in
         _ensure_folder_exists dest_folder ;;;
         let new_path := dest_folder +:+ "/" +:+ file_name in
         ok <- _move_file file_path new_path ;;
         if ok then update_stats incr_documents_moved ;;; ret true
         else ret moved
       else ret moved) ;;
    is_tmp <- (if negb moved then call (IsTempFile file_name) (_is_temp_file cfg file_name)
               else ret false) ;;
    (if negb moved && is_tmp then
       let temp_folder := default "Temp Files" (folders !! "temp") in
       let dest_folder := "/" +:+ temp_folder in
       _ensure_folder_exists dest_folder ;;;
       let new_path := dest_folder +:+ "/" +:+ file_name in
       ok <- _move_file file_path new_path ;;
       if ok then update_stats incr_temp_moved else ret tt
     else ret tt).

(** [for entry in result.entries: if isinstance(entry, FileMetadata): ...] *)
Fixpoint organize_entries (l : list Metadata) : M D unit :=
  match l with
  | [] => ret tt
  | File f :: l' => _organize_file f ;;; organize_entries l'
  | _ :: l' => organize_entries l'
  end.

(** How [scan_and_organize] ends: it returns, or [sys.exit(1)] is called
    after an [ApiError] of a listing request.  [OutOfFuel] is the model's
    answer when the pagination loop is cut. *)
Inductive ScanOutcome :=
| Returned
| Exited
| OutOfFuel.

(** [while result.has_more: ...], at most [fuel] pages *)
Fixpoint scan_more (fuel : nat) (result : ListFolderResult) : M D ScanOutcome :=
  if has_more result then
    match fuel with
    | O => ret OutOfFuel
    | S fuel' =>
        d <- get_dbx ;;
        match files_list_folder_continue d (cursor result) with
        | None =>
            record (FilesListFolderContinue (cursor result) false) ;;;
            ret Exited
        | Some result' =>
            record (FilesListFolderContinue (cursor result) true) ;;;
            organize_entries (entries result') ;;;
            scan_more fuel' result'
        end
    end
  else ret Returned.

Definition scan_and_organize (fuel : nat) (path : string) : M D ScanOutcome :=
  let list_path := match path with
                   | EmptyString => ""
                   | _ => "/" +:+ path
                   end in
  d <- get_dbx ;;
  match files_list_folder d list_path with
  | None => record (FilesListFolder list_path false) ;;; ret Exited
  | Some result =>
      record (FilesListFolder list_path true) ;;;
      organize_entries (entries result) ;;;
      scan_more fuel result
  end.

End Organizer.

(** ** The rule chain as an ordered plan

    The cascade of [_organize_file] re-read as data: one step per rule, in
    the order of the source, each with the record of its evaluation and, when
    the rule matches, the move it asks for.  [organize_file_plan] below shows
    that [_organize_file] is the interpretation [run_plan] of this list. *)

Inductive Category := Photos | Documents | Temp.

Record Attempt := {
  category : Category;
  ensure : list string;
  destination : string
}.

Definition incr_moved (c : Category) : Stats -> Stats :=
  match c with
  | Photos => incr_photos_moved
  | Documents => incr_documents_moved
  | Temp => incr_temp_moved
  end.

Definition folder_of (cfg : Config) (c : Category) : string :=
  let folders := default ∅ (folders cfg) in
  match c with
  | Photos => default "Photos Archive" (folders !! "photos")
  | Documents => default "Documents & Files" (folders !! "documents")
  | Temp => default "Temp Files" (folders !! "temp")
  end.

Definition photo_step (cfg : Config) (file_name : string) : Event * option Attempt :=
  let year := _extract_year_from_filename cfg file_name in
  (ExtractYear file_name year,
   match year with
   | Some (String c y) =>
       let year_folder := "/" +:+ folder_of cfg Photos +:+ "/" +:+ String c y in
       Some {| category := Photos;
               ensure := ["/" +:+ folder_of cfg Photos; year_folder];
               destination := year_folder +:+ "/" +:+ file_name |}
   | _ => None
   end).

Definition flat_step (cfg : Config) (c : Category) (ev : bool -> Event)
    (matches : bool) (file_name : string) : Event * option Attempt :=
  (ev matches,
   if matches then
     let dest_folder := "/" +:+ folder_of cfg c in
     Some {| category := c;
             ensure := [dest_folder];
             destination := dest_folder +:+ "/" +:+ file_name |}
   else None).

Definition plan (cfg : Config) (file_name : string) : list (Event * option Attempt) :=
  [ photo_step cfg file_name;
    flat_step cfg Documents (IsDocument file_name) (_is_document cfg file_name) file_name;
    flat_step cfg Temp (IsTempFile file_name) (_is_temp_file cfg file_name) file_name ].

(** The moves the rules ask for, in priority order. *)
Definition candidates (cfg : Config) (file_metadata : FileMetadata) : list Attempt :=
  if _should_skip cfg (path_display file_metadata) (name file_metadata) then []
  else omap snd (plan cfg (name file_metadata)).

Section Plan.

Context {D : Type} `{DropboxApi D}.
Variable cfg : Config.

Fixpoint ensure_all (l : list string) : M D unit :=
  match l with
  | [] => ret tt
  | folder_path :: l' => _ensure_folder_exists cfg folder_path ;;; ensure_all l'
  end.

Definition attempt (from_path : string) (a : Attempt) : M D bool :=
  ensure_all (ensure a) ;;;
  ok <- _move_file cfg from_path (destination a) ;;
  if ok then update_stats (incr_moved (category a)) ;;; ret true
  else ret false.

Fixpoint run_plan (from_path : string) (p : list (Event * option Attempt)) : M D unit :=
  match p with
  | [] => ret tt
  | (ev, None) :: rest => record ev ;;; run_plan from_path rest
  | (ev, Some a) :: rest =>
      record ev ;;;
      ok <- attempt from_path a ;;
      if ok then ret tt else run_plan from_path rest
  end.

End Plan.

(** ** Reading the journal *)

(** The records appended by [m] when run from [s]. *)
Definition emitted {D A} (m : M D A) (s : Organizer D) : list Event :=
  drop (length (journal s)) (journal (snd (m s))).

(** A request to the client that is not a listing: the requests made by the
    folder-ensure protocol and by moves. *)
Definition is_store_request (e : Event) : bool :=
  match e with
  | FilesGetMetadata _ _ | FilesCreateFolder _ _ | FilesMove _ _ _ => true
  | _ => false
  end.

Definition is_move_request (e : Event) : bool :=
  match e with
  | FilesMove _ _ _ => true
  | _ => false
  end.

(** A folder request that raised [ApiError] (other than the expected
    not-found answer of [files_get_metadata]). *)
Definition is_folder_failure (e : Event) : bool :=
  match e with
  | FilesGetMetadata _ OtherApiError => true
  | FilesCreateFolder _ false => true
  | _ => false
  end.

Definition is_rule_evaluation (e : Event) : bool :=
  match e with
  | ShouldSkip _ _ _ | ExtractYear _ _ | IsDocument _ _ | IsTempFile _ _ => true
  | _ => false
  end.

(** The calls of [_move_file] in a journal: source, destination, result. *)
Definition move_attempt (e : Event) : option (string * string * bool) :=
  match e with
  | MoveFile from_path to_path result => Some (from_path, to_path, result)
  | _ => None
  end.

Definition move_attempts (evs : list Event) : list (string * string * bool) :=
  omap move_attempt evs.

Definition moved_total (st : Stats) : nat :=
  (photos_moved st + documents_moved st + temp_moved st)%nat.

(** What one run of [_organize_file] decided. *)
Inductive Decision :=
| Skip
| MoveTo (c : Category) (destination_path : string)
| NoMatch.

(** The category whose rule a record evaluates. *)
Definition rule_category (e : Event) : option Category :=
  match e with
  | ExtractYear _ _ => Some Photos
  | IsDocument _ _ => Some Documents
  | IsTempFile _ _ => Some Temp
  | _ => None
  end.

(** The first [_move_file] of a journal, with the category of the rule
    evaluated last before it ([current], to begin with). *)
Fixpoint first_move (current : option Category) (evs : list Event) : Decision :=
  match evs with
  | [] => NoMatch
  | MoveFile _ to_path _ :: _ =>
      match current with
      | Some c => MoveTo c to_path
      | None => NoMatch
      end
  | e :: rest =>
      first_move (match rule_category e with
                  | Some c => Some c
                  | None => current
                  end) rest
  end.

(** The decision as seen in the records of one run of [_organize_file]. *)
Definition decision_of (evs : list Event) : Decision :=
  match evs with
  | ShouldSkip _ _ true :: _ => Skip
  | _ => first_move None evs
  end.

(** The same decision computed from the configuration alone. *)
Definition route (cfg : Config) (file_metadata : FileMetadata) : Decision :=
  if _should_skip cfg (path_display file_metadata) (name file_metadata) then Skip
  else
    match candidates cfg file_metadata with
    | a :: _ => MoveTo (category a) (destination a)
    | [] => NoMatch
    end.

(** ** The records of a run, declaratively

    [Run dry from p st st' evs]: interpreting the plan [p] for the file at
    [from] can take the counters from [st] to [st'] while appending [evs].
    [run_plan_Run] shows every execution is of this shape. *)

Inductive ensure_one (dry : bool) (p : string) : list Event -> Prop :=
| ensure_dry :
    dry = true -> ensure_one dry p [EnsureFolder p]
| ensure_found :
    dry = false ->
    ensure_one dry p [FilesGetMetadata p MetadataFound; EnsureFolder p]
| ensure_created ok :
    dry = false ->
    ensure_one dry p
      [FilesGetMetadata p PathNotFound; FilesCreateFolder p ok; EnsureFolder p]
| ensure_error :
    dry = false ->
    ensure_one dry p [FilesGetMetadata p OtherApiError; EnsureFolder p].

Inductive ensure_records (dry : bool) : list string -> list Event -> Prop :=
| ensure_records_nil : ensure_records dry [] []
| ensure_records_cons p l e1 e2 :
    ensure_one dry p e1 ->
    ensure_records dry l e2 ->
    ensure_records dry (p :: l) (e1 ++ e2).

Definition move_records (dry : bool) (from_path to_path : string) (ok : bool) : list Event :=
  (if dry then [] else [FilesMove from_path to_path ok]) ++
  [MoveFile from_path to_path ok].

Inductive Run (dry : bool) (from_path : string) :
    list (Event * option Attempt) -> Stats -> Stats -> list Event -> Prop :=
| Run_done st :
    Run dry from_path [] st st []
| Run_miss ev rest st st' evs :
    Run dry from_path rest st st' evs ->
    Run dry from_path ((ev, None) :: rest) st st' (ev :: evs)
| Run_moved ev a rest st ens :
    ensure_records dry (ensure a) ens ->
    Run dry from_path ((ev, Some a) :: rest) st (incr_moved (category a) st)
      (ev :: ens ++ move_records dry from_path (destination a) true)
| Run_failed ev a rest st st' ens evs :
    dry = false ->
    ensure_records dry (ensure a) ens ->
    Run dry from_path rest (incr_errors st) st' evs ->
    Run dry from_path ((ev, Some a) :: rest) st st'
      (ev :: ens ++ move_records dry from_path (destination a) false ++ evs).

(** The records of the folder-ensure protocol. *)
Definition is_ensure_event (e : Event) : bool :=
  match e with
  | FilesGetMetadata _ _ | FilesCreateFolder _ _ | EnsureFolder _ => true
  | _ => false
  end.

(** [n] failed moves counted. *)
Definition add_errors (n : nat) (st : Stats) : Stats :=
  {| photos_moved := photos_moved st; documents_moved := documents_moved st;
     temp_moved := temp_moved st; errors := (errors st + n)%nat;
     skipped := skipped st |}.

(** The [_move_file] call an attempt makes, with its result. *)
Definition attempt_record (from_path : string) (ok : bool) (a : Attempt)
    : string * string * bool :=
  (from_path, destination a, ok).

(** The [files_move_v2] requests in a journal: source, destination, and
    whether the request returned. *)
Definition move_request (e : Event) : option (string * string * bool) :=
  match e with
  | FilesMove from_path to_path ok => Some (from_path, to_path, ok)
  | _ => None
  end.

(** Whether the rule of a category matches a file name. *)
Definition rule_matches (cfg : Config) (c : Category) (file_name : string) : bool :=
  match c with
  | Photos => truthy (_extract_year_from_filename cfg file_name)
  | Documents => _is_document cfg file_name
  | Temp => _is_temp_file cfg file_name
  end.

(** Every failed folder request is followed, later in the journal, by a
    [files_move_v2] request. *)
Fixpoint failures_followed (evs : list Event) : bool :=
  match evs with
  | [] => true
  | e :: rest =>
      (if is_folder_failure e then existsb is_move_request rest else true)
      && failures_followed rest
  end.

(** The number of [_move_file] calls that returned [False]. *)
Definition failed_attempts (evs : list Event) : nat :=
  length (filter (fun x => snd x = false) (move_attempts evs)).

(** The same configuration with another [dry_run] setting. *)
Definition with_dry_run (dry : option bool) (cfg : Config) : Config :=
  {| dry_run := dry; skip := skip cfg; rules := rules cfg; folders := folders cfg |}.

(** The records that follow the first successful [_move_file]. *)
Fixpoint after_first_success (evs : list Event) : list Event :=
  match evs with
  | [] => []
  | MoveFile _ _ true :: rest => rest
  | _ :: rest => after_first_success rest
  end.

(** ** A scripted client and sample configurations *)

(** An in-memory store: the folders that exist, the path prefixes beneath
    which every write raises [ApiError], whether metadata requests are
    answered at all, and the root listing (one page). *)
Record Store := {
  store_folders : list string;
  store_denied : list string;
  store_metadata_down : bool;
  store_listing : list Metadata
}.

Definition denied (d : Store) (path : string) : bool :=
  existsb (fun prefix => Py.startswith path prefix) (store_denied d).

#[export] Instance store_api : DropboxApi Store := {
  files_get_metadata d path :=
    if store_metadata_down d then OtherApiError
    else if Py.str_in path (store_folders d) then MetadataFound
    else PathNotFound;
  files_create_folder_v2 d path :=
    if denied d path then (d, false)
    else ({| store_folders := path :: store_folders d;
             store_denied := store_denied d;
             store_metadata_down := store_metadata_down d;
             store_listing := store_listing d |}, true);
  files_move_v2 d from_path to_path :=
    if denied d to_path then (d, false) else (d, true);
  files_list_folder d path :=
    Some {| entries := store_listing d; has_more := false; cursor := "" |};
  files_list_folder_continue d cursor := None
}.

Definition start {D} (d : D) : Organizer D :=
  {| dbx := d; stats := stats_init; journal := [] |}.

Definition test_folders : gmap string string :=
  <["photos" := "Photos Archive"]>
    (<["documents" := "Documents & Files"]>
       (<["temp" := "Temp Files"]> ∅)).

(** The configuration of [test_organizer.py], with [dry_run], the document
    extensions and the folder map as given. *)
Definition sample_config (dry : bool) (exts : list string)
    (folder_map : option (gmap string string)) : Config :=
  {| dry_run := Some dry;
     skip := Some {| skip_folders := Some ["Photos Archive"; "Documents & Files"];
                     skip_files := Some [".dropbox"] |};
     rules := {| photos := {| photos_enabled := Some true; year_pattern := None |};
                 documents := {| documents_enabled := Some true;
                                 extensions := Some exts |};
                 temp := {| temp_enabled := Some true;
                            patterns := Some ["USER_SCOPED_TEMP"; "_sync"; ".tmp"] |} |};
     folders := folder_map |}.

Definition test_config (dry : bool) : Config :=
  sample_config dry [".pdf"; ".docx"; ".txt"] (Some test_folders).

Definition root_file (file_name : string) : FileMetadata :=
  {| name := file_name; path_display := "/" +:+ file_name |}.

(** A store whose metadata requests raise, one that refuses every write
    beneath the given prefixes, and one with the given root listing. *)
Definition metadata_down_store : Store :=
  {| store_folders := []; store_denied := [];
     store_metadata_down := true; store_listing := [] |}.

Definition read_only_store (prefixes : list string) : Store :=
  {| store_folders := []; store_denied := prefixes;
     store_metadata_down := false; store_listing := [] |}.

Definition listed_store (files : list string) : Store :=
  {| store_folders := []; store_denied := [];
     store_metadata_down := false;
     store_listing := (fun file_name => File (root_file file_name)) <$> files |}.

Definition empty_store : Store :=
  {| store_folders := []; store_denied := [];
     store_metadata_down := false; store_listing := [] |}.

(** ** Further readings of configurations and journals *)

(** [self.config['rules'][c].get('enabled', True)] *)
Definition rule_enabled (cfg : Config) (c : Category) : bool :=
  match c with
  | Photos => default true (photos_enabled (photos (rules cfg)))
  | Documents => default true (documents_enabled (documents (rules cfg)))
  | Temp => default true (temp_enabled (temp (rules cfg)))
  end.

(** [self.stats[c + '_moved']] *)
Definition moved_counter (c : Category) (st : Stats) : nat :=
  match c with
  | Photos => photos_moved st
  | Documents => documents_moved st
  | Temp => temp_moved st
  end.

(** The entries of a listing that are files. *)
Definition files_of (l : list Metadata) : list FileMetadata :=
  omap (fun entry => match entry with File f => Some f | _ => None end) l.

(** The number of records of a journal that satisfy [p]. *)
Fixpoint count_records (p : Event -> bool) (evs : list Event) : nat :=
  match evs with
  | [] => 0%nat
  | e :: rest => ((if p e then 1 else 0) + count_records p rest)%nat
  end.

Definition is_moved_record (e : Event) : bool :=
  match e with
  | MoveFile _ _ true => true
  | _ => false
  end.

Definition is_failed_record (e : Event) : bool :=
  match e with
  | MoveFile _ _ false => true
  | _ => false
  end.

Definition is_skipped_record (e : Event) : bool :=
  match e with
  | ShouldSkip _ _ true => true
  | _ => false
  end.

(** A configuration file that holds nothing but the three (empty) rule
    sections, the keys [_extract_year_from_filename], [_is_document] and
    [_is_temp_file] index without a default. *)
Definition bare_config : Config :=
  {| dry_run := None;
     skip := None;
     rules := {| photos := {| photos_enabled := None; year_pattern := None |};
                 documents := {| documents_enabled := None; extensions := None |};
                 temp := {| temp_enabled := None; patterns := None |} |};
     folders := None |}.

(** The test configuration with the three [enabled] flags as given. *)
Definition toggled_config (photos_on documents_on temp_on : bool) : Config :=
  {| dry_run := Some true;
     skip := None;
     rules := {| photos := {| photos_enabled := Some photos_on; year_pattern := None |};
                 documents := {| documents_enabled := Some documents_on;
                                 extensions := Some [".pdf"; ".docx"; ".txt"] |};
                 temp := {| temp_enabled := Some temp_on;
                            patterns := Some ["USER_SCOPED_TEMP"; "_sync"; ".tmp"] |} |};
     folders := Some test_folders |}.

(** What a record made for the file at [from_path] may be about, given the
    moves planned for it: a move from the file to a planned destination, or
    a folder ensured for a planned move. *)
Definition record_within (from_path : string) (planned : list Attempt) (e : Event) : Prop :=
  match e with
  | FilesMove source to_path _ | MoveFile source to_path _ =>
      source = from_path /\ exists a, In a planned /\ to_path = destination a
  | FilesGetMetadata q _ | FilesCreateFolder q _ | EnsureFolder q =>
      exists a, In a planned /\ In q (ensure a)
  | _ => True
  end.

(** A [files_move_v2] request that returned ([ok = true]) or raised
    ([ok = false]). *)
Definition is_move_answer (ok : bool) (e : Event) : bool :=
  match e with
  | FilesMove _ _ answer => Bool.eqb answer ok
  | _ => false
  end.

(** The folder protocol of [_ensure_folder_exists] read in a journal: a
    [files_create_folder_v2] request comes directly after a metadata request
    for the same path that was answered "not found", and such an answer is
    directly followed by that request.  [pending] is the path a request is
    due for. *)
Fixpoint creates_when_missing (pending : option string) (evs : list Event) : bool :=
  match evs with
  | [] => match pending with None => true | Some _ => false end
  | e :: rest =>
      match pending, e with
      | Some q, FilesCreateFolder q' _ =>
          String.eqb q q' && creates_when_missing None rest
      | Some _, _ => false
      | None, FilesCreateFolder _ _ => false
      | None, FilesGetMetadata q PathNotFound => creates_when_missing (Some q) rest
      | None, _ => creates_when_missing None rest
      end
  end.

(** Every [files_move_v2] request comes directly after [_ensure_folder_exists]
    returned for the folder the destination lies in.  [prev] is the record
    before [evs]. *)
Fixpoint moves_after_ensure (prev : option Event) (evs : list Event) : bool :=
  match evs with
  | [] => true
  | e :: rest =>
      match e with
      | FilesMove _ to_path _ =>
          match prev with
          | Some (EnsureFolder q) => Py.startswith to_path (q +:+ "/")
          | _ => false
          end
      | _ => true
      end && moves_after_ensure (Some e) rest
  end.

(** An attempt moves into the last folder it ensures. *)
Definition into_ensured (a : Attempt) : Prop :=
  exists q, last (ensure a) = Some q /\
            Py.startswith (destination a) (q +:+ "/") = true.

(** A listing request that raised [ApiError]. *)
Definition is_failed_listing (e : Event) : bool :=
  match e with
  | FilesListFolder _ false | FilesListFolderContinue _ false => true
  | _ => false
  end.

(** [re.search(r'\d*', s)] followed by [.group(0)]: the digits [s] starts
    with, possibly none.  The pattern matches every string.  [n] bounds the
    number of digits read. *)
Fixpoint leading_digits_upto (n : nat) (s : string) : string :=
  match n with
  | O => ""
  | S n' =>
      match Py.digit_at s with
      | Some (d, rest) => d +:+ leading_digits_upto n' rest
      | None => ""
      end
  end.

Definition leading_digits (s : string) : string :=
  leading_digits_upto (String.length s) s.

(** The configuration of [test_organizer.py] with [year_pattern: '\d*']. *)
Definition digits_config : Config :=
  {| dry_run := Some false;
     skip := None;
     rules := {| photos := {| photos_enabled := Some true;
                              year_pattern := Some (fun s => Some (leading_digits s)) |};
                 documents := {| documents_enabled := Some true;
                                 extensions := Some [".pdf"; ".docx"; ".txt"] |};
                 temp := {| temp_enabled := Some true;
                            patterns := Some ["USER_SCOPED_TEMP"; "_sync"; ".tmp"] |} |};
     folders := Some test_folders |}.

(** ** [demo.py]

    [demo_file_classification] classifies names with a configuration of its
    own and code of its own, without a client.  [demo_classify] is the body
    of its loop: what is printed for one name. *)

Definition demo_config : Config :=
  {| dry_run := None;
     skip := Some {| skip_folders := Some ["Photos Archive"; "Documents & Files"];
                     skip_files := Some [".dropbox"] |};
     rules := {| photos := {| photos_enabled := Some true;
                              year_pattern := Some Py.search_20dd |};
                 documents := {| documents_enabled := Some true;
                                 extensions := Some [".pdf"; ".docx"; ".txt"; ".xlsx";
                                                     ".pptx"; ".doc"; ".xls"] |};
                 temp := {| temp_enabled := Some true;
                            patterns := Some ["USER_SCOPED_TEMP"; "_sync"; ".tmp"] |} |};
     folders := Some test_folders |}.

Inductive DemoResult :=
| DemoSkipped
| DemoPhoto (year destination : string)
| DemoDocument (file_ext destination : string)
| DemoTempFile (pattern destination : string)
| DemoNoMatch.

Definition demo_classify (filename : string) : DemoResult :=
  if Py.str_in filename [".dropbox"] then DemoSkipped
  else
    match Py.search_20dd filename with
    | Some year =>
        DemoPhoto year ("/" +:+ "Photos Archive" +:+ "/" +:+ year +:+ "/" +:+ filename)
    | None =>
        let file_ext := snd (Py.splitext (Py.lower filename)) in
        if Py.str_in file_ext [".pdf"; ".docx"; ".txt"; ".xlsx"; ".pptx"; ".doc"; ".xls"]
        then DemoDocument file_ext ("/" +:+ "Documents & Files" +:+ "/" +:+ filename)
        else
          match List.find (fun pattern => Py.contains pattern filename)
                          ["USER_SCOPED_TEMP"; "_sync"; ".tmp"] with
          | Some pattern =>
              DemoTempFile pattern ("/" +:+ "Temp Files" +:+ "/" +:+ filename)
          | None => DemoNoMatch
          end
    end.

(** The decision a line of the demo announces. *)
Definition demo_decision (r : DemoResult) : Decision :=
  match r with
  | DemoSkipped => Skip
  | DemoPhoto _ destination_path => MoveTo Photos destination_path
  | DemoDocument _ destination_path => MoveTo Documents destination_path
  | DemoTempFile _ destination_path => MoveTo Temp destination_path
  | DemoNoMatch => NoMatch
  end.

(** ** Relations between the states before and after a scan *)

(** What a scan appends to the journal accounts for the counters. *)
Definition accounted {D : Type} (cfg : Config) (s s' : Organizer D) : Prop :=
  exists evs,
    journal s' = journal s ++ evs /\
    moved_total (stats s') =
      (moved_total (stats s) + count_records is_moved_record evs)%nat /\
    errors (stats s') = (errors (stats s) + count_records is_failed_record evs)%nat /\
    skipped (stats s') = (skipped (stats s) + count_records is_skipped_record evs)%nat /\
    (is_dry_run cfg = false ->
     forall ok, count_records (is_move_answer ok) evs =
                count_records (if ok then is_moved_record else is_failed_record) evs).

(** What a scan appends to the journal keeps to the order of requests. *)
Definition orderly {D : Type} (s s' : Organizer D) : Prop :=
  exists evs,
    journal s' = journal s ++ evs /\
    creates_when_missing None evs = true /\
    moves_after_ensure None evs = true.

(** How the records of a scan and its outcome go together. *)
Definition ends_as (outcome : ScanOutcome) (evs : list Event) : Prop :=
  match outcome with
  | Exited =>
      exists evs0 e, evs = evs0 ++ [e] /\ is_failed_listing e = true /\
                     Forall (fun e0 => is_failed_listing e0 = false) evs0
  | _ => Forall (fun e => is_failed_listing e = false) evs
  end.

(** The folder a failed folder request was for. *)
Definition failed_folder (e : Event) : option string :=
  match e with
  | FilesGetMetadata folder_path OtherApiError => Some folder_path
  | FilesCreateFolder folder_path false => Some folder_path
  | _ => None
  end.

(** What follows in a journal once the records of the folder protocol at
    its head are passed. *)
Fixpoint after_folder_records (evs : list Event) : list Event :=
  match evs with
  | [] => []
  | e :: rest => if is_ensure_event e then after_folder_records rest else evs
  end.

(** The entry a [_should_skip] call was made for. *)
Definition skip_evaluation (e : Event) : option (string * string) :=
  match e with
  | ShouldSkip file_path file_name _ => Some (file_path, file_name)
  | _ => None
  end.

(** Every failed folder request in [evs] is for a folder of a planned move
    of the file at [from_path], and the next record after the folder
    protocol is the [files_move_v2] request of that move. *)
Fixpoint failures_answered (from_path : string) (planned : list Attempt)
    (evs : list Event) : Prop :=
  match evs with
  | [] => True
  | e :: rest =>
      (forall q, failed_folder e = Some q ->
         exists a ok more,
           In a planned /\ In q (ensure a) /\
           after_folder_records rest =
             FilesMove from_path (destination a) ok ::
             MoveFile from_path (destination a) ok :: more) /\
      failures_answered from_path planned rest
  end.

(** ** Listings in pages *)

(** Two states with the same client and the same counters; their journals
    may differ. *)
Definition same_store {D : Type} (s1 s2 : Organizer D) : Prop :=
  dbx s1 = dbx s2 /\ stats s1 = stats s2.

(** A computation whose result, client and counters do not depend on the
    journal it starts from. *)
Definition journal_blind {D A : Type} (m : M D A) : Prop :=
  forall s1 s2, same_store s1 s2 ->
    fst (m s1) = fst (m s2) /\ same_store (snd (m s1)) (snd (m s2)).

(** A scripted client that lists in pages: [files_list_folder] answers with
    the first page, [files_list_folder_continue] with the page kept under
    the cursor, and raises for an unknown cursor; folder and move requests
    go to the store. *)
Record PagedStore := {
  first_page : ListFolderResult;
  next_pages : list (string * ListFolderResult);
  paged_store : Store
}.

Definition with_store (d : PagedStore) (store : Store) : PagedStore :=
  {| first_page := first_page d; next_pages := next_pages d; paged_store := store |}.

#[export] Instance paged_api : DropboxApi PagedStore := {
  files_get_metadata d path := files_get_metadata (paged_store d) path;
  files_create_folder_v2 d path :=
    let (store, ok) := files_create_folder_v2 (paged_store d) path in
    (with_store d store, ok);
  files_move_v2 d from_path to_path :=
    let (store, ok) := files_move_v2 (paged_store d) from_path to_path in
    (with_store d store, ok);
  files_list_folder d path := Some (first_page d);
  files_list_folder_continue d cursor :=
    snd <$> List.find (fun page => String.eqb (fst page) cursor) (next_pages d)
}.

Example splitext_1 : Py.splitext "FILE.PDF" = ("FILE", ".PDF").
Proof. reflexivity. Qed.
Example splitext_2 : Py.splitext ".pdf" = (".pdf", "").
Proof. reflexivity. Qed.
Example splitext_3 : Py.splitext "a/b.c/..x" = ("a/b.c/..x", "").
Proof. reflexivity. Qed.
Example splitext_4 : Py.splitext "a.tar.gz" = ("a.tar", ".gz").
Proof. reflexivity. Qed.
Example search_1 : Py.search_20dd "2019_vs_2023.jpg" = Some "2019".
Proof. reflexivity. Qed.
Example search_2 : Py.search_20dd "IMG_20240101.jpg" = Some "2024".
Proof. reflexivity. Qed.
Example search_3 : Py.search_20dd "file_2100.jpg" = None.
Proof. reflexivity. Qed.
Example search_4 : Py.search_20dd "IMG_20٢٣.jpg" = Some "20٢٣".
Proof. reflexivity. Qed.
Example search_5 : Py.search_20dd "20٢٣_2024.jpg" = Some "20٢٣".
Proof. reflexivity. Qed.
Example search_6 : Py.search_20dd "20²³_20Ù¢.jpg" = None.
Proof. reflexivity. Qed.
Example lower_ascii : Py.lower "FILE.PDF" = "file.pdf".
Proof. reflexivity. Qed.
Example lower_beyond_ascii : Py.lower "Café_٢.PDF" = "café_٢.pdf".
Proof. reflexivity. Qed.

(** The assertions of [test_organizer.py] and the scenarios of [demo.py]. *)
Example test_year_extraction :
  _extract_year_from_filename (test_config true) <$>
    ["photo_2023.jpg"; "IMG_20240101.jpg"; "vacation2022summer.png";
     "photo.jpg"; "image_1999.jpg"; "file_2100.jpg"] =
  [Some "2023"; Some "2024"; Some "2022"; None; None; None].
Proof. reflexivity. Qed.
Example test_document_detection :
  _is_document (test_config true) <$>
    ["report.pdf"; "document.docx"; "notes.txt"; "FILE.PDF";
     "photo.jpg"; "video.mp4"; "archive.zip"] =
  [true; true; true; true; false; false; false].
Proof. reflexivity. Qed.
Example test_temp_file_detection :
  _is_temp_file (test_config true) <$>
    ["USER_SCOPED_TEMP_abc123"; "file_sync_temp"; "temp.tmp";
     "document.pdf"; "photo.jpg"] =
  [true; true; true; false; false].
Proof. reflexivity. Qed.
Example test_skip_logic :
  (fun '(file_path, file_name) => _should_skip (test_config true) file_path file_name) <$>
    [("/Photos Archive/photo.jpg", "photo.jpg");
     ("/Documents & Files/doc.pdf", "doc.pdf");
     ("/root/.dropbox", ".dropbox");
     ("/root/photo.jpg", "photo.jpg");
     ("/root/document.pdf", "document.pdf")] =
  [true; true; true; false; false].
Proof. reflexivity. Qed.
Example demo_classification :
  route (test_config true) <$>
    (root_file <$> ["vacation_2023_beach.jpg"; "report.pdf";
                    "USER_SCOPED_TEMP_abc123"; ".dropbox";
                    "random_file.dat"; "oldphoto_1999.jpg"]) =
  [ MoveTo Photos "/Photos Archive/2023/vacation_2023_beach.jpg";
    MoveTo Documents "/Documents & Files/report.pdf";
    MoveTo Temp "/Temp Files/USER_SCOPED_TEMP_abc123";
    Skip; NoMatch; NoMatch ].
Proof. reflexivity. Qed.

(** * Properties *)

(** ** Strings *)

Module PyFacts.
Import Py.

Lemma startswith_spec (s prefix : string) :
  startswith s prefix = true <-> exists rest, s = prefix +:+ rest.
Proof.
  revert s. induction prefix as [|c prefix IH]; intros s; cbn.
  - split; [intros _; now exists s | reflexivity].
  - destruct s as [|d s]; cbn.
    + split; [discriminate | intros [rest Hrest]; discriminate].
    + rewrite andb_true_iff, Ascii.eqb_eq, IH. split.
      * intros [-> [rest ->]]. now exists rest.
      * intros [rest Hrest]. injection Hrest as -> ->. split; [reflexivity | now exists rest].
Qed.

Lemma contains_spec (sub s : string) :
  contains sub s = true <-> exists pre post, s = pre +:+ sub +:+ post.
Proof.
  induction s as [|d s IH]; cbn.
  - rewrite orb_false_r, startswith_spec. split.
    + intros [rest Hrest]. now exists "", rest.
    + intros (pre & post & Heq). destruct pre; [now exists post|discriminate].
  - rewrite orb_true_iff, startswith_spec, IH. split.
    + intros [[rest Hrest] | (pre & post & ->)].
      * now exists "", rest.
      * now exists (String d pre), post.
    + intros (pre & post & Heq). destruct pre as [|e pre]; cbn in Heq.
      * left. now exists post.
      * injection Heq as -> ->. right. now exists pre, post.
Qed.

Lemma str_in_spec (x : string) (l : list string) :
  str_in x l = true <-> In x l.
Proof.
  unfold str_in. rewrite existsb_exists. split.
  - intros (y & Hin & Heq). apply String.eqb_eq in Heq. now subst.
  - intros Hin. exists x. split; [assumption | apply String.eqb_refl].
Qed.

Lemma append_assoc (a b c : string) : (a +:+ b) +:+ c = a +:+ b +:+ c.
Proof. induction a; cbn; congruence. Qed.

Lemma continuations_spec (n : nat) (acc : Z) (s : string) cp bytes rest :
  continuations n acc s = Some (cp, bytes, rest) ->
  s = bytes +:+ rest /\
  forall rest', continuations n acc (bytes +:+ rest') = Some (cp, bytes, rest').
Proof.
  revert acc s cp bytes rest. induction n as [|n IH]; intros acc s cp bytes rest; cbn.
  - intros [= <- <- <-]. split; reflexivity.
  - destruct s as [|c s]; [discriminate|].
    destruct ((128 <=? code c) && (code c <=? 191)) eqn:Hc; [|discriminate].
    destruct (continuations n (acc * 64 + (code c - 128)) s)
      as [[[cp0 bytes0] rest0]|] eqn:Hn; [|discriminate].
    intros [= <- <- <-]. destruct (IH _ _ _ _ _ Hn) as [-> Hmore].
    split; [reflexivity|]. intros rest'. cbn. now rewrite Hc, Hmore.
Qed.

(** A character is read off the front of the string, and reading it does
    not depend on what follows. *)
Lemma decode_spec (s : string) cp bytes rest :
  decode s = Some (cp, bytes, rest) ->
  s = bytes +:+ rest /\ bytes <> "" /\
  forall rest', decode (bytes +:+ rest') = Some (cp, bytes, rest').
Proof.
  destruct s as [|c s]; [discriminate|]. unfold decode.
  assert (forall n lead least,
             match continuations n lead s with
             | Some (cp0, bytes0, rest0) =>
                 if least <=? cp0 then Some (cp0, String c bytes0, rest0) else None
             | None => None
             end = Some (cp, bytes, rest) ->
             String c s = bytes +:+ rest /\ bytes <> "" /\
             exists tail, bytes = String c tail /\
               forall rest',
                 match continuations n lead (tail +:+ rest') with
                 | Some (cp0, bytes0, rest0) =>
                     if least <=? cp0 then Some (cp0, String c bytes0, rest0) else None
                 | None => None
                 end = Some (cp, bytes, rest')) as Hlonger.
  { intros n lead least.
    destruct (continuations n lead s) as [[[cp0 bytes0] rest0]|] eqn:Hn; [|discriminate].
    destruct (least <=? cp0) eqn:Hleast; [|discriminate].
    intros [= <- <- <-]. destruct (continuations_spec _ _ _ _ _ _ Hn) as [-> Hmore].
    split_and!; [reflexivity | discriminate |].
    exists bytes0. split; [reflexivity|]. intros rest'. now rewrite Hmore, Hleast. }
  cbv zeta.
  destruct (code c <? 128) eqn:H1.
  - intros [= <- <- <-]. split_and!; [reflexivity | discriminate |].
    intros rest'. cbn. now rewrite H1.
  - destruct ((192 <=? code c) && (code c <? 224)) eqn:H2;
      [|destruct ((224 <=? code c) && (code c <? 240)) eqn:H3;
        [|destruct ((240 <=? code c) && (code c <? 248)) eqn:H4; [|discriminate]]];
      intros Hd; destruct (Hlonger _ _ _ Hd) as (Hs & Hne & tail & -> & Hmore);
      (split_and!; [exact Hs | exact Hne |]);
      intros rest'; cbn [String.append]; rewrite H1, ?H2, ?H3, ?H4; apply Hmore.
Qed.

Lemma append_empty (a : string) : a +:+ "" = a.
Proof. induction a; cbn; congruence. Qed.

Lemma digit_at_spec (s d rest : string) :
  digit_at s = Some (d, rest) <-> is_digit d = true /\ s = d +:+ rest.
Proof.
  unfold is_digit, digit_at. split.
  - destruct (decode s) as [[[cp bytes] rest0]|] eqn:Hd; [|discriminate].
    destruct (is_decimal cp) eqn:Hcp; [|discriminate].
    intros [= <- <-]. destruct (decode_spec _ _ _ _ Hd) as (Hs & _ & Hmore).
    split; [|exact Hs].
    specialize (Hmore ""). rewrite append_empty in Hmore. now rewrite Hmore, Hcp.
  - intros [Hdigit ->].
    destruct (decode d) as [[[cp bytes] rest0]|] eqn:Hd; [|discriminate].
    destruct (is_decimal cp) eqn:Hcp; [|discriminate].
    destruct rest0; [|discriminate].
    destruct (decode_spec _ _ _ _ Hd) as (Hs & _ & Hmore).
    rewrite append_empty in Hs. subst bytes. now rewrite Hmore, Hcp.
Qed.

Lemma is_digit_nonempty (d : string) : is_digit d = true -> d <> "".
Proof. intros Hd ->. discriminate Hd. Qed.

Lemma match_20dd_spec (s y : string) :
  match_20dd s = Some y <-> is_year y /\ exists rest, s = y +:+ rest.
Proof.
  unfold match_20dd, is_year. split.
  - intros Hm.
    destruct s as [|c0 [|c1 s2]]; try discriminate;
      try (destruct c0 as [[] [] [] [] [] [] [] []]; discriminate).
    destruct c0 as [[] [] [] [] [] [] [] []]; try discriminate.
    destruct c1 as [[] [] [] [] [] [] [] []]; try discriminate.
    destruct (digit_at s2) as [[d1 s3]|] eqn:H1; [|discriminate].
    destruct (digit_at s3) as [[d2 rest]|] eqn:H2; [|discriminate].
    injection Hm as <-.
    apply digit_at_spec in H1 as [H1 ->]. apply digit_at_spec in H2 as [H2 ->].
    split; [now exists d1, d2 | exists rest].
    cbn [String.append]. now rewrite append_assoc.
  - intros [(d1 & d2 & H1 & H2 & ->) [rest ->]].
    cbn [String.append]. rewrite append_assoc.
    rewrite (proj2 (digit_at_spec (d1 +:+ d2 +:+ rest) d1 (d2 +:+ rest)))
      by (split; [exact H1 | reflexivity]).
    rewrite (proj2 (digit_at_spec (d2 +:+ rest) d2 rest))
      by (split; [exact H2 | reflexivity]).
    reflexivity.
Qed.

Lemma search_20dd_first (s y : string) :
  search_20dd s = Some y ->
  exists pre post,
    s = pre +:+ y +:+ post /\ is_year y /\
    forall pre' y' post',
      s = pre' +:+ y' +:+ post' -> is_year y' ->
      (String.length pre <= String.length pre')%nat.
Proof.
  revert y. induction s as [|c s IH]; intros y.
  - cbn. discriminate.
  - cbn [search_20dd]. destruct (match_20dd (String c s)) as [y0|] eqn:Hm.
    + intros [= <-]. apply match_20dd_spec in Hm as [Hy [rest Hrest]].
      exists "", rest. cbn. split_and!; auto. intros; lia.
    + intros Hs. destruct (IH y Hs) as (pre & post & -> & Hy & Hfirst).
      exists (String c pre), post. cbn. split_and!; auto.
      intros pre' y' post' Heq Hy'. destruct pre' as [|c' pre']; cbn in Heq.
      * assert (match_20dd (String c (pre +:+ y +:+ post)) = Some y') as Hm'
          by (apply match_20dd_spec; split; [assumption | now exists post']).
        congruence.
      * injection Heq as -> Heq. cbn. apply le_n_S. eauto.
Qed.

Lemma search_20dd_found (s pre y post : string) :
  s = pre +:+ y +:+ post -> is_year y -> search_20dd s <> None.
Proof.
  intros -> Hy. induction pre as [|c pre IH].
  - cbn [String.append]. destruct y as [|c y].
    + destruct Hy as (? & ? & _ & _ & ?). discriminate.
    + cbn [String.append search_20dd].
      assert (match_20dd (String c (y +:+ post)) = Some (String c y)) as ->
        by (apply match_20dd_spec; split; [assumption | now exists post]).
      discriminate.
  - cbn [String.append search_20dd].
    destruct (match_20dd (String c (pre +:+ y +:+ post))); [discriminate | exact IH].
Qed.





























End PyFacts.

(** ** Runs of a plan *)

Section RunFacts.

Variable dry : bool.
Variable from_path : string.

Lemma ensure_one_events p evs :
  ensure_one dry p evs ->
  Forall (fun e => is_ensure_event e = true) evs /\
  (dry = true -> Forall (fun e => is_store_request e = false) evs).
Proof.
  intros [Hd | Hd | ok Hd | Hd];
    (split; [repeat constructor | intros Hd'; try congruence; repeat constructor]).
Qed.

Lemma ensure_records_events l evs :
  ensure_records dry l evs ->
  Forall (fun e => is_ensure_event e = true) evs /\
  (dry = true -> Forall (fun e => is_store_request e = false) evs).
Proof.
  induction 1 as [|p l e1 e2 H1 _ [IH1 IH2]]; [split; constructor|].
  destruct (ensure_one_events _ _ H1) as [H1a H1b].
  split; [|intros Hd]; apply Forall_app; auto.
Qed.

Lemma ensure_events_no_attempt evs :
  Forall (fun e => is_ensure_event e = true) evs -> move_attempts evs = [].
Proof.
  induction 1 as [|e evs He _ IH]; [reflexivity|].
  unfold move_attempts in *. cbn. now destruct e.
Qed.

Lemma ensure_events_no_evaluation evs :
  Forall (fun e => is_ensure_event e = true) evs ->
  filter (fun e => is_rule_evaluation e = true) evs = [].
Proof.
  induction 1 as [|e evs He _ IH]; [reflexivity|].
  rewrite filter_cons, IH. now destruct e.
Qed.

Lemma after_first_success_ensure evs rest :
  Forall (fun e => is_ensure_event e = true) evs ->
  after_first_success (evs ++ rest) = after_first_success rest.
Proof.
  induction 1 as [|e evs He _ IH]; [reflexivity|].
  cbn. now destruct e.
Qed.

Lemma move_attempts_app l1 l2 :
  move_attempts (l1 ++ l2) = move_attempts l1 ++ move_attempts l2.
Proof. apply omap_app. Qed.

Lemma move_attempts_move_records to_path ok :
  move_attempts (move_records dry from_path to_path ok) = [(from_path, to_path, ok)].
Proof. unfold move_records. now destruct dry. Qed.

Lemma move_attempts_evaluation ev evs :
  is_rule_evaluation ev = true -> move_attempts (ev :: evs) = move_attempts evs.
Proof. now destruct ev. Qed.

Lemma add_errors_0 st : add_errors 0 st = st.
Proof. destruct st. unfold add_errors. cbn. f_equal. lia. Qed.

Lemma add_errors_incr n st : add_errors n (incr_errors st) = add_errors (S n) st.
Proof. unfold add_errors, incr_errors. cbn. f_equal. lia. Qed.

(** The attempts of a run and its counters: the planned moves are tried in
    order; either the attempt number [k] is the first to succeed, it is the
    last one made and its category is counted, or every planned move
    failed. *)
Lemma Run_outcome p st st' evs :
  Run dry from_path p st st' evs ->
  Forall (fun step => is_rule_evaluation (fst step) = true) p ->
  let planned := omap snd p in
  (exists k a,
      planned !! k = Some a /\
      move_attempts evs =
        (attempt_record from_path false <$> take k planned) ++
        [attempt_record from_path true a] /\
      st' = incr_moved (category a) (add_errors k st) /\
      (dry = true -> k = 0%nat))
  \/
  (move_attempts evs = attempt_record from_path false <$> planned /\
   st' = add_errors (length planned) st /\
   (dry = true -> planned = [])).
Proof.
  induction 1 as [st | ev rest st st' evs _ IH | ev a rest st ens Hens
                 | ev a rest st st' ens evs Hd Hens _ IH];
    intros Hp; cbn zeta.
  - right. cbn. now rewrite add_errors_0.
  - apply Forall_cons in Hp as [Hev Hp]. cbn in Hev.
    rewrite move_attempts_evaluation by assumption. cbn [omap snd]. auto.
  - apply Forall_cons in Hp as [Hev Hp]. cbn in Hev.
    left. exists 0%nat, a. cbn [omap snd]. split_and!; auto.
    + rewrite move_attempts_evaluation, move_attempts_app by assumption.
      rewrite ensure_events_no_attempt
        by (eapply ensure_records_events; eassumption).
      now rewrite move_attempts_move_records.
    + now rewrite add_errors_0.
  - apply Forall_cons in Hp as [Hev Hp]. cbn in Hev.
    rewrite move_attempts_evaluation, !move_attempts_app by assumption.
    rewrite ensure_events_no_attempt
      by (eapply ensure_records_events; eassumption).
    rewrite move_attempts_move_records. cbn [omap snd app].
    destruct (IH Hp) as [(k & b & Hk & Hm & Hst & Hdk) | (Hm & Hst & Hdk)].
    + left. exists (S k), b. split_and!; auto.
      * rewrite Hm. reflexivity.
      * now rewrite Hst, add_errors_incr.
      * congruence.
    + right. split_and!.
      * rewrite Hm. reflexivity.
      * cbn [length]. now rewrite Hst, add_errors_incr.
      * congruence.
Qed.

Lemma Run_after_first_success p st st' evs :
  Run dry from_path p st st' evs ->
  Forall (fun step => is_rule_evaluation (fst step) = true) p ->
  after_first_success evs = [].
Proof.
  induction 1 as [st | ev rest st st' evs _ IH | ev a rest st ens Hens
                 | ev a rest st st' ens evs Hd Hens _ IH];
    intros Hp; try apply Forall_cons in Hp as [Hev Hp]; cbn in *.
  - reflexivity.
  - destruct ev; try discriminate; auto.
  - assert (after_first_success
              (ens ++ move_records dry from_path (destination a) true) = []) as Hafter.
    { rewrite after_first_success_ensure
        by (eapply ensure_records_events; eassumption).
      unfold move_records. now destruct dry. }
    destruct ev; try discriminate; auto.
  - assert (after_first_success
              (ens ++ move_records dry from_path (destination a) false ++ evs) = [])
      as Hafter.
    { rewrite after_first_success_ensure
        by (eapply ensure_records_events; eassumption).
      subst dry. cbn. auto. }
    destruct ev; try discriminate; auto.
Qed.

Lemma after_first_success_split evs l1 from_p to_p l2 :
  after_first_success evs = [] ->
  evs = l1 ++ MoveFile from_p to_p true :: l2 ->
  l2 = [].
Proof.
  revert evs. induction l1 as [|e l1 IH]; intros evs Hafter ->; cbn in Hafter.
  - assumption.
  - destruct e; try (eapply IH; [eassumption | reflexivity]).
    destruct result; [|eapply IH; [eassumption | reflexivity]].
    destruct l1; discriminate.
Qed.

Lemma Run_dry_no_store_request p st st' evs :
  Run dry from_path p st st' evs ->
  Forall (fun step => is_rule_evaluation (fst step) = true) p ->
  dry = true ->
  Forall (fun e => is_store_request e = false) evs.
Proof.
  induction 1 as [st | ev rest st st' evs _ IH | ev a rest st ens Hens
                 | ev a rest st st' ens evs Hd Hens _ IH];
    intros Hp Hdry; try apply Forall_cons in Hp as [Hev Hp]; cbn in *.
  - constructor.
  - constructor; [now destruct ev | auto].
  - constructor; [now destruct ev |]. apply Forall_app. split.
    + eapply ensure_records_events; eassumption.
    + unfold move_records. rewrite Hdry. repeat constructor.
  - congruence.
Qed.

Lemma Run_evaluation_order p st st' evs :
  Run dry from_path p st st' evs ->
  Forall (fun step => is_rule_evaluation (fst step) = true) p ->
  filter (fun e => is_rule_evaluation e = true) evs `prefix_of` (fst <$> p).
Proof.
  induction 1 as [st | ev rest st st' evs _ IH | ev a rest st ens Hens
                 | ev a rest st st' ens evs Hd Hens _ IH];
    intros Hp; try apply Forall_cons in Hp as [Hev Hp]; cbn [fst fmap list_fmap] in *.
  - reflexivity.
  - rewrite filter_cons_True by assumption. apply prefix_cons. auto.
  - rewrite filter_cons_True by assumption. apply prefix_cons.
    rewrite filter_app, ensure_events_no_evaluation
      by (eapply ensure_records_events; eassumption).
    unfold move_records. destruct dry; cbn; apply prefix_nil.
  - rewrite filter_cons_True by assumption. apply prefix_cons.
    rewrite !filter_app, ensure_events_no_evaluation
      by (eapply ensure_records_events; eassumption).
    subst dry. cbn. auto.
Qed.

Lemma Run_move_requests p st st' evs :
  Run dry from_path p st st' evs ->
  Forall (fun step => is_rule_evaluation (fst step) = true) p ->
  omap move_request evs = if dry then [] else move_attempts evs.
Proof.
  assert (forall ens, Forall (fun e => is_ensure_event e = true) ens ->
                      omap move_request ens = []) as Hens0.
  { induction 1 as [|e ens He _ IH]; [reflexivity|]. cbn. now destruct e. }
  assert (forall ev evs, is_rule_evaluation ev = true ->
                         omap move_request (ev :: evs) = omap move_request evs) as Hev0
    by (intros ev ? ?; now destruct ev).
  assert (forall to_path ok,
             omap move_request (move_records dry from_path to_path ok) =
             if dry then [] else [(from_path, to_path, ok)]) as Hmv
    by (intros; unfold move_records; now destruct dry).
  induction 1 as [st | ev rest st st' evs _ IH | ev a rest st ens Hens
                 | ev a rest st st' ens evs Hd Hens _ IH];
    intros Hp; try apply Forall_cons in Hp as [Hev Hp]; cbn [fst] in *.
  - now destruct dry.
  - rewrite Hev0, move_attempts_evaluation by assumption. auto.
  - rewrite Hev0, move_attempts_evaluation by assumption.
    rewrite omap_app, move_attempts_app, Hmv, move_attempts_move_records.
    rewrite Hens0, ensure_events_no_attempt
      by (eapply ensure_records_events; eassumption).
    now destruct dry.
  - rewrite Hev0, move_attempts_evaluation by assumption.
    rewrite !omap_app, !move_attempts_app, Hmv, move_attempts_move_records.
    rewrite Hens0, ensure_events_no_attempt
      by (eapply ensure_records_events; eassumption).
    rewrite (IH Hp). now destruct dry.
Qed.

Lemma failures_followed_quiet evs :
  Forall (fun e => is_folder_failure e = false) evs -> failures_followed evs = true.
Proof.
  induction 1 as [|e evs He _ IH]; [reflexivity|]. cbn. now rewrite He, IH.
Qed.

Lemma failures_followed_app l1 l2 :
  existsb is_move_request l2 = true -> failures_followed l2 = true ->
  failures_followed (l1 ++ l2) = true.
Proof.
  intros Hex Hl2. induction l1 as [|e l1 IH]; [assumption|].
  cbn. rewrite IH, andb_true_r. destruct (is_folder_failure e); [|reflexivity].
  rewrite existsb_app, Hex. apply orb_true_r.
Qed.

Lemma failures_followed_split evs l1 e l2 :
  failures_followed evs = true ->
  evs = l1 ++ e :: l2 -> is_folder_failure e = true ->
  exists from_p to_p ok, In (FilesMove from_p to_p ok) l2.
Proof.
  revert evs. induction l1 as [|e1 l1 IH]; intros evs Hff -> He; cbn in Hff.
  - rewrite He in Hff. apply andb_true_iff in Hff as [Hex _].
    apply existsb_exists in Hex as (x & Hin & Hx).
    destruct x; try discriminate. eauto.
  - apply andb_true_iff in Hff as [_ Hff]. eapply IH; eauto.
Qed.

Lemma Run_failures_followed p st st' evs :
  Run dry from_path p st st' evs ->
  Forall (fun step => is_rule_evaluation (fst step) = true) p ->
  failures_followed evs = true.
Proof.
  assert (forall ev evs, is_rule_evaluation ev = true ->
                         failures_followed (ev :: evs) = failures_followed evs) as Hev0
    by (intros ev ? ?; now destruct ev).
  induction 1 as [st | ev rest st st' evs _ IH | ev a rest st ens Hens
                 | ev a rest st st' ens evs Hd Hens _ IH];
    intros Hp; try apply Forall_cons in Hp as [Hev Hp]; cbn [fst] in *.
  - reflexivity.
  - rewrite Hev0 by assumption. auto.
  - rewrite Hev0 by assumption.
    destruct (ensure_records_events _ _ Hens) as [_ Hq]. clear Hens.
    destruct dry eqn:Hdry.
    + apply failures_followed_quiet. apply Forall_app. split.
      * eapply Forall_impl; [exact (Hq eq_refl)|]. intros e He. now destruct e.
      * repeat constructor.
    + apply failures_followed_app; reflexivity.
  - rewrite Hev0 by assumption. subst dry.
    apply failures_followed_app; [reflexivity|]. cbn. auto.
Qed.

Lemma first_move_ensure current ens rest :
  Forall (fun e => is_ensure_event e = true) ens ->
  first_move current (ens ++ rest) = first_move current rest.
Proof.
  induction 1 as [|e ens He _ IH]; [reflexivity|].
  cbn [app]. destruct e; try discriminate; cbn; exact IH.
Qed.

(** The first move of a run is the first planned one, under the category of
    its own rule. *)
Lemma Run_first_move p st st' evs current :
  Run dry from_path p st st' evs ->
  Forall (fun step => is_rule_evaluation (fst step) = true /\
                      forall a, snd step = Some a ->
                                rule_category (fst step) = Some (category a)) p ->
  first_move current evs =
    match omap snd p with
    | a :: _ => MoveTo (category a) (destination a)
    | [] => NoMatch
    end.
Proof.
  intros Hrun. revert current.
  induction Hrun as [st | ev rest st st' evs _ IH | ev a rest st ens Hens
                    | ev a rest st st' ens evs Hd Hens _ IH];
    intros current Hp; try apply Forall_cons in Hp as [[Hev Hcat] Hp];
    cbn [fst snd omap] in *.
  - reflexivity.
  - destruct ev; try discriminate; cbn; apply IH; assumption.
  - specialize (Hcat a eq_refl).
    assert (first_move (Some (category a))
              (ens ++ move_records dry from_path (destination a) true)
            = MoveTo (category a) (destination a)) as Hfirst.
    { rewrite first_move_ensure by (eapply ensure_records_events; eassumption).
      unfold move_records. now destruct dry. }
    destruct ev; try discriminate; cbn in *; injection Hcat as Hc;
      rewrite Hc; exact Hfirst.
  - specialize (Hcat a eq_refl).
    assert (first_move (Some (category a))
              (ens ++ move_records dry from_path (destination a) false ++ evs)
            = MoveTo (category a) (destination a)) as Hfirst.
    { rewrite first_move_ensure by (eapply ensure_records_events; eassumption).
      unfold move_records. now destruct dry. }
    destruct ev; try discriminate; cbn in *; injection Hcat as Hc;
      rewrite Hc; exact Hfirst.
Qed.

End RunFacts.

(** ** The effectful helpers *)

Section HelperFacts.

Context {D : Type} `{DropboxApi D}.
Variable cfg : Config.

(** One step of symbolic execution: split on the first call whose result
    is not known yet. *)
Ltac split_first_call m :=
  lazymatch m with
  | (let (_, _) := ?m' in _) => split_first_call m'
  | (if ?b then _ else _) => destruct b
  | (if ?b then _ else _) _ => destruct b
  | _ensure_folder_exists _ _ _ => destruct m as [? ?]
  | _move_file _ _ _ _ => destruct m as [? ?]
  end.

Ltac run_both_sides :=
  repeat (cbv beta iota zeta delta
            [bind ret record call update_stats run_plan attempt ensure_all
             truthy negb andb fst snd dbx stats journal folder_of
             ensure destination category incr_moved default from_option id];
          first
            [ reflexivity
            | lazymatch goal with
              | |- ?l = _ => split_first_call l
              end ]).

Lemma organize_file_plan (f : FileMetadata) (s : Organizer D) :
  _organize_file cfg f s =
  (skip_it <- call (ShouldSkip (path_display f) (name f))
                   (_should_skip cfg (path_display f) (name f)) ;;
   if skip_it then update_stats incr_skipped
   else run_plan cfg (path_display f) (plan cfg (name f))) s.
Proof.
  unfold _organize_file, plan, photo_step, flat_step.
  destruct (_should_skip cfg (path_display f) (name f)); [reflexivity|].
  destruct (_extract_year_from_filename cfg (name f)) as [[|c y]|];
    destruct (_is_document cfg (name f)); destruct (_is_temp_file cfg (name f));
    run_both_sides.
Qed.

Lemma ensure_folder_spec (p : string) (s : Organizer D) :
  exists d' evs,
    _ensure_folder_exists cfg p s =
      (tt, {| dbx := d'; stats := stats s; journal := journal s ++ evs |})
    /\ ensure_one (is_dry_run cfg) p evs
    /\ (is_dry_run cfg = true -> d' = dbx s).
Proof.
  unfold _ensure_folder_exists, bind, ret, get_dbx, set_dbx, record.
  destruct (is_dry_run cfg) eqn:Hdry; cbn.
  - exists (dbx s), [EnsureFolder p]. split_and!; auto. now constructor.
  - destruct (files_get_metadata (dbx s) p) eqn:Hmeta; cbn.
    + exists (dbx s), [FilesGetMetadata p MetadataFound; EnsureFolder p].
      rewrite <- app_assoc. split_and!; auto; try discriminate. now constructor.
    + destruct (files_create_folder_v2 (dbx s) p) as [d' ok]; cbn.
      exists d', [FilesGetMetadata p PathNotFound; FilesCreateFolder p ok; EnsureFolder p].
      rewrite <- !app_assoc. split_and!; auto; try discriminate. now constructor.
    + exists (dbx s), [FilesGetMetadata p OtherApiError; EnsureFolder p].
      rewrite <- app_assoc. split_and!; auto; try discriminate. now constructor.
Qed.

Lemma ensure_all_spec (l : list string) (s : Organizer D) :
  exists d' evs,
    ensure_all cfg l s =
      (tt, {| dbx := d'; stats := stats s; journal := journal s ++ evs |})
    /\ ensure_records (is_dry_run cfg) l evs
    /\ (is_dry_run cfg = true -> d' = dbx s).
Proof.
  revert s. induction l as [|p l IH]; intros s; cbn.
  - exists (dbx s), []. rewrite app_nil_r. destruct s; split_and!; auto. constructor.
  - unfold bind.
    destruct (ensure_folder_spec p s) as (d1 & e1 & -> & He1 & Hd1).
    destruct (IH {| dbx := d1; stats := stats s; journal := journal s ++ e1 |})
      as (d2 & e2 & -> & He2 & Hd2).
    cbn. exists d2, (e1 ++ e2). rewrite app_assoc. split_and!; auto.
    + now constructor.
    + intros Hdry. rewrite Hd2, Hd1 by assumption. reflexivity.
Qed.

Lemma move_file_spec (from_path to_path : string) (s : Organizer D) :
  exists (d' : D) (ok : bool),
    _move_file cfg from_path to_path s =
      (ok, {| dbx := d';
              stats := if ok then stats s else incr_errors (stats s);
              journal := journal s ++ move_records (is_dry_run cfg) from_path to_path ok |})
    /\ (is_dry_run cfg = true -> ok = true /\ d' = dbx s)
    /\ (is_dry_run cfg = false -> files_move_v2 (dbx s) from_path to_path = (d', ok)).
Proof.
  unfold _move_file, move_records, bind, ret, get_dbx, set_dbx, record, update_stats.
  destruct (is_dry_run cfg) eqn:Hdry; cbn.
  - exists (dbx s), true. split_and!; auto; discriminate.
  - destruct (files_move_v2 (dbx s) from_path to_path) as [d' [|]]; cbn.
    + exists d', true. rewrite <- app_assoc. split_and!; auto; discriminate.
    + exists d', false. rewrite <- app_assoc. split_and!; auto; discriminate.
Qed.

Lemma attempt_spec (from_path : string) (a : Attempt) (s : Organizer D) :
  exists (d' : D) (ok : bool) ens,
    attempt cfg from_path a s =
      (ok, {| dbx := d';
              stats := if ok then incr_moved (category a) (stats s)
                       else incr_errors (stats s);
              journal := journal s ++ ens ++
                         move_records (is_dry_run cfg) from_path (destination a) ok |})
    /\ ensure_records (is_dry_run cfg) (ensure a) ens
    /\ (is_dry_run cfg = true -> ok = true /\ d' = dbx s).
Proof.
  unfold attempt, bind.
  destruct (ensure_all_spec (ensure a) s) as (d1 & ens & -> & Hens & Hd1).
  destruct (move_file_spec from_path (destination a)
              {| dbx := d1; stats := stats s; journal := journal s ++ ens |})
    as (d2 & ok & -> & Hdry & _).
  cbn. exists d2, ok, ens. rewrite <- app_assoc.
  split_and!; [now destruct ok | assumption |].
  intros Hd. destruct (Hdry Hd) as [-> ->]. auto.
Qed.

Lemma run_plan_Run (from_path : string) (p : list (Event * option Attempt))
    (s : Organizer D) :
  exists d' st' evs,
    run_plan cfg from_path p s =
      (tt, {| dbx := d'; stats := st'; journal := journal s ++ evs |})
    /\ Run (is_dry_run cfg) from_path p (stats s) st' evs
    /\ (is_dry_run cfg = true -> d' = dbx s).
Proof.
  revert s. induction p as [|[ev [a|]] rest IH]; intros s; cbn.
  - exists (dbx s), (stats s), []. rewrite app_nil_r. destruct s.
    split_and!; auto. constructor.
  - unfold bind, record; cbn.
    destruct (attempt_spec from_path a
                {| dbx := dbx s; stats := stats s; journal := journal s ++ [ev] |})
      as (d1 & ok & ens & -> & Hens & Hdry).
    cbn. destruct ok; cbn.
    + eexists d1, _, (ev :: ens ++ move_records _ from_path (destination a) true).
      rewrite <- app_assoc. cbn. split_and!; auto.
      * now constructor.
      * intros Hd. now destruct (Hdry Hd).
    + match goal with |- context [run_plan cfg from_path rest ?s1] =>
        destruct (IH s1) as (d2 & st2 & evs & -> & Hrun & Hdry2)
      end.
      cbn in *.
      exists d2, st2,
        (ev :: ens ++ move_records (is_dry_run cfg) from_path (destination a) false ++ evs).
      rewrite <- !app_assoc. cbn. split_and!; auto.
      * constructor; try assumption.
        destruct (is_dry_run cfg); [destruct Hdry; [reflexivity|discriminate]|reflexivity].
      * intros Hd. destruct (Hdry Hd). discriminate.
  - unfold bind, record; cbn.
    match goal with |- context [run_plan cfg from_path rest ?s1] =>
      destruct (IH s1) as (d2 & st2 & evs & -> & Hrun & Hdry2)
    end.
    cbn in *. exists d2, st2, (ev :: evs). rewrite <- app_assoc. cbn.
    split_and!; [reflexivity | now constructor | assumption].
Qed.

Lemma emitted_app {A} (m : M D A) (s : Organizer D) (evs : list Event) :
  journal (snd (m s)) = journal s ++ evs -> emitted m s = evs.
Proof.
  unfold emitted. intros ->. now rewrite drop_app_length.
Qed.

Lemma plan_rule_evaluations (file_name : string) :
  Forall (fun step => is_rule_evaluation (fst step) = true) (plan cfg file_name).
Proof.
  unfold plan, photo_step, flat_step. repeat constructor.
Qed.

(** Every execution of [_organize_file]: either the skip rule fires, or the
    plan is run. *)
Lemma organize_file_run (f : FileMetadata) (s : Organizer D) :
  (_should_skip cfg (path_display f) (name f) = true /\
   _organize_file cfg f s =
     (tt, {| dbx := dbx s; stats := incr_skipped (stats s);
             journal := journal s ++ [ShouldSkip (path_display f) (name f) true] |}))
  \/
  (_should_skip cfg (path_display f) (name f) = false /\
   exists d' st' evs,
     _organize_file cfg f s =
       (tt, {| dbx := d'; stats := st';
               journal := journal s ++
                          ShouldSkip (path_display f) (name f) false :: evs |})
     /\ Run (is_dry_run cfg) (path_display f) (plan cfg (name f)) (stats s) st' evs
     /\ (is_dry_run cfg = true -> d' = dbx s)).
Proof.
  rewrite organize_file_plan. remember (plan cfg (name f)) as p eqn:Hp.
  unfold bind, call, record, ret, update_stats; cbn.
  destruct (_should_skip cfg (path_display f) (name f)); [left; now split | right].
  split; [reflexivity|].
  match goal with |- context [run_plan cfg _ _ ?s1] =>
    destruct (run_plan_Run (path_display f) p s1)
      as (d' & st' & evs & -> & Hrun & Hdry)
  end.
  cbn in *. exists d', st', evs. rewrite <- app_assoc. now split_and!.
Qed.

End HelperFacts.

(** ** The rule chain on one entry *)

Section OrganizeFile.

Context {D : Type} `{DropboxApi D}.
Variable cfg : Config.

(** The journal only grows, and what [_organize_file] adds is: the skip
    record alone, or the skip record followed by a run of the plan. *)
Lemma organize_file_emitted (f : FileMetadata) (s : Organizer D) :
  let s' := snd (_organize_file cfg f s) in
  let evs := emitted (_organize_file cfg f) s in
  journal s' = journal s ++ evs /\
  (if _should_skip cfg (path_display f) (name f)
   then evs = [ShouldSkip (path_display f) (name f) true] /\
        stats s' = incr_skipped (stats s) /\ dbx s' = dbx s
   else exists evs0,
        evs = ShouldSkip (path_display f) (name f) false :: evs0 /\
        Run (is_dry_run cfg) (path_display f) (plan cfg (name f))
            (stats s) (stats s') evs0 /\
        (is_dry_run cfg = true -> dbx s' = dbx s)).
Proof.
  cbn zeta.
  destruct (organize_file_run cfg f s)
    as [[Hskip Heq] | [Hskip (d' & st' & evs0 & Heq & Hrun & Hdry)]];
    rewrite Hskip.
  - rewrite (emitted_app _ s [ShouldSkip (path_display f) (name f) true])
      by now rewrite Heq.
    rewrite Heq. cbn. auto.
  - rewrite (emitted_app _ s (ShouldSkip (path_display f) (name f) false :: evs0))
      by now rewrite Heq.
    rewrite Heq. cbn. split; [reflexivity|]. now exists evs0.
Qed.

Lemma candidates_planned (f : FileMetadata) :
  _should_skip cfg (path_display f) (name f) = false ->
  candidates cfg f = omap snd (plan cfg (name f)).
Proof. unfold candidates. now intros ->. Qed.

(** The attempts made for one entry and the counters, in full. *)
Lemma organize_file_outcome (f : FileMetadata) (s : Organizer D) :
  let s' := snd (_organize_file cfg f s) in
  let evs := emitted (_organize_file cfg f) s in
  let planned := candidates cfg f in
  (exists k a,
      planned !! k = Some a /\
      move_attempts evs =
        (attempt_record (path_display f) false <$> take k planned) ++
        [attempt_record (path_display f) true a] /\
      stats s' = incr_moved (category a) (add_errors k (stats s)) /\
      (is_dry_run cfg = true -> k = 0%nat))
  \/
  (move_attempts evs = attempt_record (path_display f) false <$> planned /\
   stats s' = (if _should_skip cfg (path_display f) (name f) then incr_skipped
               else add_errors (length planned)) (stats s) /\
   (is_dry_run cfg = true -> planned = [])).
Proof.
  cbn zeta. destruct (organize_file_emitted f s) as [_ Hcase].
  unfold candidates.
  destruct (_should_skip cfg (path_display f) (name f)) eqn:Hskip.
  - destruct Hcase as (-> & -> & _). right. cbn. auto.
  - destruct Hcase as (evs0 & -> & Hrun & _).
    rewrite move_attempts_evaluation by reflexivity.
    exact (Run_outcome _ _ _ _ _ _ Hrun (plan_rule_evaluations cfg (name f))).
Qed.

Lemma plan_rule_categories (file_name : string) :
  Forall (fun step => is_rule_evaluation (fst step) = true /\
                      forall a, snd step = Some a ->
                                rule_category (fst step) = Some (category a))
         (plan cfg file_name).
Proof.
  unfold plan, photo_step, flat_step.
  destruct (_extract_year_from_filename cfg file_name) as [[|c y]|];
    destruct (_is_document cfg file_name); destruct (_is_temp_file cfg file_name);
    repeat constructor; cbn; intros a Ha; try discriminate;
    injection Ha as <-; reflexivity.
Qed.

(** The decision read off the journal is the one [route] computes from the
    configuration and the entry alone. *)
Lemma decision_route (f : FileMetadata) (s : Organizer D) :
  decision_of (emitted (_organize_file cfg f) s) = route cfg f.
Proof.
  destruct (organize_file_emitted f s) as [_ Hcase].
  unfold route, candidates.
  destruct (_should_skip cfg (path_display f) (name f)) eqn:Hskip.
  - destruct Hcase as (-> & _). reflexivity.
  - destruct Hcase as (evs0 & -> & Hrun & _). cbn.
    exact (Run_first_move _ _ _ _ _ _ None Hrun (plan_rule_categories (name f))).
Qed.

Lemma candidates_unfold (f : FileMetadata) :
  candidates cfg f =
  if _should_skip cfg (path_display f) (name f) then []
  else
    match _extract_year_from_filename cfg (name f) with
    | Some (String c y) =>
        let year_folder := "/" +:+ folder_of cfg Photos +:+ "/" +:+ String c y in
        [ {| category := Photos;
             ensure := ["/" +:+ folder_of cfg Photos; year_folder];
             destination := year_folder +:+ "/" +:+ name f |} ]
    | _ => []
    end ++
    (if _is_document cfg (name f)
     then [ {| category := Documents;
               ensure := ["/" +:+ folder_of cfg Documents];
               destination := ("/" +:+ folder_of cfg Documents) +:+ "/" +:+ name f |} ]
     else []) ++
    (if _is_temp_file cfg (name f)
     then [ {| category := Temp;
               ensure := ["/" +:+ folder_of cfg Temp];
               destination := ("/" +:+ folder_of cfg Temp) +:+ "/" +:+ name f |} ]
     else []).
Proof.
  unfold candidates, plan, photo_step, flat_step.
  destruct (_should_skip cfg (path_display f) (name f)); [reflexivity|].
  destruct (_extract_year_from_filename cfg (name f)) as [[|c y]|];
    destruct (_is_document cfg (name f)); destruct (_is_temp_file cfg (name f));
    reflexivity.
Qed.

(** The first attempt is for the first candidate; it succeeds in dry-run
    mode, and when it succeeds it is the only one and its category is
    counted.  Without a candidate nothing is attempted. *)
Lemma organize_file_first_attempt (f : FileMetadata) (s : Organizer D) :
  let s' := snd (_organize_file cfg f s) in
  let evs := emitted (_organize_file cfg f) s in
  match candidates cfg f with
  | [] =>
      move_attempts evs = [] /\
      stats s' = (if _should_skip cfg (path_display f) (name f) then incr_skipped
                  else id) (stats s)
  | a :: _ =>
      exists (ok : bool) more,
        move_attempts evs = (path_display f, destination a, ok) :: more /\
        (is_dry_run cfg = true -> ok = true) /\
        (ok = true -> more = [] /\ stats s' = incr_moved (category a) (stats s))
  end.
Proof.
  cbn zeta.
  destruct (organize_file_outcome f s)
    as [(k & a & Hk & -> & -> & Hdry) | (-> & -> & Hdry)];
    destruct (candidates cfg f) as [|a0 rest]; try discriminate.
  - destruct k as [|k]; cbn in *.
    + injection Hk as ->. exists true, []. rewrite add_errors_0. auto.
    + exists false, ((attempt_record (path_display f) false <$> take k rest) ++
                     [attempt_record (path_display f) true a]).
      split_and!; [reflexivity | | discriminate].
      intros Hd. now specialize (Hdry Hd).
  - cbn. split; [reflexivity|].
    destruct (_should_skip cfg (path_display f) (name f)); [reflexivity|].
    apply add_errors_0.
  - exists false, (attempt_record (path_display f) false <$> rest).
    split_and!; [reflexivity | | discriminate].
    intros Hd. now specialize (Hdry Hd).
Qed.

End OrganizeFile.

(** ** The listing loop *)

Section Scan.

Context {D : Type} `{DropboxApi D}.
Variable cfg : Config.

(** A relation between the states before and after that holds of doing
    nothing, composes, and holds of each entry and of each listing record,
    holds of the whole scan. *)
Section Invariant.

Variable R : Organizer D -> Organizer D -> Prop.
Hypothesis R_refl : forall s, R s s.
Hypothesis R_trans : forall s1 s2 s3, R s1 s2 -> R s2 s3 -> R s1 s3.
Hypothesis R_file : forall f s, R s (snd (_organize_file cfg f s)).
Hypothesis R_list : forall p ok s, R s (snd (record (FilesListFolder p ok) s)).
Hypothesis R_continue :
  forall c ok s, R s (snd (record (FilesListFolderContinue c ok) s)).

Lemma organize_entries_invariant (l : list Metadata) (s : Organizer D) :
  R s (snd (organize_entries cfg l s)).
Proof.
  revert s. induction l as [|[f | ? ? | ?] l IH]; intros s; cbn; auto.
  unfold bind. specialize (R_file f s).
  destruct (_organize_file cfg f s) as [[] s1]. cbn in *. eauto.
Qed.

Lemma scan_more_invariant (fuel : nat) (result : ListFolderResult) (s : Organizer D) :
  R s (snd (scan_more cfg fuel result s)).
Proof.
  revert result s. induction fuel as [|fuel IH]; intros result s; cbn;
    destruct (has_more result); cbn; auto.
  unfold bind, get_dbx.
  destruct (files_list_folder_continue (dbx s) (cursor result)) as [result'|].
  - specialize (R_continue (cursor result) true s).
    destruct (record (FilesListFolderContinue (cursor result) true) s) as [[] s1].
    pose proof (organize_entries_invariant (entries result') s1) as Hent.
    destruct (organize_entries cfg (entries result') s1) as [[] s2].
    cbn in *. eauto.
  - specialize (R_continue (cursor result) false s).
    destruct (record (FilesListFolderContinue (cursor result) false) s) as [[] s1].
    cbn in *. assumption.
Qed.

Lemma scan_and_organize_invariant (fuel : nat) (path : string) (s : Organizer D) :
  R s (snd (scan_and_organize cfg fuel path s)).
Proof.
  unfold scan_and_organize, bind, get_dbx.
  set (list_path := match path with "" => "" | _ => "/" +:+ path end).
  destruct (files_list_folder (dbx s) list_path) as [result|].
  - specialize (R_list list_path true s).
    destruct (record (FilesListFolder list_path true) s) as [[] s1].
    pose proof (organize_entries_invariant (entries result) s1) as Hent.
    destruct (organize_entries cfg (entries result) s1) as [[] s2].
    pose proof (scan_more_invariant fuel result s2). cbn in *. eauto.
  - specialize (R_list list_path false s).
    destruct (record (FilesListFolder list_path false) s) as [[] s1].
    cbn in *. assumption.
Qed.

End Invariant.

(** After an entry, the loop goes on with the next one. *)
Lemma organize_entries_cons (f : FileMetadata) (l : list Metadata) (s : Organizer D) :
  organize_entries cfg (File f :: l) s =
  organize_entries cfg l (snd (_organize_file cfg f s)).
Proof.
  cbn [organize_entries]. unfold bind.
  now destruct (_organize_file cfg f s) as [[] s1].
Qed.

(** The journal only grows during a scan. *)
Lemma scan_and_organize_journal (fuel : nat) (path : string) (s : Organizer D) :
  journal (snd (scan_and_organize cfg fuel path s)) =
  journal s ++ emitted (scan_and_organize cfg fuel path) s.
Proof.
  assert (exists evs, journal (snd (scan_and_organize cfg fuel path s)) = journal s ++ evs)
    as [evs Hevs].
  { apply (scan_and_organize_invariant
             (fun s s' => exists evs, journal s' = journal s ++ evs)).
    - intros s0. exists []. now rewrite app_nil_r.
    - intros s1 s2 s3 [e1 H1] [e2 H2]. exists (e1 ++ e2).
      now rewrite H2, H1, app_assoc.
    - intros f s0. eexists. apply (organize_file_emitted cfg f s0).
    - intros p ok s0. now eexists.
    - intros c ok s0. now eexists. }
  now rewrite (emitted_app _ _ _ Hevs).
Qed.

(** [sys.exit(1)] is reached only from a listing request that raised. *)
Lemma scan_more_exit (fuel : nat) (result : ListFolderResult) (s : Organizer D) :
  fst (scan_more cfg fuel result s) = Exited ->
  exists evs c, journal (snd (scan_more cfg fuel result s)) =
                evs ++ [FilesListFolderContinue c false].
Proof.
  revert result s. induction fuel as [|fuel IH]; intros result s; cbn;
    destruct (has_more result); cbn; try discriminate.
  unfold bind, get_dbx.
  destruct (files_list_folder_continue (dbx s) (cursor result)) as [result'|].
  - destruct (record (FilesListFolderContinue (cursor result) true) s) as [[] s1].
    destruct (organize_entries cfg (entries result') s1) as [[] s2].
    apply IH.
  - cbn. intros _. now exists (journal s), (cursor result).
Qed.

Lemma scan_and_organize_exit (fuel : nat) (path : string) (s : Organizer D) :
  fst (scan_and_organize cfg fuel path s) = Exited ->
  exists evs e, journal (snd (scan_and_organize cfg fuel path s)) = evs ++ [e] /\
                ((exists p, e = FilesListFolder p false) \/
                 (exists c, e = FilesListFolderContinue c false)).
Proof.
  unfold scan_and_organize, bind, get_dbx.
  set (list_path := match path with "" => "" | _ => "/" +:+ path end).
  destruct (files_list_folder (dbx s) list_path) as [result|].
  - destruct (record (FilesListFolder list_path true) s) as [[] s1].
    destruct (organize_entries cfg (entries result) s1) as [[] s2].
    intros Hexit. destruct (scan_more_exit fuel result s2 Hexit) as (evs & c & ->).
    exists evs, (FilesListFolderContinue c false). eauto.
  - cbn. intros _. exists (journal s), (FilesListFolder list_path false). eauto.
Qed.

(** Fuel only cuts the pagination loop: a scan that ends within [n] pages
    ends the same way with any larger bound. *)
Lemma scan_more_fuel (n m : nat) (result : ListFolderResult) (s : Organizer D) :
  (n <= m)%nat ->
  fst (scan_more cfg n result s) <> OutOfFuel ->
  scan_more cfg m result s = scan_more cfg n result s.
Proof.
  revert m result s. induction n as [|n IH]; intros m result s Hle Hend.
  - cbn in *. destruct (has_more result) eqn:Hmore; [now destruct Hend|].
    destruct m; cbn; now rewrite Hmore.
  - destruct m as [|m]; [lia|]. cbn in *.
    destruct (has_more result); [|reflexivity].
    unfold bind, get_dbx in *.
    destruct (files_list_folder_continue (dbx s) (cursor result)) as [result'|];
      [|reflexivity].
    destruct (record (FilesListFolderContinue (cursor result) true) s) as [[] s1].
    destruct (organize_entries cfg (entries result') s1) as [[] s2].
    apply IH; [lia | exact Hend].
Qed.

Lemma scan_and_organize_fuel (n m : nat) (path : string) (s : Organizer D) :
  (n <= m)%nat ->
  fst (scan_and_organize cfg n path s) <> OutOfFuel ->
  scan_and_organize cfg m path s = scan_and_organize cfg n path s.
Proof.
  intros Hle. unfold scan_and_organize, bind, get_dbx.
  destruct (files_list_folder (dbx s) _) as [result|]; [|reflexivity].
  destruct (record _ s) as [[] s1].
  destruct (organize_entries cfg (entries result) s1) as [[] s2].
  now apply scan_more_fuel.
Qed.

(** A listing in one page is scanned without any fuel. *)
Lemma scan_and_organize_one_page (path : string) (s : Organizer D)
    (result : ListFolderResult) :
  files_list_folder (dbx s)
    (match path with "" => "" | _ => "/" +:+ path end) = Some result ->
  has_more result = false ->
  fst (scan_and_organize cfg 0 path s) = Returned.
Proof.
  intros Hlist Hmore. unfold scan_and_organize, bind, get_dbx. rewrite Hlist.
  destruct (record _ s) as [[] s1].
  destruct (organize_entries cfg (entries result) s1) as [[] s2].
  cbn. now rewrite Hmore.
Qed.

(** In dry-run mode an entry leaves the store alone. *)
Lemma organize_file_dry_run (f : FileMetadata) (s : Organizer D) :
  is_dry_run cfg = true ->
  dbx (snd (_organize_file cfg f s)) = dbx s /\
  Forall (fun e => is_store_request e = false) (emitted (_organize_file cfg f) s).
Proof.
  intros Hdry. destruct (organize_file_emitted cfg f s) as [_ Hcase].
  destruct (_should_skip cfg (path_display f) (name f)).
  - destruct Hcase as (-> & _ & ->). split; [reflexivity | repeat constructor].
  - destruct Hcase as (evs0 & -> & Hrun & Hdbx). split; [auto|].
    constructor; [reflexivity|].
    eapply Run_dry_no_store_request; [exact Hrun | apply plan_rule_evaluations | exact Hdry].
Qed.

Lemma scan_and_organize_dry_run (fuel : nat) (path : string) (s : Organizer D) :
  is_dry_run cfg = true ->
  dbx (snd (scan_and_organize cfg fuel path s)) = dbx s /\
  Forall (fun e => is_store_request e = false)
         (emitted (scan_and_organize cfg fuel path) s).
Proof.
  intros Hdry.
  assert (dbx (snd (scan_and_organize cfg fuel path s)) = dbx s /\
          exists evs, journal (snd (scan_and_organize cfg fuel path s)) = journal s ++ evs /\
                      Forall (fun e => is_store_request e = false) evs)
    as (Hdbx & evs & Hevs & Hquiet).
  { apply (scan_and_organize_invariant
             (fun s s' => dbx s' = dbx s /\
                          exists evs, journal s' = journal s ++ evs /\
                                      Forall (fun e => is_store_request e = false) evs)).
    - intros s0. split; [reflexivity|]. exists []. now rewrite app_nil_r.
    - intros s1 s2 s3 (Hd1 & e1 & Hj1 & Hq1) (Hd2 & e2 & Hj2 & Hq2).
      split; [congruence|]. exists (e1 ++ e2).
      split; [now rewrite Hj2, Hj1, app_assoc | now apply Forall_app].
    - intros f s0. destruct (organize_file_dry_run f s0 Hdry) as [Hd Hq].
      split; [assumption|]. eexists. split; [|exact Hq].
      apply (organize_file_emitted cfg f s0).
    - intros p ok s0. split; [reflexivity|]. eexists. split; [reflexivity|].
      repeat constructor.
    - intros c ok s0. split; [reflexivity|]. eexists. split; [reflexivity|].
      repeat constructor. }
  now rewrite (emitted_app _ _ _ Hevs).
Qed.

End Scan.

(** ** Folder failures and the entries that follow *)

Section FailureFacts.

Variable from_path : string.

Lemma after_folder_records_app ens rest :
  Forall (fun e => is_ensure_event e = true) ens ->
  after_folder_records (ens ++ rest) = after_folder_records rest.
Proof. induction 1 as [|e ens He _ IH]; [reflexivity|]. cbn. now rewrite He. Qed.

Lemma failures_answered_more a planned evs :
  failures_answered from_path planned evs ->
  failures_answered from_path (a :: planned) evs.
Proof.
  induction evs as [|e evs IH]; [trivial|]. intros [He Hrest].
  split; [|auto]. intros q Hq. destruct (He q Hq) as (b & ok & more & Hb & Hin & Hnext).
  exists b, ok, more. split_and!; [now right | assumption | assumption].
Qed.

Lemma failures_answered_quiet planned evs :
  Forall (fun e => failed_folder e = None) evs ->
  failures_answered from_path planned evs.
Proof.
  induction 1 as [|e evs He _ IH]; [exact I|].
  split; [|exact IH]. intros q Hq. congruence.
Qed.

Lemma failures_answered_app planned l1 l2 :
  failures_answered from_path planned (l1 ++ l2) <->
  failures_answered from_path planned l2 /\
  forall k1 e k2, l1 = k1 ++ e :: k2 -> forall q, failed_folder e = Some q ->
    exists a ok more,
      In a planned /\ In q (ensure a) /\
      after_folder_records (k2 ++ l2) =
        FilesMove from_path (destination a) ok ::
        MoveFile from_path (destination a) ok :: more.
Proof.
  induction l1 as [|e l1 IH]; cbn [app failures_answered].
  - split; [intros Hl2; split; [exact Hl2|] | tauto].
    intros k1 e k2 Heq. now destruct k1.
  - rewrite IH. split.
    + intros (He & Hl2 & Hl1). split; [exact Hl2|].
      intros [|e1 k1] e0 k2 Heq; injection Heq as -> ->; eauto.
    + intros (Hl2 & Hl1). split_and!; [|exact Hl2|].
      * exact (Hl1 [] e l1 eq_refl).
      * intros k1 e0 k2 ->. exact (Hl1 (e :: k1) e0 k2 eq_refl).
Qed.

Lemma failures_answered_split planned evs l1 e l2 q :
  failures_answered from_path planned evs ->
  evs = l1 ++ e :: l2 -> failed_folder e = Some q ->
  exists a ok more,
    In a planned /\ In q (ensure a) /\
    after_folder_records l2 =
      FilesMove from_path (destination a) ok ::
      MoveFile from_path (destination a) ok :: more.
Proof.
  intros Hall ->. apply failures_answered_app in Hall as [[He _] _]. exact (He q).
Qed.

(** The folder records of an attempt, followed by its move. *)
Lemma ensure_records_answered dry l ens a planned ok rest :
  ensure_records dry l ens ->
  (forall q, In q l -> In q (ensure a)) ->
  forall tail,
    after_folder_records tail =
      FilesMove from_path (destination a) ok ::
      MoveFile from_path (destination a) ok :: rest ->
    failures_answered from_path (a :: planned) tail ->
    failures_answered from_path (a :: planned) (ens ++ tail).
Proof.
  induction 1 as [|p l e1 e2 H1 H2 IH]; intros Hsub tail Htail Hanswered;
    [exact Hanswered|].
  rewrite <- app_assoc.
  assert (failures_answered from_path (a :: planned) (e2 ++ tail)) as Hrest
    by (apply IH; auto; intros q Hq; apply Hsub; now right).
  assert (after_folder_records (e2 ++ tail) =
          FilesMove from_path (destination a) ok ::
          MoveFile from_path (destination a) ok :: rest) as Hnext.
  { rewrite after_folder_records_app; [exact Htail|].
    now destruct (ensure_records_events dry l e2 H2). }
  assert (forall q, Some p = Some q ->
            exists b ok' more,
              In b (a :: planned) /\ In q (ensure b) /\
              after_folder_records (EnsureFolder p :: e2 ++ tail) =
                FilesMove from_path (destination b) ok' ::
                MoveFile from_path (destination b) ok' :: more) as Hp.
  { intros q [= <-]. exists a, ok, rest.
    split_and!; [now left | apply Hsub; now left | exact Hnext]. }
  destruct H1 as [Hd | Hd | created Hd | Hd]; cbn [app failures_answered failed_folder].
  - split; [intros q Hq; discriminate Hq | exact Hrest].
  - split; [intros q Hq; discriminate Hq|].
    split; [intros q Hq; discriminate Hq | exact Hrest].
  - split; [intros q Hq; discriminate Hq|].
    split; [|split; [intros q Hq; discriminate Hq | exact Hrest]].
    destruct created; [intros q Hq; discriminate Hq | exact Hp].
  - split; [exact Hp|].
    split; [intros q Hq; discriminate Hq | exact Hrest].
Qed.

Lemma Run_failures_answered dry p st st' evs :
  Run dry from_path p st st' evs ->
  Forall (fun step => is_rule_evaluation (fst step) = true) p ->
  failures_answered from_path (omap snd p) evs.
Proof.
  assert (forall ev planned rest,
             is_rule_evaluation ev = true ->
             failures_answered from_path planned rest ->
             failures_answered from_path planned (ev :: rest)) as Hev0.
  { intros ev planned rest Hev Hrest. split; [|exact Hrest].
    intros q Hq. destruct ev; discriminate. }
  induction 1 as [st | ev rest st st' evs _ IH | ev a rest st ens Hens
                 | ev a rest st st' ens evs Hd Hens _ IH];
    intros Hp; try apply Forall_cons in Hp as [Hev Hp]; cbn [fst snd omap] in *.
  - exact I.
  - apply Hev0; auto.
  - apply Hev0; [exact Hev|]. unfold move_records. destruct dry eqn:Hdry.
    + apply failures_answered_quiet. apply Forall_app. split; [|repeat constructor].
      destruct (ensure_records_events true _ _ Hens) as [_ Hquiet].
      eapply Forall_impl; [exact (Hquiet eq_refl)|]. intros e He. now destruct e.
    + eapply ensure_records_answered; [exact Hens | auto | reflexivity |].
      cbn. split; [intros q Hq; discriminate Hq|].
      split; [intros q Hq; discriminate Hq | exact I].
  - apply Hev0; [exact Hev|]. subst dry. unfold move_records. cbn [app].
    eapply ensure_records_answered; [exact Hens | auto | reflexivity |].
    cbn [failures_answered]. split; [intros q Hq; discriminate Hq|].
    split; [intros q Hq; discriminate Hq|].
    apply failures_answered_more. auto.
Qed.

Lemma Run_no_skip_evaluation dry p st st' evs :
  Run dry from_path p st st' evs ->
  Forall (fun step => is_rule_evaluation (fst step) = true /\
                      skip_evaluation (fst step) = None) p ->
  omap skip_evaluation evs = [].
Proof.
  assert (forall l ens, ensure_records dry l ens -> omap skip_evaluation ens = [])
    as Hens0.
  { intros l ens Hens. destruct (ensure_records_events dry l ens Hens) as [Hquiet _].
    clear Hens. induction Hquiet as [|e ens He _ IH]; [reflexivity|].
    destruct e; try discriminate He; exact IH. }
  assert (forall ok to_path,
             omap skip_evaluation (move_records dry from_path to_path ok) = [])
    as Hmove by (intros ok to_path; unfold move_records; now destruct dry).
  induction 1 as [st | ev rest st st' evs _ IH | ev a rest st ens Hens
                 | ev a rest st st' ens evs Hd Hens _ IH];
    intros Hp; try apply Forall_cons in Hp as [[_ Hev] Hp]; cbn [fst] in *.
  - reflexivity.
  - cbn. rewrite Hev. auto.
  - cbn. rewrite Hev, omap_app, (Hens0 _ _ Hens), Hmove. reflexivity.
  - cbn. rewrite Hev, !omap_app, (Hens0 _ _ Hens), Hmove, (IH Hp). reflexivity.
Qed.

End FailureFacts.

Section EntriesEvaluated.

Context {D : Type} `{DropboxApi D}.
Variable cfg : Config.

Lemma plan_no_skip_evaluation (file_name : string) :
  Forall (fun step => is_rule_evaluation (fst step) = true /\
                      skip_evaluation (fst step) = None) (plan cfg file_name).
Proof. unfold plan, photo_step, flat_step. repeat constructor. Qed.

Lemma organize_file_skip_evaluation (f : FileMetadata) (s : Organizer D) :
  omap skip_evaluation (emitted (_organize_file cfg f) s) =
  [(path_display f, name f)].
Proof.
  destruct (organize_file_emitted cfg f s) as [_ Hcase].
  destruct (_should_skip cfg (path_display f) (name f)).
  - now destruct Hcase as (-> & _).
  - destruct Hcase as (evs0 & -> & Hrun & _). cbn.
    now rewrite (Run_no_skip_evaluation _ _ _ _ _ _ Hrun
                   (plan_no_skip_evaluation (name f))).
Qed.

(** Every file of a listing is evaluated, in the order of the listing,
    whatever happened to the files before it. *)
Lemma organize_entries_skip_evaluations (l : list Metadata) (s : Organizer D) :
  journal (snd (organize_entries cfg l s)) =
    journal s ++ emitted (organize_entries cfg l) s /\
  omap skip_evaluation (emitted (organize_entries cfg l) s) =
    (fun g => (path_display g, name g)) <$> files_of l.
Proof.
  assert (exists evs,
             journal (snd (organize_entries cfg l s)) = journal s ++ evs /\
             omap skip_evaluation evs =
               (fun g => (path_display g, name g)) <$> files_of l)
    as (evs & Hj & Hevs); [|now rewrite (emitted_app _ _ _ Hj)].
  revert s. induction l as [|[f | ? ? | ?] l IH]; intros s.
  - exists []. cbn. now rewrite app_nil_r.
  - rewrite organize_entries_cons.
    destruct (organize_file_emitted cfg f s) as [Hj _].
    destruct (IH (snd (_organize_file cfg f s))) as (evs & Hevs & Hskip).
    exists (emitted (_organize_file cfg f) s ++ evs).
    split; [now rewrite Hevs, Hj, app_assoc|].
    rewrite omap_app, organize_file_skip_evaluation, Hskip. reflexivity.
  - exact (IH s).
  - exact (IH s).
Qed.

End EntriesEvaluated.

(** ** The claims *)

(** C1 fails: [report_2023.pdf] matches the photo rule and the document
    rule; when the store refuses the move beneath [/Photos Archive], the file
    is moved to documents, the lower-priority category, after two moves were
    attempted for it. *)
Lemma C1_counterexample :
  let cfg := test_config false in
  let f := root_file "report_2023.pdf" in
  let s := start (read_only_store ["/Photos Archive"]) in
  category <$> candidates cfg f = [Photos; Documents] /\
  move_attempts (emitted (_organize_file cfg f) s) =
    [ ("/report_2023.pdf", "/Photos Archive/2023/report_2023.pdf", false);
      ("/report_2023.pdf", "/Documents & Files/report_2023.pdf", true) ] /\
  stats (snd (_organize_file cfg f s)) =
    {| photos_moved := 0; documents_moved := 1; temp_moved := 0;
       errors := 1; skipped := 0 |}.
Proof. vm_compute. repeat split. Qed.

(** C1, as the code has it.  The rules are evaluated in the fixed order
    skip, photo, document, temp.  The moves of the matching categories are
    attempted in that order: the first attempt is for the highest-priority
    matching category, and it wins when its move succeeds, as it always does
    in dry-run mode; a lower-priority matching category is attempted only
    after the move of every higher-priority matching one failed.  Either
    the attempt number [k] succeeds, it is the last one and only its
    category is counted, or every planned move failed and no category is
    counted. *)
Theorem C1_priority_order {D : Type} `{DropboxApi D}
    (cfg : Config) (f : FileMetadata) (s : Organizer D) :
  let file_path := path_display f in
  let file_name := name f in
  let skips := _should_skip cfg file_path file_name in
  let s' := snd (_organize_file cfg f s) in
  let evs := emitted (_organize_file cfg f) s in
  let planned := candidates cfg f in
  filter (fun e => is_rule_evaluation e = true) evs `prefix_of`
    [ ShouldSkip file_path file_name skips;
      ExtractYear file_name (_extract_year_from_filename cfg file_name);
      IsDocument file_name (_is_document cfg file_name);
      IsTempFile file_name (_is_temp_file cfg file_name) ] /\
  (category <$> planned) `sublist_of` [Photos; Documents; Temp] /\
  (forall c, In c (category <$> planned) <->
             skips = false /\ rule_matches cfg c file_name = true) /\
  ((exists k a,
       planned !! k = Some a /\
       move_attempts evs =
         (attempt_record file_path false <$> take k planned) ++
         [attempt_record file_path true a] /\
       stats s' = incr_moved (category a) (add_errors k (stats s)) /\
       (is_dry_run cfg = true -> k = 0%nat))
   \/
   (move_attempts evs = attempt_record file_path false <$> planned /\
    stats s' = (if skips then incr_skipped else add_errors (length planned)) (stats s) /\
    (is_dry_run cfg = true -> planned = []))).
Proof.
  cbn zeta. split_and!.
  - destruct (organize_file_emitted cfg f s) as [_ Hcase].
    destruct (_should_skip cfg (path_display f) (name f)).
    + destruct Hcase as (-> & _). cbn. now apply prefix_cons, prefix_nil.
    + destruct Hcase as (evs0 & -> & Hrun & _).
      rewrite filter_cons_True by reflexivity. apply prefix_cons.
      exact (Run_evaluation_order _ _ _ _ _ _ Hrun (plan_rule_evaluations cfg (name f))).
  - rewrite candidates_unfold.
    destruct (_should_skip cfg _ _); [apply sublist_nil_l|].
    destruct (_extract_year_from_filename cfg (name f)) as [[|c y]|];
      destruct (_is_document cfg (name f)); destruct (_is_temp_file cfg (name f));
      cbn; repeat first [apply sublist_nil | apply sublist_skip | apply sublist_cons].
  - intros c. rewrite candidates_unfold. unfold rule_matches.
    destruct (_should_skip cfg _ _); [cbn; split; [tauto | intros [? _]; discriminate]|].
    destruct (_extract_year_from_filename cfg (name f)) as [[|c0 y]|];
      destruct (_is_document cfg (name f)); destruct (_is_temp_file cfg (name f));
      destruct c; cbn; split; intros; intuition (try discriminate; auto).
  - apply organize_file_outcome.
Qed.

(** C1 at [report_2023.pdf] in dry-run mode: photo and document both match,
    the photo move is the only attempt and photos is counted. *)
Lemma C1_witness :
  let cfg := test_config true in
  let f := root_file "report_2023.pdf" in
  let s := start empty_store in
  category <$> candidates cfg f = [Photos; Documents] /\
  move_attempts (emitted (_organize_file cfg f) s) =
    [("/report_2023.pdf", "/Photos Archive/2023/report_2023.pdf", true)] /\
  stats (snd (_organize_file cfg f s)) = incr_photos_moved stats_init.
Proof.
  intros cfg f s. split; [reflexivity|].
  destruct (C1_priority_order cfg f s) as (_ & _ & _ & Hout).
  destruct Hout as [(k & a & Hk & Hm & Hst & Hd) | (_ & _ & Hd)].
  - rewrite (Hd eq_refl) in *. vm_compute in Hk. injection Hk as <-.
    rewrite Hm, Hst. split; reflexivity.
  - specialize (Hd eq_refl). vm_compute in Hd. discriminate Hd.
Defined.

(** C2 fails: with a store that refuses every write, three move requests
    are issued for the single entry [notes_2024_sync.txt], one per matching
    category, each after the previous one failed. *)
Lemma C2_counterexample :
  let cfg := test_config false in
  let f := root_file "notes_2024_sync.txt" in
  let s := start (read_only_store ["/"]) in
  omap move_request (emitted (_organize_file cfg f) s) =
    [ ("/notes_2024_sync.txt", "/Photos Archive/2024/notes_2024_sync.txt", false);
      ("/notes_2024_sync.txt", "/Documents & Files/notes_2024_sync.txt", false);
      ("/notes_2024_sync.txt", "/Temp Files/notes_2024_sync.txt", false) ] /\
  errors (stats (snd (_organize_file cfg f s))) = 3%nat.
Proof. vm_compute. repeat split. Qed.

(** C2, as the code has it.  For every entry the moves planned for the
    matching categories are attempted one after the other, in priority order,
    each at most once and hence at most three: the first planned move is
    always attempted; when an attempt fails, the move planned next is
    attempted; a successful attempt is the last one.  So the attempts are
    exactly the planned moves up to the first that succeeds, or all of them
    when every one fails.  In dry-run mode at most one attempt is made and no
    move request reaches the client; in live mode each attempt is one
    [files_move_v2] request. *)
Theorem C2_one_attempt_per_rule {D : Type} `{DropboxApi D}
    (cfg : Config) (f : FileMetadata) (s : Organizer D) :
  let file_path := path_display f in
  let evs := emitted (_organize_file cfg f) s in
  let attempts := move_attempts evs in
  let planned := candidates cfg f in
  (length attempts <= length planned <= 3)%nat /\
  ((fun x => snd (fst x)) <$> attempts) `prefix_of` (destination <$> planned) /\
  NoDup (category <$> planned) /\
  (forall l x, attempts = l ++ [x] -> Forall (fun y => snd y = false) l) /\
  (is_dry_run cfg = true -> (length attempts <= 1)%nat) /\
  omap move_request evs = (if is_dry_run cfg then [] else attempts) /\
  (exists k,
      attempts =
        (attempt_record file_path false <$> take k planned) ++
        match planned !! k with
        | Some a => [attempt_record file_path true a]
        | None => []
        end) /\
  (forall a rest, planned = a :: rest ->
     exists ok more, attempts = (file_path, destination a, ok) :: more) /\
  (forall i x a,
      attempts !! i = Some x -> snd x = false -> planned !! S i = Some a ->
      exists ok, attempts !! S i = Some (file_path, destination a, ok)).
Proof.
  cbn zeta.
  assert ((length (candidates cfg f) <= 3)%nat /\ NoDup (category <$> candidates cfg f))
    as [Hlen Hnodup].
  { rewrite candidates_unfold. destruct (_should_skip cfg _ _); [cbn; split; [lia|constructor]|].
    destruct (_extract_year_from_filename cfg (name f)) as [[|c y]|];
      destruct (_is_document cfg (name f)); destruct (_is_temp_file cfg (name f));
      cbn; (split; [lia|]);
      repeat (apply NoDup_cons_2;
              [intros Hin;
               repeat (apply elem_of_cons in Hin as [Hin|Hin]; [discriminate Hin|]);
               now apply elem_of_nil in Hin|]);
      apply NoDup_nil_2. }
  assert (forall L : list Attempt,
             Forall (fun y : string * string * bool => snd y = false)
                           (attempt_record (path_display f) false <$> L)) as Hfailed
    by (intros L; induction L as [|a0 L IHL];
        [apply Forall_nil_2 | apply Forall_cons_2; [reflexivity | exact IHL]]).
  assert (forall (ok : bool) (L : list Attempt),
             (fun x : string * string * bool => snd (fst x)) <$>
               (attempt_record (path_display f) ok <$> L) = destination <$> L) as Hdest
    by (intros ok L; induction L; cbn; congruence).
  assert (omap move_request (emitted (_organize_file cfg f) s) =
          if is_dry_run cfg then [] else move_attempts (emitted (_organize_file cfg f) s))
    as Hreq.
  { destruct (organize_file_emitted cfg f s) as [_ Hcase].
    destruct (_should_skip cfg (path_display f) (name f)).
    - destruct Hcase as (-> & _). now destruct (is_dry_run cfg).
    - destruct Hcase as (evs0 & -> & Hrun & _).
      rewrite move_attempts_evaluation by reflexivity. cbn [omap move_request].
      exact (Run_move_requests _ _ _ _ _ _ Hrun (plan_rule_evaluations cfg (name f))). }
  assert (exists k,
             move_attempts (emitted (_organize_file cfg f) s) =
               (attempt_record (path_display f) false <$> take k (candidates cfg f)) ++
               match candidates cfg f !! k with
               | Some a => [attempt_record (path_display f) true a]
               | None => []
               end) as Hshape.
  { destruct (organize_file_outcome cfg f s)
      as [(k & a & Hk & Hm & _) | (Hm & _)]; rewrite Hm.
    - exists k. now rewrite Hk.
    - exists (length (candidates cfg f)).
      rewrite (proj2 (lookup_ge_None (candidates cfg f) _) (Nat.le_refl _)).
      now rewrite firstn_all, app_nil_r. }
  assert (forall i x a,
             move_attempts (emitted (_organize_file cfg f) s) !! i = Some x ->
             snd x = false -> candidates cfg f !! S i = Some a ->
             exists ok, move_attempts (emitted (_organize_file cfg f) s) !! S i
                        = Some (path_display f, destination a, ok)) as Hnext.
  { destruct Hshape as [k ->]. intros i x a Hi Hx Ha.
    pose proof (lookup_lt_Some _ _ _ Ha) as Hlt.
    assert (i < k)%nat as Hik.
    { destruct (Nat.lt_ge_cases i k) as [Hik | Hik]; [exact Hik | exfalso].
      rewrite lookup_app_r in Hi
        by (rewrite length_fmap, length_take; lia).
      rewrite length_fmap, length_take in Hi.
      destruct (candidates cfg f !! k) as [a0|] eqn:Hk.
      - destruct (i - k `min` length (candidates cfg f))%nat; cbn in Hi;
          [injection Hi as <-; discriminate Hx | discriminate Hi].
      - now rewrite lookup_nil in Hi. }
    destruct (Nat.lt_ge_cases (S i) k) as [Hsk | Hsk].
    - exists false. rewrite lookup_app_l
        by (rewrite length_fmap, length_take; lia).
      rewrite list_lookup_fmap, lookup_take_lt by lia. now rewrite Ha.
    - assert (k = S i) as -> by lia. exists true. rewrite Ha.
      rewrite lookup_app_r by (rewrite length_fmap, length_take; lia).
      rewrite length_fmap, length_take.
      replace (S i - S i `min` length (candidates cfg f))%nat with 0%nat by lia.
      reflexivity. }
  assert (forall a rest, candidates cfg f = a :: rest ->
             exists ok more, move_attempts (emitted (_organize_file cfg f) s)
                             = (path_display f, destination a, ok) :: more) as Hfirst.
  { destruct Hshape as [k ->]. intros a rest Heq. rewrite Heq.
    destruct k as [|k]; cbn; eauto. }
  destruct (organize_file_outcome cfg f s)
    as [(k & a & Hk & Hm & _ & Hdry) | (Hm & _ & Hdry)]; rewrite Hm in *.
  - pose proof (lookup_lt_Some _ _ _ Hk) as Hlt.
    split_and!; auto.
    + rewrite length_app, length_fmap, length_take. cbn. lia.
    + rewrite fmap_app, Hdest. cbn.
      exists (destination <$> drop (S k) (candidates cfg f)).
      rewrite <- (take_drop (S k) (candidates cfg f)) at 1.
      rewrite fmap_app, (take_S_r _ _ _ Hk), fmap_app. reflexivity.
    + intros l x Heq. apply app_inj_tail in Heq as [<- _]. apply Hfailed.
    + intros Hd. rewrite (Hdry Hd), length_app, length_fmap, length_take. cbn. lia.
  - split_and!; auto.
    + rewrite length_fmap. lia.
    + rewrite Hdest. reflexivity.
    + intros l x Heq. pose proof (Hfailed (candidates cfg f)) as Hall.
      rewrite Heq in Hall. now apply Forall_app in Hall as [? _].
    + intros Hd. rewrite (Hdry Hd). cbn. lia.
Qed.

(** C2 at [notes_2024_sync.txt] with a store that refuses every write: the
    photo move fails and the document move, planned next, is attempted; in
    dry-run mode one attempt is made and no request. *)
Lemma C2_witness :
  let live := test_config false in
  let cfg := test_config true in
  let f := root_file "notes_2024_sync.txt" in
  let s := start (read_only_store ["/"]) in
  let evs := emitted (_organize_file cfg f) (start empty_store) in
  (exists a,
      move_attempts (emitted (_organize_file live f) s) !! 0%nat =
        Some ("/notes_2024_sync.txt", "/Photos Archive/2024/notes_2024_sync.txt", false) /\
      candidates live f !! 1%nat = Some a /\
      exists ok, move_attempts (emitted (_organize_file live f) s) !! 1%nat =
                   Some ("/notes_2024_sync.txt", destination a, ok)) /\
  is_dry_run cfg = true /\
  (length (move_attempts evs) <= 1)%nat /\
  omap move_request evs = [].
Proof.
  intros live cfg f s evs. split.
  - exists {| category := Documents;
              ensure := ["/Documents & Files"];
              destination := "/Documents & Files/notes_2024_sync.txt" |}.
    assert (move_attempts (emitted (_organize_file live f) s) !! 0%nat =
            Some ("/notes_2024_sync.txt",
                  "/Photos Archive/2024/notes_2024_sync.txt", false)) as H0
      by (vm_compute; reflexivity).
    assert (candidates live f !! 1%nat =
            Some {| category := Documents;
                    ensure := ["/Documents & Files"];
                    destination := "/Documents & Files/notes_2024_sync.txt" |}) as H1
      by (vm_compute; reflexivity).
    split_and!; [exact H0 | exact H1 |].
    destruct (C2_one_attempt_per_rule live f s) as (_ & _ & _ & _ & _ & _ & _ & _ & Hnext).
    exact (Hnext 0%nat _ _ H0 eq_refl H1).
  - split; [reflexivity|].
    destruct (C2_one_attempt_per_rule cfg f (start empty_store))
      as (_ & _ & _ & _ & Hone & Hreq & _).
    split; [exact (Hone eq_refl) | exact Hreq].
Defined.

(** C3 fails: when the metadata request for the destination folder raises,
    the move of [report.pdf] is requested all the same and succeeds, and no
    error is counted. *)
Lemma C3_counterexample :
  let cfg := test_config false in
  let f := root_file "report.pdf" in
  let s := start metadata_down_store in
  emitted (_organize_file cfg f) s =
    [ ShouldSkip "/report.pdf" "report.pdf" false;
      ExtractYear "report.pdf" None;
      IsDocument "report.pdf" true;
      FilesGetMetadata "/Documents & Files" OtherApiError;
      EnsureFolder "/Documents & Files";
      FilesMove "/report.pdf" "/Documents & Files/report.pdf" true;
      MoveFile "/report.pdf" "/Documents & Files/report.pdf" true ] /\
  stats (snd (_organize_file cfg f s)) =
    {| photos_moved := 0; documents_moved := 1; temp_moved := 0;
       errors := 0; skipped := 0 |}.
Proof. vm_compute. repeat split. Qed.

(** C3, as the code has it.  A failure to ensure a destination folder
    stops nothing.  [_ensure_folder_exists] returns with the counters as they
    were, whatever the client answered.  The move that depended on the
    folder is requested all the same: a failed folder request is for a
    folder of a move planned for the entry, and once the folder protocol is
    through, the next thing done is the [files_move_v2] request of that very
    move.  The error counter grows by the number of moves that failed and by
    nothing else.  Processing goes on with the next entry: every file of the
    listing is evaluated, in order, whatever failed before it, and a scan
    exits only after a listing request failed. *)
Theorem C3_folder_failure_does_not_stop_the_move {D : Type} `{DropboxApi D}
    (cfg : Config) (f : FileMetadata) (l : list Metadata)
    (folder_path : string) (s : Organizer D) (fuel : nat) (path : string) :
  let s' := snd (_organize_file cfg f s) in
  let evs := emitted (_organize_file cfg f) s in
  let scan := scan_and_organize cfg fuel path s in
  stats (snd (_ensure_folder_exists cfg folder_path s)) = stats s /\
  (forall l1 e l2 q,
      evs = l1 ++ e :: l2 -> failed_folder e = Some q ->
      exists a ok rest,
        In a (candidates cfg f) /\ In q (ensure a) /\
        after_folder_records l2 =
          FilesMove (path_display f) (destination a) ok ::
          MoveFile (path_display f) (destination a) ok :: rest) /\
  errors (stats s') = (errors (stats s) + failed_attempts evs)%nat /\
  omap skip_evaluation (emitted (organize_entries cfg (File f :: l)) s) =
    (fun g => (path_display g, name g)) <$> (f :: files_of l) /\
  (fst scan = Exited ->
   exists evs' e,
     journal (snd scan) = evs' ++ [e] /\
     ((exists p, e = FilesListFolder p false) \/
      (exists c, e = FilesListFolderContinue c false))).
Proof.
  cbn zeta. split_and!.
  - destruct (ensure_folder_spec cfg folder_path s) as (d' & evs & -> & _). reflexivity.
  - intros l1 e l2 q Heq He.
    destruct (organize_file_emitted cfg f s) as [_ Hcase]. unfold candidates.
    destruct (_should_skip cfg (path_display f) (name f)).
    + destruct Hcase as (Hevs & _). rewrite Hevs in Heq.
      destruct l1 as [|e1 [|e2 l1]]; try discriminate Heq.
      injection Heq as <- _. discriminate He.
    + destruct Hcase as (evs0 & Hevs & Hrun & _). rewrite Hevs in Heq.
      pose proof (Run_failures_answered _ _ _ _ _ _ Hrun
                    (plan_rule_evaluations cfg (name f))) as Hall.
      destruct l1 as [|e1 l1]; injection Heq as <- Heq;
        [discriminate He|].
      exact (failures_answered_split _ _ _ _ _ _ _ Hall Heq He).
  - assert (forall L : list Attempt,
               filter (fun x : string * string * bool => snd x = false)
                             (attempt_record (path_display f) false <$> L)
                      = attempt_record (path_display f) false <$> L) as Hfilter.
    { intros L. induction L as [|a L IH]; [reflexivity|].
      rewrite fmap_cons, filter_cons_True by reflexivity. now rewrite IH. }
    unfold failed_attempts.
    destruct (organize_file_outcome cfg f s)
      as [(k & a & Hk & -> & -> & _) | (-> & -> & _)].
    + pose proof (lookup_lt_Some _ _ _ Hk) as Hlt.
      rewrite filter_app, Hfilter, filter_cons_False, filter_nil, app_nil_r
        by (cbn; discriminate).
      rewrite length_fmap, length_take.
      destruct a as [[] ? ?]; cbn; lia.
    + rewrite Hfilter, length_fmap. unfold candidates.
      destruct (_should_skip cfg (path_display f) (name f)); cbn; lia.
  - exact (proj2 (organize_entries_skip_evaluations cfg (File f :: l) s)).
  - apply scan_and_organize_exit.
Qed.

(** C3 at [report_2023.pdf] when metadata requests raise and writes beneath
    [/Photos Archive] are refused: after each failed folder request the
    photo move is requested; it fails, and the document move is requested
    after its own folder failed; the next file is evaluated. *)
Lemma C3_witness :
  let cfg := test_config false in
  let f := root_file "report_2023.pdf" in
  let d := {| store_folders := []; store_denied := ["/Photos Archive"];
              store_metadata_down := true; store_listing := [] |} in
  let s := start d in
  let l1 := [ ShouldSkip "/report_2023.pdf" "report_2023.pdf" false;
              ExtractYear "report_2023.pdf" (Some "2023") ] in
  let e := FilesGetMetadata "/Photos Archive" OtherApiError in
  let l2 := [ EnsureFolder "/Photos Archive";
              FilesGetMetadata "/Photos Archive/2023" OtherApiError;
              EnsureFolder "/Photos Archive/2023";
              FilesMove "/report_2023.pdf" "/Photos Archive/2023/report_2023.pdf" false;
              MoveFile "/report_2023.pdf" "/Photos Archive/2023/report_2023.pdf" false;
              IsDocument "report_2023.pdf" true;
              FilesGetMetadata "/Documents & Files" OtherApiError;
              EnsureFolder "/Documents & Files";
              FilesMove "/report_2023.pdf" "/Documents & Files/report_2023.pdf" true;
              MoveFile "/report_2023.pdf" "/Documents & Files/report_2023.pdf" true ] in
  emitted (_organize_file cfg f) s = l1 ++ e :: l2 /\
  failed_folder e = Some "/Photos Archive" /\
  (exists a ok rest,
      In a (candidates cfg f) /\ In "/Photos Archive" (ensure a) /\
      after_folder_records l2 =
        FilesMove (path_display f) (destination a) ok ::
        MoveFile (path_display f) (destination a) ok :: rest) /\
  errors (stats (snd (_organize_file cfg f s))) = 1%nat /\
  omap skip_evaluation
    (emitted (organize_entries cfg [File f; File (root_file "x.tmp")]) s) =
    [("/report_2023.pdf", "report_2023.pdf"); ("/x.tmp", "x.tmp")].
Proof.
  intros cfg f d s l1 e l2.
  assert (emitted (_organize_file cfg f) s = l1 ++ e :: l2) as Hsplit
    by (vm_compute; reflexivity).
  destruct (C3_folder_failure_does_not_stop_the_move
              cfg f [File (root_file "x.tmp")] "/Photos Archive" s 0 "")
    as (_ & Hfollowed & Herrors & Hnext & _).
  split_and!; [exact Hsplit | reflexivity | | | exact Hnext].
  - exact (Hfollowed l1 e l2 "/Photos Archive" Hsplit eq_refl).
  - rewrite Herrors. vm_compute. reflexivity.
Defined.

(** C4 fails: with every category enabled and no folder mapping at all, the
    scan returns normally and the listed photo is moved beneath the default
    folder. *)
Lemma C4_counterexample :
  let cfg := sample_config false [".pdf"] None in
  let s := start (listed_store ["photo_2023.jpg"]) in
  let scan := scan_and_organize cfg 0 "" s in
  folders cfg = None /\
  photos_enabled (photos (rules cfg)) = Some true /\
  fst scan = Returned /\
  journal (snd scan) =
    [ FilesListFolder "" true;
      ShouldSkip "/photo_2023.jpg" "photo_2023.jpg" false;
      ExtractYear "photo_2023.jpg" (Some "2023");
      FilesGetMetadata "/Photos Archive" PathNotFound;
      FilesCreateFolder "/Photos Archive" true;
      EnsureFolder "/Photos Archive";
      FilesGetMetadata "/Photos Archive/2023" PathNotFound;
      FilesCreateFolder "/Photos Archive/2023" true;
      EnsureFolder "/Photos Archive/2023";
      FilesMove "/photo_2023.jpg" "/Photos Archive/2023/photo_2023.jpg" true;
      MoveFile "/photo_2023.jpg" "/Photos Archive/2023/photo_2023.jpg" true ] /\
  photos_moved (stats (snd scan)) = 1%nat.
Proof. vm_compute. repeat split. Qed.

(** C4, as the code has it.  A category without an entry in the folder
    mapping is not a configuration error: the built-in folder name of the
    category is used ([Photos Archive], [Documents & Files], [Temp Files]),
    and a matching file is routed beneath it.  The scan is abandoned only
    when a listing request raises. *)
Theorem C4_missing_folder_uses_default {D : Type} `{DropboxApi D}
    (cfg : Config) (f : FileMetadata) (fuel : nat) (path : string)
    (s : Organizer D) :
  let folder_map := default ∅ (folders cfg) in
  let file_name := name f in
  let year := _extract_year_from_filename cfg file_name in
  let evs := emitted (_organize_file cfg f) s in
  let scan := scan_and_organize cfg fuel path s in
  (_should_skip cfg (path_display f) file_name = false ->
   (folder_map !! "photos" = None ->
    forall c y, year = Some (String c y) ->
    decision_of evs =
      MoveTo Photos ("/Photos Archive/" +:+ String c y +:+ "/" +:+ file_name)) /\
   (folder_map !! "documents" = None ->
    truthy year = false -> _is_document cfg file_name = true ->
    decision_of evs = MoveTo Documents ("/Documents & Files/" +:+ file_name)) /\
   (folder_map !! "temp" = None ->
    truthy year = false -> _is_document cfg file_name = false ->
    _is_temp_file cfg file_name = true ->
    decision_of evs = MoveTo Temp ("/Temp Files/" +:+ file_name))) /\
  (fst scan = Exited ->
   exists evs' e,
     journal (snd scan) = evs' ++ [e] /\
     ((exists p, e = FilesListFolder p false) \/
      (exists c, e = FilesListFolderContinue c false))).
Proof.
  cbn zeta. split; [|apply scan_and_organize_exit].
  intros Hskip. rewrite decision_route. unfold route.
  rewrite Hskip, candidates_unfold, Hskip. unfold folder_of.
  split_and!.
  - intros -> c y ->. cbn. reflexivity.
  - intros -> Hyear ->.
    destruct (_extract_year_from_filename cfg (name f)) as [[|c y]|];
      try discriminate; reflexivity.
  - intros -> Hyear -> ->.
    destruct (_extract_year_from_filename cfg (name f)) as [[|c y]|];
      try discriminate; reflexivity.
Qed.

(** C4 at [photo_2023.jpg] without any folder mapping. *)
Lemma C4_witness :
  let cfg := sample_config true [".pdf"] None in
  let f := root_file "photo_2023.jpg" in
  let s := start empty_store in
  default ∅ (folders cfg) !! "photos" = None /\
  _should_skip cfg (path_display f) (name f) = false /\
  _extract_year_from_filename cfg (name f) = Some "2023" /\
  decision_of (emitted (_organize_file cfg f) s) =
    MoveTo Photos "/Photos Archive/2023/photo_2023.jpg".
Proof.
  intros cfg f s.
  assert (default ∅ (folders cfg) !! "photos" = None) as Hmissing by reflexivity.
  assert (_should_skip cfg (path_display f) (name f) = false) as Hskip by reflexivity.
  assert (_extract_year_from_filename cfg (name f) = Some "2023") as Hyear by reflexivity.
  split_and!; try assumption.
  destruct (C4_missing_folder_uses_default cfg f 0 "" s) as [Hdefault _].
  destruct (Hdefault Hskip) as (Hphotos & _ & _).
  exact (Hphotos Hmissing "2"%char "023" Hyear).
Defined.

(** C5.  Routing is pure and deterministic: the decision taken for an entry
    (skip, the category and destination of the first move, or no match) is a
    function of the configuration and the entry.  It is the same from any two states of
    the organizer (whatever the counters, the store, even the kind of
    client), and so the same when the entry is organized a second time from
    the state the first pass left. *)
Theorem C5_routing_is_pure {D1 D2 : Type} `{DropboxApi D1} `{DropboxApi D2}
    (cfg : Config) (f : FileMetadata) (s1 : Organizer D1) (s2 : Organizer D2) :
  decision_of (emitted (_organize_file cfg f) s1) = route cfg f /\
  decision_of (emitted (_organize_file cfg f) s1) =
    decision_of (emitted (_organize_file cfg f) s2) /\
  decision_of (emitted (_organize_file cfg f) (snd (_organize_file cfg f s1))) =
    decision_of (emitted (_organize_file cfg f) s1).
Proof.
  now rewrite !decision_route.
Qed.

(** C6.  With the photo rule enabled and the default year pattern: when the
    filename contains a four-character substring ["20"] followed by two
    digits (decimal digits of any script, as [\d] matches them:
    [Py.is_year]), year extraction returns the leftmost such substring; if
    moreover
    no skip rule matches, the entry is routed to photos: the first move
    asked for goes to [/{photos_folder}/{year}/{name}], it succeeds in
    dry-run mode, and when it succeeds it is the only move and the photo
    counter is incremented.  When the filename contains no such substring,
    year extraction returns nothing, no photo move is planned and the photo
    counter is unchanged. *)
Theorem C6_first_year_routes_to_photos {D : Type} `{DropboxApi D}
    (cfg : Config) (f : FileMetadata) (s : Organizer D)
    (Henabled : default true (photos_enabled (photos (rules cfg))) = true)
    (Hpattern : forall x, default Py.search_20dd (year_pattern (photos (rules cfg))) x
                          = Py.search_20dd x) :
  let s' := snd (_organize_file cfg f s) in
  let evs := emitted (_organize_file cfg f) s in
  let photos_folder := default "Photos Archive" (default ∅ (folders cfg) !! "photos") in
  ((exists pre y0 post, name f = pre +:+ y0 +:+ post /\ Py.is_year y0) ->
   exists y pre post,
     _extract_year_from_filename cfg (name f) = Some y /\
     name f = pre +:+ y +:+ post /\ Py.is_year y /\
     (forall pre' y' post',
         name f = pre' +:+ y' +:+ post' -> Py.is_year y' ->
         (String.length pre <= String.length pre')%nat) /\
     (_should_skip cfg (path_display f) (name f) = false ->
      let to_path := "/" +:+ photos_folder +:+ "/" +:+ y +:+ "/" +:+ name f in
      decision_of evs = MoveTo Photos to_path /\
      exists (ok : bool) more,
        move_attempts evs = (path_display f, to_path, ok) :: more /\
        (is_dry_run cfg = true -> ok = true) /\
        (ok = true -> more = [] /\ stats s' = incr_photos_moved (stats s)))) /\
  ((~ exists pre y0 post, name f = pre +:+ y0 +:+ post /\ Py.is_year y0) ->
   _extract_year_from_filename cfg (name f) = None /\
   Forall (fun a => category a <> Photos) (candidates cfg f) /\
   photos_moved (stats s') = photos_moved (stats s)).
Proof.
  cbn zeta.
  assert (_extract_year_from_filename cfg (name f) = Py.search_20dd (name f)) as Hyear.
  { unfold _extract_year_from_filename. rewrite Henabled. cbn. apply Hpattern. }
  split.
  - intros (pre0 & y0 & post0 & Hname & Hy0).
    destruct (Py.search_20dd (name f)) as [y|] eqn:Hsearch;
      [|now destruct (PyFacts.search_20dd_found _ _ _ _ Hname Hy0)].
    destruct (PyFacts.search_20dd_first _ _ Hsearch) as (pre & post & Hn & Hy & Hfirst).
    exists y, pre, post. split_and!; auto.
    intros Hskip.
    assert (exists rest,
               candidates cfg f =
               {| category := Photos;
                  ensure := ["/" +:+ folder_of cfg Photos;
                             "/" +:+ folder_of cfg Photos +:+ "/" +:+ y];
                  destination := ("/" +:+ folder_of cfg Photos +:+ "/" +:+ y)
                                 +:+ "/" +:+ name f |} :: rest) as [rest Hc].
    { rewrite candidates_planned by assumption. unfold plan, photo_step.
      rewrite Hyear. destruct Hy as (d1 & d2 & _ & _ & ->). cbn. eauto. }
    assert (forall a b c : string, (a +:+ b) +:+ c = a +:+ b +:+ c) as Happ
      by (intros a b c; induction a; cbn; congruence).
    split.
    + rewrite decision_route. unfold route. rewrite Hskip, Hc. cbn [destination].
      unfold folder_of. f_equal. now rewrite !Happ.
    + pose proof (organize_file_first_attempt cfg f s) as Hfirst'.
      cbn zeta in Hfirst'. rewrite Hc in Hfirst'. cbn [destination category] in Hfirst'.
      unfold folder_of in Hfirst'. rewrite !Happ in Hfirst'. exact Hfirst'.
  - intros Hnone.
    assert (Py.search_20dd (name f) = None) as Hsearch.
    { destruct (Py.search_20dd (name f)) as [y|] eqn:Hsearch; [|reflexivity].
      destruct (PyFacts.search_20dd_first _ _ Hsearch) as (pre & post & Hn & Hy & _).
      destruct Hnone. now exists pre, y, post. }
    assert (Forall (fun a => category a <> Photos) (candidates cfg f)) as Hcat.
    { unfold candidates, plan, photo_step, flat_step. rewrite Hyear, Hsearch.
      destruct (_should_skip cfg _ _); [constructor|].
      destruct (_is_document cfg (name f)), (_is_temp_file cfg (name f)); cbn;
        repeat constructor; discriminate. }
    split_and!; [congruence | assumption |].
    destruct (organize_file_outcome cfg f s)
      as [(k & a & Hk & _ & -> & _) | (_ & -> & _)].
    + apply list_elem_of_lookup_2 in Hk. rewrite Forall_forall in Hcat.
      specialize (Hcat a Hk). destruct a as [[] ? ?]; cbn in *; congruence.
    + now destruct (_should_skip cfg _ _).
Qed.

(** C6 at [2019_vs_2023.jpg]: the year is the first one, [2019]; and at
    [IMG_20٢٣.jpg], whose year is written with two Arabic-Indic digits. *)
Lemma C6_witness :
  let cfg := test_config true in
  let f := root_file "2019_vs_2023.jpg" in
  let g := root_file "IMG_20٢٣.jpg" in
  let s := start empty_store in
  default true (photos_enabled (photos (rules cfg))) = true /\
  (forall x, default Py.search_20dd (year_pattern (photos (rules cfg))) x
             = Py.search_20dd x) /\
  (exists pre y0 post, name f = pre +:+ y0 +:+ post /\ Py.is_year y0) /\
  _should_skip cfg (path_display f) (name f) = false /\
  _extract_year_from_filename cfg (name f) = Some "2019" /\
  decision_of (emitted (_organize_file cfg f) s) =
    MoveTo Photos "/Photos Archive/2019/2019_vs_2023.jpg" /\
  stats (snd (_organize_file cfg f s)) = incr_photos_moved stats_init /\
  Py.is_year "20٢٣" /\
  decision_of (emitted (_organize_file cfg g) s) =
    MoveTo Photos "/Photos Archive/20٢٣/IMG_20٢٣.jpg".
Proof.
  intros cfg f g s.
  assert (default true (photos_enabled (photos (rules cfg))) = true) as Henabled
    by reflexivity.
  assert (forall x, default Py.search_20dd (year_pattern (photos (rules cfg))) x
                    = Py.search_20dd x) as Hpattern by (intros x; reflexivity).
  assert (exists pre y0 post, name f = pre +:+ y0 +:+ post /\ Py.is_year y0) as Hoccurs.
  { exists "2019_vs_", "2023", ".jpg". split; [reflexivity|].
    exists "2", "3". repeat split. }
  assert (Py.is_year "20٢٣") as Hyear by (exists "٢", "٣"; repeat split).
  assert (exists pre y0 post, name g = pre +:+ y0 +:+ post /\ Py.is_year y0) as Hoccurs'
    by (exists "IMG_", "20٢٣", ".jpg"; split; [reflexivity | exact Hyear]).
  assert (_should_skip cfg (path_display f) (name f) = false) as Hskip by reflexivity.
  assert (_should_skip cfg (path_display g) (name g) = false) as Hskip' by reflexivity.
  destruct (C6_first_year_routes_to_photos cfg f s Henabled Hpattern) as [Hyes _].
  destruct (Hyes Hoccurs) as (y & pre & post & Hy & _ & _ & _ & Hroute).
  destruct (Hroute Hskip) as (Hdec & ok & more & _ & Hdry & Hsucc).
  assert (y = "2019") as -> by (vm_compute in Hy; now injection Hy).
  destruct (C6_first_year_routes_to_photos cfg g s Henabled Hpattern) as [Hyes' _].
  destruct (Hyes' Hoccurs') as (y' & pre' & post' & Hy' & _ & _ & _ & Hroute').
  destruct (Hroute' Hskip') as (Hdec' & _).
  assert (y' = "20٢٣") as -> by (vm_compute in Hy'; now injection Hy').
  split_and!; try assumption.
  exact (proj2 (Hsucc (Hdry eq_refl))).
Defined.




(** C8.  An entry is skipped if and only if its path contains some
    configured skip-folder string as a substring (anywhere in the path, not
    as a whole path segment), or its name equals or starts with some
    configured skip-file string.  The skipped counter is incremented exactly
    for those entries; for a skipped entry the only record is that of the
    skip check: no folder is ensured, no move is attempted, the store and
    the other counters are unchanged. *)
Theorem C8_skip_rule {D : Type} `{DropboxApi D}
    (cfg : Config) (f : FileMetadata) (s : Organizer D) :
  let skip_config := default {| skip_folders := None; skip_files := None |} (skip cfg) in
  let skips := _should_skip cfg (path_display f) (name f) in
  let s' := snd (_organize_file cfg f s) in
  (skips = true <->
     (exists folder, In folder (default [] (skip_folders skip_config)) /\
                     exists pre post, path_display f = pre +:+ folder +:+ post)
     \/
     (exists skip_file, In skip_file (default [] (skip_files skip_config)) /\
                        (name f = skip_file \/
                         exists rest, name f = skip_file +:+ rest))) /\
  (skipped (stats s') = S (skipped (stats s)) <-> skips = true) /\
  (skipped (stats s') = skipped (stats s) <-> skips = false) /\
  (skips = true ->
     s' = {| dbx := dbx s; stats := incr_skipped (stats s);
             journal := journal s ++ [ShouldSkip (path_display f) (name f) true] |}).
Proof.
  cbn zeta. split_and!.
  - unfold _should_skip.
    set (fs := default [] (skip_folders _)). set (ns := default [] (skip_files _)).
    destruct (existsb _ fs) eqn:Hfs.
    + split; [intros _ | reflexivity]. left.
      apply existsb_exists in Hfs as (folder & Hin & Hc).
      exists folder. split; [assumption | now apply PyFacts.contains_spec].
    + destruct (existsb _ ns) eqn:Hns.
      * split; [intros _ | reflexivity]. right.
        apply existsb_exists in Hns as (skip_file & Hin & Hc).
        exists skip_file. split; [assumption|].
        apply orb_true_iff in Hc as [Hc | Hc].
        -- left. now apply String.eqb_eq.
        -- right. now apply PyFacts.startswith_spec.
      * split; [discriminate|]. intros [(folder & Hin & Hc) | (skip_file & Hin & Hc)].
        -- assert (existsb (fun folder => Py.contains folder (path_display f)) fs = true)
             as Hex; [|congruence].
           apply existsb_exists. exists folder. split; [assumption|].
           now apply PyFacts.contains_spec.
        -- assert (existsb (fun skip_file => String.eqb (name f) skip_file
                                             || Py.startswith (name f) skip_file) ns = true)
             as Hex; [|congruence].
           apply existsb_exists. exists skip_file. split; [assumption|].
           apply orb_true_iff. destruct Hc as [Hc | Hc].
           ++ left. now apply String.eqb_eq.
           ++ right. now apply PyFacts.startswith_spec.
  - destruct (organize_file_outcome cfg f s)
      as [(k & a & Hk & _ & -> & _) | (_ & -> & _)].
    + unfold candidates in Hk.
      destruct (_should_skip cfg (path_display f) (name f)); [discriminate|].
      destruct a as [[] ? ?]; cbn; split; (lia || discriminate).
    + destruct (_should_skip cfg (path_display f) (name f)); cbn;
        split; auto; (lia || discriminate).
  - destruct (organize_file_outcome cfg f s)
      as [(k & a & Hk & _ & -> & _) | (_ & -> & _)].
    + unfold candidates in Hk.
      destruct (_should_skip cfg (path_display f) (name f)); [discriminate|].
      destruct a as [[] ? ?]; cbn; split; auto.
    + destruct (_should_skip cfg (path_display f) (name f)); cbn;
        split; auto; (lia || discriminate).
  - intros Hskip.
    destruct (organize_file_run cfg f s) as [[_ ->] | [Hno _]]; [reflexivity | congruence].
Qed.

(** C8 at a file in the unrelated folder [My Photos Archive 2]: the skip
    folder [Photos Archive] occurs in the path, so the entry is skipped. *)
Lemma C8_witness :
  let cfg := test_config false in
  let f := {| name := "photo.jpg";
              path_display := "/My Photos Archive 2/photo.jpg" |} in
  let s := start empty_store in
  _should_skip cfg (path_display f) (name f) = true /\
  snd (_organize_file cfg f s) =
    {| dbx := empty_store; stats := incr_skipped stats_init;
       journal := [ShouldSkip "/My Photos Archive 2/photo.jpg" "photo.jpg" true] |}.
Proof.
  intros cfg f s.
  destruct (C8_skip_rule cfg f s) as (Hiff & _ & _ & Hskipped).
  assert (_should_skip cfg (path_display f) (name f) = true) as Hskip.
  { apply Hiff. left. exists "Photos Archive". split; [now left|].
    now exists "/My ", " 2/photo.jpg". }
  split; [exact Hskip | exact (Hskipped Hskip)].
Defined.

(** C9.  In dry-run mode: over a whole scan the store is left as it was and
    no folder or move request reaches the client (the journal holds listing
    requests and method records only); for every entry the routing decision
    is still the one the rules give.  The counters are updated as for a
    successful move: an entry some rule matches has exactly one move
    attempt recorded, to the destination of the first matching rule and
    successful, the moved counter of that category grows by one and nothing
    else changes; an entry no rule matches leaves the counters as they were,
    but for [skipped] when the entry is skipped.  These are the attempts and
    the counters of a live pass, from the same counters, in which every
    attempted move succeeds. *)
Theorem C9_dry_run_leaves_store_untouched
    {D : Type} `{DropboxApi D} {D2 : Type} `{DropboxApi D2}
    (cfg : Config) (Hdry : is_dry_run cfg = true)
    (fuel : nat) (path : string) (s : Organizer D)
    (f : FileMetadata) (s2 : Organizer D2) :
  let scan := scan_and_organize cfg fuel path in
  let live := with_dry_run (Some false) cfg in
  let s' := snd (_organize_file cfg f s) in
  dbx (snd (scan s)) = dbx s /\
  journal (snd (scan s)) = journal s ++ emitted scan s /\
  Forall (fun e => is_store_request e = false) (emitted scan s) /\
  dbx s' = dbx s /\
  Forall (fun e => is_store_request e = false) (emitted (_organize_file cfg f) s) /\
  decision_of (emitted (_organize_file cfg f) s) = route cfg f /\
  (stats s2 = stats s ->
   Forall (fun x => snd x = true) (move_attempts (emitted (_organize_file live f) s2)) ->
   move_attempts (emitted (_organize_file cfg f) s) =
     move_attempts (emitted (_organize_file live f) s2) /\
   stats s' = stats (snd (_organize_file live f s2))) /\
  match candidates cfg f with
  | a :: _ =>
      move_attempts (emitted (_organize_file cfg f) s) =
        [(path_display f, destination a, true)] /\
      moved_counter (category a) (stats s') = S (moved_counter (category a) (stats s)) /\
      moved_total (stats s') = S (moved_total (stats s)) /\
      (forall c, c <> category a ->
                 moved_counter c (stats s') = moved_counter c (stats s)) /\
      errors (stats s') = errors (stats s) /\
      skipped (stats s') = skipped (stats s)
  | [] =>
      move_attempts (emitted (_organize_file cfg f) s) = [] /\
      moved_total (stats s') = moved_total (stats s) /\
      (forall c, moved_counter c (stats s') = moved_counter c (stats s)) /\
      errors (stats s') = errors (stats s) /\
      skipped (stats s') =
        if _should_skip cfg (path_display f) (name f)
        then S (skipped (stats s)) else skipped (stats s)
  end.
Proof.
  cbn zeta.
  destruct (scan_and_organize_dry_run cfg fuel path s Hdry) as [Hdbx Hquiet].
  destruct (organize_file_dry_run cfg f s Hdry) as [Hdbx1 Hquiet1].
  split_and!; auto using scan_and_organize_journal, decision_route.
  - intros Hstats Hok.
    pose proof (organize_file_first_attempt cfg f s) as Hdry_run.
    pose proof (organize_file_first_attempt (with_dry_run (Some false) cfg) f s2) as Hlive.
    cbn zeta in Hdry_run, Hlive.
    change (candidates (with_dry_run (Some false) cfg) f) with (candidates cfg f) in Hlive.
    change (_should_skip (with_dry_run (Some false) cfg)) with (_should_skip cfg) in Hlive.
    destruct (candidates cfg f) as [|a rest].
    + destruct Hdry_run as [-> ->], Hlive as [-> ->]. now rewrite Hstats.
    + destruct Hdry_run as (ok & more & Hm & Hd & Hsucc).
      destruct Hlive as (ok2 & more2 & Hm2 & _ & Hsucc2).
      rewrite Hm2 in Hok. apply Forall_cons in Hok as [Hok2 _]. cbn in Hok2. subst ok2.
      destruct (Hsucc (Hd Hdry)) as [-> ->]. destruct (Hsucc2 eq_refl) as [-> ->].
      rewrite Hm, Hm2, (Hd Hdry), Hstats. now split.
  - pose proof (organize_file_first_attempt cfg f s) as Hfirst. cbn zeta in Hfirst.
    destruct (candidates cfg f) as [|a rest].
    + destruct Hfirst as [-> ->].
      destruct (_should_skip cfg (path_display f) (name f));
        (split_and!; [reflexivity | reflexivity | now intros [] | reflexivity
                      | reflexivity]).
    + destruct Hfirst as (ok & more & Hm & Hd & Hsucc).
      destruct (Hsucc (Hd Hdry)) as [-> ->]. rewrite Hm, (Hd Hdry).
      destruct a as [[] ? ?]; unfold moved_total; cbn;
        (split_and!; [reflexivity | reflexivity | lia
                      | intros []; intros Hc; try reflexivity; now destruct Hc
                      | reflexivity | reflexivity]).
Qed.

(** C9 on a listing of three files in dry-run mode; [report.pdf] is counted
    as a document, as in a live pass. *)
Lemma C9_witness :
  let cfg := test_config true in
  let d := listed_store ["vacation_2023_beach.jpg"; "report.pdf"; "random_file.dat"] in
  let scan := scan_and_organize cfg 1 "" in
  is_dry_run cfg = true /\
  dbx (snd (scan (start d))) = d /\
  Forall (fun e => is_store_request e = false) (emitted scan (start d)) /\
  stats (snd (_organize_file cfg (root_file "report.pdf") (start d))) =
    stats (snd (_organize_file (with_dry_run (Some false) cfg)
                               (root_file "report.pdf") (start empty_store))) /\
  documents_moved (stats (snd (_organize_file cfg (root_file "report.pdf") (start d))))
    = 1%nat.
Proof.
  intros cfg d scan.
  assert (is_dry_run cfg = true) as Hdry by reflexivity.
  destruct (C9_dry_run_leaves_store_untouched cfg Hdry 1 "" (start d)
              (root_file "report.pdf") (start empty_store))
    as (Hdbx & _ & Hquiet & _ & _ & _ & Hsame & Hcount).
  split_and!; try assumption.
  - apply Hsame; [reflexivity|]. vm_compute. repeat constructor.
  - change (candidates cfg (root_file "report.pdf"))
      with [ {| category := Documents;
                ensure := ["/Documents & Files"];
                destination := "/Documents & Files/report.pdf" |} ] in Hcount.
    destruct Hcount as (_ & Hgrow & _). exact Hgrow.
Defined.

(** C10.  For every single file entry processed, the sum of the moved
    counters ([photos_moved + documents_moved + temp_moved]) increases by at
    most one and no counter decreases; once a [_move_file] for the entry has
    succeeded, nothing more is recorded for that entry: no further rule is
    evaluated and no further move is attempted.  So no entry is counted as
    moved into two categories. *)
Theorem C10_moved_at_most_once {D : Type} `{DropboxApi D}
    (cfg : Config) (f : FileMetadata) (s : Organizer D) :
  let s' := snd (_organize_file cfg f s) in
  let evs := emitted (_organize_file cfg f) s in
  journal s' = journal s ++ evs /\
  (moved_total (stats s) <= moved_total (stats s') <= moved_total (stats s) + 1)%nat /\
  (photos_moved (stats s) <= photos_moved (stats s'))%nat /\
  (documents_moved (stats s) <= documents_moved (stats s'))%nat /\
  (temp_moved (stats s) <= temp_moved (stats s'))%nat /\
  (forall l1 from_path to_path l2,
      evs = l1 ++ MoveFile from_path to_path true :: l2 -> l2 = []).
Proof.
  cbn zeta. destruct (organize_file_emitted cfg f s) as [Hj Hcase].
  split; [exact Hj|].
  assert (after_first_success (emitted (_organize_file cfg f) s) = []) as Hafter.
  { destruct (_should_skip cfg (path_display f) (name f)).
    - now destruct Hcase as (-> & _).
    - destruct Hcase as (evs0 & -> & Hrun & _). cbn.
      eapply Run_after_first_success; [exact Hrun | apply plan_rule_evaluations]. }
  assert (forall st n, moved_total (add_errors n st) = moved_total st
                       /\ photos_moved (add_errors n st) = photos_moved st
                       /\ documents_moved (add_errors n st) = documents_moved st
                       /\ temp_moved (add_errors n st) = temp_moved st) as Hadd
    by (intros; now unfold moved_total, add_errors).
  destruct (organize_file_outcome cfg f s)
    as [(k & a & _ & _ & -> & _) | (_ & -> & _)].
  - destruct (Hadd (stats s) k) as (H1 & H2 & H3 & H4).
    destruct a as [[] ? ?]; unfold moved_total in *; cbn in *;
      (split_and!; [lia | lia | lia | lia | lia |];
       intros l1 ? ? l2 Heq; eapply after_first_success_split; eassumption).
  - destruct (_should_skip cfg (path_display f) (name f)).
    + unfold moved_total; cbn. split_and!; try lia.
      intros l1 ? ? l2 Heq; eapply after_first_success_split; eassumption.
    + destruct (Hadd (stats s) (length (candidates cfg f))) as (H1 & H2 & H3 & H4).
      split_and!; try lia.
      intros l1 ? ? l2 Heq; eapply after_first_success_split; eassumption.
Qed.

(** C10 at [report.pdf], live: the successful move is the last record. *)
Lemma C10_witness :
  let cfg := test_config false in
  let f := root_file "report.pdf" in
  let s := start empty_store in
  let before := [ ShouldSkip "/report.pdf" "report.pdf" false;
                  ExtractYear "report.pdf" None;
                  IsDocument "report.pdf" true;
                  FilesGetMetadata "/Documents & Files" PathNotFound;
                  FilesCreateFolder "/Documents & Files" true;
                  EnsureFolder "/Documents & Files";
                  FilesMove "/report.pdf" "/Documents & Files/report.pdf" true ] in
  exists l2,
    emitted (_organize_file cfg f) s =
      before ++ MoveFile "/report.pdf" "/Documents & Files/report.pdf" true :: l2 /\
    l2 = [] /\
    (moved_total (stats (snd (_organize_file cfg f s))) <= 1)%nat.
Proof.
  intros cfg f s before.
  destruct (C10_moved_at_most_once cfg f s) as (_ & [_ Hle] & _ & _ & _ & Hlast).
  assert (emitted (_organize_file cfg f) s =
          before ++ [MoveFile "/report.pdf" "/Documents & Files/report.pdf" true])
    as Hevs by reflexivity.
  exists []. split; [exact Hevs|]. split; [exact (Hlast _ _ _ _ Hevs) | exact Hle].
Defined.

(** * Further properties of the organizer *)

(** ** More on strings *)

Module PyShape.
Import Py PyFacts.


Lemma startswith_nil (s : string) : startswith s "" = true.
Proof. reflexivity. Qed.

Lemma contains_nil (s : string) : contains "" s = true.
Proof. destruct s; reflexivity. Qed.







Lemma search_20dd_year (s y : string) :
  search_20dd s = Some y -> exists c y', y = String c y'.
Proof.
  intros Hs. destruct (search_20dd_first _ _ Hs) as (_ & _ & _ & Hy & _).
  destruct Hy as (d1 & d2 & _ & _ & ->). eauto.
Qed.

End PyShape.

(** ** The rules *)



(** X2.  A rule whose [enabled] flag is false never matches: no move is
    planned for its category, the decision for an entry is never a move to
    it, and its counter is left as it was. *)
Theorem X2_disabled_rule_never_matches {D : Type} `{DropboxApi D}
    (cfg : Config) (c : Category) (f : FileMetadata) (s : Organizer D)
    (Hoff : rule_enabled cfg c = false) :
  rule_matches cfg c (name f) = false /\
  Forall (fun a => category a <> c) (candidates cfg f) /\
  (forall to_path, decision_of (emitted (_organize_file cfg f) s) <> MoveTo c to_path) /\
  moved_counter c (stats (snd (_organize_file cfg f s))) = moved_counter c (stats s).
Proof.
  assert (rule_matches cfg c (name f) = false) as Hno.
  { destruct c; cbn in *;
      unfold _extract_year_from_filename, _is_document, _is_temp_file;
      now rewrite Hoff. }
  assert (Forall (fun a => category a <> c) (candidates cfg f)) as Hcat.
  { rewrite candidates_unfold. destruct (_should_skip cfg _ _); [constructor|].
    destruct c; cbn in Hno;
      destruct (_extract_year_from_filename cfg (name f)) as [[|c0 y]|];
      destruct (_is_document cfg (name f)); destruct (_is_temp_file cfg (name f));
      try discriminate; cbn; repeat constructor; discriminate. }
  split_and!; auto.
  - intros to_path. rewrite decision_route. unfold route.
    destruct (_should_skip cfg _ _); [discriminate|].
    destruct (candidates cfg f) as [|a rest]; [discriminate|].
    apply Forall_cons in Hcat as [Ha _]. congruence.
  - destruct (organize_file_outcome cfg f s)
      as [(k & a & Hk & _ & -> & _) | (_ & -> & _)].
    + apply list_elem_of_lookup_2 in Hk. rewrite Forall_forall in Hcat.
      specialize (Hcat a Hk). destruct a as [[] ? ?], c; cbn in *; congruence.
    + destruct (_should_skip cfg _ _), c; reflexivity.
Qed.

Lemma X2_witness :
  let cfg := toggled_config true false true in
  let f := root_file "report.pdf" in
  let s := start empty_store in
  rule_enabled cfg Documents = false /\
  rule_matches cfg Documents (name f) = false /\
  documents_moved (stats (snd (_organize_file cfg f s))) = 0%nat.
Proof.
  intros cfg f s.
  assert (rule_enabled cfg Documents = false) as Hoff by reflexivity.
  destruct (X2_disabled_rule_never_matches cfg Documents f s Hoff)
    as (Hno & _ & _ & Hcount).
  split_and!; auto.
Defined.

(** X3.  An empty string among the skip folders or the skip files makes
    every entry skipped, and an empty string among the temp patterns makes
    every file name a temp file (when the temp rule is enabled): the empty
    string occurs in, and starts, every string. *)
Theorem X3_empty_string_matches_everything (cfg : Config)
    (file_path file_name : string) :
  let skip_config := default {| skip_folders := None; skip_files := None |} (skip cfg) in
  (In "" (default [] (skip_folders skip_config)) \/
   In "" (default [] (skip_files skip_config)) ->
   _should_skip cfg file_path file_name = true) /\
  (rule_enabled cfg Temp = true ->
   In "" (default [] (patterns (temp (rules cfg)))) ->
   _is_temp_file cfg file_name = true).
Proof.
  cbn zeta. split.
  - intros Hin. unfold _should_skip.
    destruct (existsb _ (default [] (skip_folders _))) eqn:Hfolders; [reflexivity|].
    destruct Hin as [Hin | Hin].
    + assert (existsb (fun folder => Py.contains folder file_path)
                (default [] (skip_folders
                   (default {| skip_folders := None; skip_files := None |} (skip cfg))))
              = true) as Hex; [|congruence].
      apply existsb_exists. exists "". split; [assumption | apply PyShape.contains_nil].
    + assert (existsb (fun skip_file => String.eqb file_name skip_file
                                        || Py.startswith file_name skip_file)
                (default [] (skip_files
                   (default {| skip_folders := None; skip_files := None |} (skip cfg))))
              = true) as ->; [|reflexivity].
      apply existsb_exists. exists "". split; [assumption|]. apply orb_true_r.
  - cbn [rule_enabled]. intros Hon Hin. unfold _is_temp_file. rewrite Hon. cbn.
    apply existsb_exists. exists "". split; [assumption | apply PyShape.contains_nil].
Qed.

(** X4.  When the configuration holds none of the optional keys, no entry
    is skipped, moves are live, and an entry is routed by the default year
    pattern alone: to [/Photos Archive/{year}/{name}] when its name holds a
    year, and nowhere otherwise. *)
Theorem X4_defaults_when_keys_are_absent {D : Type} `{DropboxApi D}
    (f : FileMetadata) (s : Organizer D) :
  is_dry_run bare_config = false /\
  _should_skip bare_config (path_display f) (name f) = false /\
  _is_document bare_config (name f) = false /\
  _is_temp_file bare_config (name f) = false /\
  decision_of (emitted (_organize_file bare_config f) s) =
    match Py.search_20dd (name f) with
    | Some year => MoveTo Photos ("/Photos Archive/" +:+ year +:+ "/" +:+ name f)
    | None => NoMatch
    end.
Proof.
  split_and!; try reflexivity.
  rewrite decision_route. unfold route. rewrite candidates_unfold.
  change (_should_skip bare_config (path_display f) (name f)) with false.
  change (_is_document bare_config (name f)) with false.
  change (_is_temp_file bare_config (name f)) with false.
  change (_extract_year_from_filename bare_config (name f))
    with (Py.search_20dd (name f)).
  destruct (Py.search_20dd (name f)) as [year|] eqn:Hsearch; [|reflexivity].
  destruct (PyShape.search_20dd_year _ _ Hsearch) as (c & y & ->).
  cbn. reflexivity.
Qed.

(** X5.  When the folder of a category is listed among the skip folders,
    whatever lies beneath it is skipped, and so is the destination of every
    move planned for that category: a later scan does not move the file
    again. *)
Theorem X5_moved_files_are_skipped_afterwards (cfg : Config) (f : FileMetadata)
    (a : Attempt) (file_name : string)
    (Hplanned : In a (candidates cfg f))
    (Hlisted : In (folder_of cfg (category a))
                  (default [] (skip_folders
                     (default {| skip_folders := None; skip_files := None |} (skip cfg))))) :
  (forall rest, _should_skip cfg ("/" +:+ folder_of cfg (category a) +:+ rest) file_name
                = true) /\
  (exists rest, destination a = "/" +:+ folder_of cfg (category a) +:+ "/" +:+ rest) /\
  _should_skip cfg (destination a) file_name = true.
Proof.
  assert (forall rest,
             _should_skip cfg ("/" +:+ folder_of cfg (category a) +:+ rest) file_name
             = true) as Hbeneath.
  { intros rest. unfold _should_skip.
    match goal with |- (if existsb ?p ?l then _ else _) = _ =>
      assert (existsb p l = true) as ->; [|reflexivity] end.
    apply existsb_exists. exists (folder_of cfg (category a)).
    split; [assumption|]. apply PyFacts.contains_spec. now exists "/", rest. }
  assert (exists rest,
             destination a = "/" +:+ folder_of cfg (category a) +:+ "/" +:+ rest)
    as [rest Hdest].
  { rewrite candidates_unfold in Hplanned.
    destruct (_should_skip cfg (path_display f) (name f)); [destruct Hplanned|].
    apply in_app_or in Hplanned as [Hin | Hin];
      [|apply in_app_or in Hin as [Hin | Hin]].
    - destruct (_extract_year_from_filename cfg (name f)) as [[|c y]|];
        try destruct Hin as [<- | []]; try destruct Hin.
      cbn. rewrite !PyFacts.append_assoc. cbn. eauto.
    - destruct (_is_document cfg (name f)); [|destruct Hin].
      destruct Hin as [<- | []]. cbn. rewrite !PyFacts.append_assoc. cbn. eauto.
    - destruct (_is_temp_file cfg (name f)); [|destruct Hin].
      destruct Hin as [<- | []]. cbn. rewrite !PyFacts.append_assoc. cbn. eauto. }
  split_and!; [exact Hbeneath | eauto |]. rewrite Hdest. apply Hbeneath.
Qed.

Lemma X5_witness :
  let cfg := test_config false in
  let f := root_file "vacation_2023_beach.jpg" in
  exists a,
    In a (candidates cfg f) /\
    destination a = "/Photos Archive/2023/vacation_2023_beach.jpg" /\
    _should_skip cfg (destination a) "vacation_2023_beach.jpg" = true.
Proof.
  intros cfg f.
  exists {| category := Photos;
            ensure := ["/Photos Archive"; "/Photos Archive/2023"];
            destination := "/Photos Archive/2023/vacation_2023_beach.jpg" |}.
  assert (In {| category := Photos;
                ensure := ["/Photos Archive"; "/Photos Archive/2023"];
                destination := "/Photos Archive/2023/vacation_2023_beach.jpg" |}
             (candidates cfg f)) as Hplanned by (now left).
  split_and!; [exact Hplanned | reflexivity |].
  refine (proj2 (proj2 (X5_moved_files_are_skipped_afterwards cfg f _
                          "vacation_2023_beach.jpg" Hplanned _))).
  now left.
Defined.

(** ** Journals of runs, entries and listings *)

Section JournalFacts.

Variable dry : bool.
Variable from_path : string.

Lemma record_within_more a planned e :
  record_within from_path planned e -> record_within from_path (a :: planned) e.
Proof.
  destruct e; cbn; auto.
  - intros (b & Hb & Hq). exists b. split; [now right | assumption].
  - intros (-> & b & Hb & Hq). split; [reflexivity|]. exists b. split; [now right | assumption].
  - intros (b & Hb & Hq). exists b. split; [now right | assumption].
  - intros (b & Hb & Hq). exists b. split; [now right | assumption].
  - intros (-> & b & Hb & Hq). split; [reflexivity|]. exists b. split; [now right | assumption].
Qed.

Lemma ensure_records_within l evs a planned :
  ensure_records dry l evs -> (forall q, In q l -> In q (ensure a)) ->
  Forall (record_within from_path (a :: planned)) evs.
Proof.
  induction 1 as [|q l e1 e2 H1 _ IH]; intros Hsub; [constructor|].
  apply Forall_app. split; [|apply IH; intros; apply Hsub; now right].
  assert (exists b, In b (a :: planned) /\ In q (ensure b)) as Hq
    by (exists a; split; [now left | apply Hsub; now left]).
  destruct H1; repeat constructor; exact Hq.
Qed.

Lemma Run_records_within p st st' evs :
  Run dry from_path p st st' evs ->
  Forall (fun step => is_rule_evaluation (fst step) = true) p ->
  Forall (record_within from_path (omap snd p)) evs.
Proof.
  induction 1 as [st | ev rest st st' evs _ IH | ev a rest st ens Hens
                 | ev a rest st st' ens evs Hd Hens _ IH];
    intros Hp; try apply Forall_cons in Hp as [Hev Hp]; cbn [fst snd omap] in *.
  - constructor.
  - constructor; [now destruct ev | auto].
  - constructor; [now destruct ev|]. apply Forall_app. split.
    + eapply ensure_records_within; [eassumption | auto].
    + assert (exists b, In b (a :: omap snd rest) /\ destination a = destination b)
        as Hto by (exists a; split; [now left | reflexivity]).
      unfold move_records. destruct dry; repeat constructor; exact Hto.
  - constructor; [now destruct ev|]. apply Forall_app. split.
    + eapply ensure_records_within; [eassumption | auto].
    + apply Forall_app. split.
      * assert (exists b, In b (a :: omap snd rest) /\ destination a = destination b)
          as Hto by (exists a; split; [now left | reflexivity]).
        unfold move_records. destruct dry; repeat constructor; exact Hto.
      * eapply Forall_impl; [exact (IH Hp)|]. intros e. apply record_within_more.
Qed.

Lemma count_records_app p l1 l2 :
  count_records p (l1 ++ l2) = (count_records p l1 + count_records p l2)%nat.
Proof. induction l1 as [|e l1 IH]; cbn; [reflexivity | rewrite IH; lia]. Qed.

Lemma count_records_none (p : Event -> bool) evs :
  Forall (fun e => p e = false) evs -> count_records p evs = 0%nat.
Proof. induction 1 as [|e evs He _ IH]; cbn; [reflexivity | now rewrite He, IH]. Qed.

(** The counters of a run against its records. *)
Lemma Run_counts p st st' evs :
  Run dry from_path p st st' evs ->
  Forall (fun step => is_rule_evaluation (fst step) = true /\
                      is_skipped_record (fst step) = false) p ->
  moved_total st' = (moved_total st + count_records is_moved_record evs)%nat /\
  errors st' = (errors st + count_records is_failed_record evs)%nat /\
  skipped st' = skipped st /\
  count_records is_skipped_record evs = 0%nat.
Proof.
  assert (forall l ens (p : Event -> bool),
             ensure_records dry l ens ->
             (forall e, is_ensure_event e = true -> p e = false) ->
             count_records p ens = 0%nat) as Hens0.
  { intros l ens q Hens Hq. apply count_records_none.
    destruct (ensure_records_events dry l ens Hens) as [Hquiet _].
    eapply Forall_impl; [exact Hquiet | exact Hq]. }
  induction 1 as [st | ev rest st st' evs _ IH | ev a rest st ens Hens
                 | ev a rest st st' ens evs Hd Hens _ IH];
    intros Hp; try apply Forall_cons in Hp as [[Hev Hns] Hp]; cbn [fst] in *.
  - cbn. split_and!; lia.
  - destruct (IH Hp) as (H1 & H2 & H3 & H4).
    cbn [count_records]. rewrite Hns. destruct ev; try discriminate; cbn; split_and!; lia.
  - cbn [count_records]. rewrite Hns, !count_records_app.
    rewrite !(Hens0 _ _ _ Hens) by (intros e; now destruct e).
    assert (moved_total (incr_moved (category a) st) = S (moved_total st)) as Hm
      by (destruct a as [[] ? ?]; unfold moved_total; cbn; lia).
    assert (errors (incr_moved (category a) st) = errors st /\
            skipped (incr_moved (category a) st) = skipped st) as [He Hs]
      by (destruct a as [[] ? ?]; split; reflexivity).
    unfold move_records.
    destruct ev; try discriminate; destruct dry; cbn; split_and!; lia.
  - destruct (IH Hp) as (H1 & H2 & H3 & H4). subst dry.
    cbn [count_records]. rewrite Hns, !count_records_app.
    rewrite !(Hens0 _ _ _ Hens) by (intros e; now destruct e).
    unfold moved_total in *. cbn in *.
    destruct ev; try discriminate; cbn; split_and!; lia.
Qed.

End JournalFacts.

Section EntriesFacts.

Context {D : Type} `{DropboxApi D}.
Variable cfg : Config.

(** A planned move belongs to a rule that matches an entry that is not
    skipped; it goes beneath the folder of its category and keeps the name
    of the file, with the year in between for photos. *)
Lemma candidates_in (f : FileMetadata) (a : Attempt) :
  In a (candidates cfg f) ->
  _should_skip cfg (path_display f) (name f) = false /\
  rule_matches cfg (category a) (name f) = true /\
  ((category a <> Photos /\
    destination a = "/" +:+ folder_of cfg (category a) +:+ "/" +:+ name f) \/
   (category a = Photos /\
    exists year, _extract_year_from_filename cfg (name f) = Some year /\
                 destination a =
                   "/" +:+ folder_of cfg Photos +:+ "/" +:+ year +:+ "/" +:+ name f)).
Proof.
  rewrite candidates_unfold. unfold rule_matches.
  destruct (_should_skip cfg (path_display f) (name f)); [intros []|].
  intros Hin. split; [reflexivity|].
  apply in_app_or in Hin as [Hin | Hin]; [|apply in_app_or in Hin as [Hin | Hin]].
  - destruct (_extract_year_from_filename cfg (name f)) as [[|c y]|];
      try destruct Hin as [<- | []]; try destruct Hin.
    cbn [category destination]. split; [reflexivity | right].
    split; [reflexivity|]. exists (String c y).
    split; [reflexivity | now rewrite !PyFacts.append_assoc].
  - destruct (_is_document cfg (name f)); [|destruct Hin].
    destruct Hin as [<- | []]. cbn [category destination].
    split; [reflexivity | left]. split; [discriminate | now rewrite !PyFacts.append_assoc].
  - destruct (_is_temp_file cfg (name f)); [|destruct Hin].
    destruct Hin as [<- | []]. cbn [category destination].
    split; [reflexivity | left]. split; [discriminate | now rewrite !PyFacts.append_assoc].
Qed.

Lemma candidates_length (f : FileMetadata) : (length (candidates cfg f) <= 3)%nat.
Proof.
  rewrite candidates_unfold. destruct (_should_skip cfg _ _); [cbn; lia|].
  destruct (_extract_year_from_filename cfg (name f)) as [[|c y]|];
    destruct (_is_document cfg (name f)); destruct (_is_temp_file cfg (name f));
    cbn; lia.
Qed.

Lemma plan_not_skipped (file_name : string) :
  Forall (fun step => is_rule_evaluation (fst step) = true /\
                      is_skipped_record (fst step) = false) (plan cfg file_name).
Proof. unfold plan, photo_step, flat_step. repeat constructor. Qed.

Lemma organize_file_within (f : FileMetadata) (s : Organizer D) :
  Forall (record_within (path_display f) (candidates cfg f))
         (emitted (_organize_file cfg f) s).
Proof.
  destruct (organize_file_emitted cfg f s) as [_ Hcase]. unfold candidates.
  destruct (_should_skip cfg (path_display f) (name f)).
  - destruct Hcase as (-> & _). repeat constructor.
  - destruct Hcase as (evs0 & -> & Hrun & _). constructor; [exact I|].
    exact (Run_records_within _ _ _ _ _ _ Hrun (plan_rule_evaluations cfg (name f))).
Qed.

Lemma organize_file_counts (f : FileMetadata) (s : Organizer D) :
  let s' := snd (_organize_file cfg f s) in
  let evs := emitted (_organize_file cfg f) s in
  moved_total (stats s') = (moved_total (stats s) + count_records is_moved_record evs)%nat /\
  errors (stats s') = (errors (stats s) + count_records is_failed_record evs)%nat /\
  skipped (stats s') = (skipped (stats s) + count_records is_skipped_record evs)%nat.
Proof.
  cbn zeta. destruct (organize_file_emitted cfg f s) as [_ Hcase].
  destruct (_should_skip cfg (path_display f) (name f)).
  - destruct Hcase as (-> & -> & _). unfold moved_total. cbn. split_and!; lia.
  - destruct Hcase as (evs0 & -> & Hrun & _).
    destruct (Run_counts _ _ _ _ _ _ Hrun (plan_not_skipped (name f)))
      as (H1 & H2 & H3 & H4).
    cbn [count_records is_moved_record is_failed_record is_skipped_record].
    split_and!; lia.
Qed.

Lemma organize_file_counters (f : FileMetadata) (s : Organizer D) :
  let st := stats s in
  let st' := stats (snd (_organize_file cfg f s)) in
  (moved_total st <= moved_total st')%nat /\
  (skipped st <= skipped st')%nat /\
  (errors st <= errors st')%nat /\
  (moved_total st' + skipped st' <= moved_total st + skipped st + 1)%nat /\
  (errors st' <= errors st + 3)%nat /\
  (is_dry_run cfg = true -> errors st' = errors st).
Proof.
  cbn zeta. pose proof (candidates_length f) as Hlen.
  destruct (organize_file_outcome cfg f s)
    as [(k & a & Hk & _ & -> & Hdry) | (_ & -> & Hdry)].
  - apply lookup_lt_Some in Hk.
    destruct a as [[] ? ?]; unfold moved_total; cbn;
      (split_and!; try lia; intros Hd; rewrite (Hdry Hd); lia).
  - destruct (_should_skip cfg (path_display f) (name f));
      unfold moved_total; cbn; (split_and!; try lia).
    intros Hd. rewrite (Hdry Hd). cbn. lia.
Qed.

(** The journal of a list of entries is made of the journals of its
    files. *)
Lemma organize_entries_records (Q : FileMetadata -> Event -> Prop) :
  (forall f s, Forall (Q f) (emitted (_organize_file cfg f) s)) ->
  forall l s,
    journal (snd (organize_entries cfg l s)) =
      journal s ++ emitted (organize_entries cfg l) s /\
    Forall (fun e => exists f, In f (files_of l) /\ Q f e)
           (emitted (organize_entries cfg l) s).
Proof.
  intros HQ l.
  assert (forall s, exists evs,
             journal (snd (organize_entries cfg l s)) = journal s ++ evs /\
             Forall (fun e => exists f, In f (files_of l) /\ Q f e) evs) as Hall.
  { induction l as [|[f | ? ? | ?] l IH]; intros s.
    - exists []. cbn. rewrite app_nil_r. split; [reflexivity | constructor].
    - rewrite organize_entries_cons.
      destruct (organize_file_emitted cfg f s) as [Hj _].
      destruct (IH (snd (_organize_file cfg f s))) as (evs & Hevs & Hq).
      exists (emitted (_organize_file cfg f) s ++ evs).
      split; [now rewrite Hevs, Hj, app_assoc|].
      apply Forall_app. split.
      + eapply Forall_impl; [apply HQ|]. intros e He. exists f. split; [now left | exact He].
      + eapply Forall_impl; [exact Hq|]. intros e (g & Hg & He).
        exists g. split; [now right | exact He].
    - exact (IH s).
    - exact (IH s). }
  intros s. destruct (Hall s) as (evs & Hevs & Hq).
  now rewrite (emitted_app _ _ _ Hevs).
Qed.

End EntriesFacts.

Section RequestFacts.

Variable from_path : string.

(** Outside dry-run mode every [_move_file] call makes one request, and its
    result is whether the request returned. *)
Lemma Run_request_counts p st st' evs (ok : bool) :
  Run false from_path p st st' evs ->
  Forall (fun step => is_rule_evaluation (fst step) = true) p ->
  count_records (is_move_answer ok) evs =
  count_records (if ok then is_moved_record else is_failed_record) evs.
Proof.
  assert (forall l ens (q : Event -> bool),
             ensure_records false l ens ->
             (forall e, is_ensure_event e = true -> q e = false) ->
             count_records q ens = 0%nat) as Hens0.
  { intros l ens q Hens Hq. apply count_records_none.
    destruct (ensure_records_events false l ens Hens) as [Hquiet _].
    eapply Forall_impl; [exact Hquiet | exact Hq]. }
  remember false as dry eqn:Hdry.
  induction 1 as [st | ev rest st st' evs _ IH | ev a rest st ens Hens
                 | ev a rest st st' ens evs Hd Hens _ IH];
    intros Hp; try apply Forall_cons in Hp as [Hev Hp]; cbn [fst] in *; subst dry.
  - reflexivity.
  - cbn [count_records]. rewrite (IH Hp).
    destruct ev; try discriminate; destruct ok; reflexivity.
  - cbn [count_records]. rewrite !count_records_app.
    rewrite !(Hens0 _ _ _ Hens) by (intros e; destruct e; destruct ok; now cbn).
    destruct ev; try discriminate; destruct ok; reflexivity.
  - cbn [count_records]. rewrite !count_records_app.
    rewrite !(Hens0 _ _ _ Hens) by (intros e; destruct e; destruct ok; now cbn).
    rewrite (IH Hp).
    destruct ev; try discriminate; destruct ok; reflexivity.
Qed.

End RequestFacts.

(** ** Listings *)

(** X6. While the entries of a listing are organized, every [files_move_v2]
    request moves a file of the listing that the skip rule lets through, from
    the path the listing gave, to the destination of a rule that matches its
    name; and every [files_create_folder_v2] request is for a folder such a
    move goes through.  Nothing else is moved or created. *)
Theorem X6_requests_stay_within_the_listing {D : Type} `{DropboxApi D}
    (cfg : Config) (l : list Metadata) (s : Organizer D) :
  let evs := emitted (organize_entries cfg l) s in
  (forall from_path to_path ok,
      In (FilesMove from_path to_path ok) evs ->
      exists f a,
        In f (files_of l) /\ In a (candidates cfg f) /\
        from_path = path_display f /\ to_path = destination a /\
        _should_skip cfg (path_display f) (name f) = false /\
        rule_matches cfg (category a) (name f) = true) /\
  (forall folder_path ok,
      In (FilesCreateFolder folder_path ok) evs ->
      exists f a,
        In f (files_of l) /\ In a (candidates cfg f) /\
        In folder_path (ensure a)).
Proof.
  cbn zeta.
  destruct (organize_entries_records cfg
              (fun f => record_within (path_display f) (candidates cfg f))
              (organize_file_within cfg) l s) as [_ Hall].
  rewrite Forall_forall in Hall. split.
  - intros from_path to_path ok Hin.
    destruct (Hall _ (proj2 (list_elem_of_In _ _) Hin)) as (f & Hf & -> & a & Ha & ->).
    destruct (candidates_in cfg f a Ha) as (Hskip & Hrule & _).
    exists f, a. split_and!; auto.
  - intros folder_path ok Hin.
    destruct (Hall _ (proj2 (list_elem_of_In _ _) Hin)) as (f & Hf & a & Ha & Hq).
    exists f, a. split_and!; auto.
Qed.

Section ScanFacts.

Context {D : Type} `{DropboxApi D}.
Variable cfg : Config.

Lemma organize_file_request_counts (f : FileMetadata) (s : Organizer D) (ok : bool) :
  is_dry_run cfg = false ->
  let evs := emitted (_organize_file cfg f) s in
  count_records (is_move_answer ok) evs =
  count_records (if ok then is_moved_record else is_failed_record) evs.
Proof.
  intros Hdry. cbn zeta. destruct (organize_file_emitted cfg f s) as [_ Hcase].
  destruct (_should_skip cfg (path_display f) (name f)).
  - destruct Hcase as (-> & _). now destruct ok.
  - destruct Hcase as (evs0 & -> & Hrun & _). rewrite Hdry in Hrun.
    cbn [count_records].
    rewrite (Run_request_counts _ _ _ _ _ ok Hrun (plan_rule_evaluations cfg (name f))).
    now destruct ok.
Qed.

Lemma accounted_refl (s : Organizer D) : accounted cfg s s.
Proof. exists []. rewrite app_nil_r. cbn. split_and!; auto; lia. Qed.

Lemma accounted_trans (s1 s2 s3 : Organizer D) :
  accounted cfg s1 s2 -> accounted cfg s2 s3 -> accounted cfg s1 s3.
Proof.
  intros (e1 & J1 & M1 & E1 & S1 & Q1) (e2 & J2 & M2 & E2 & S2 & Q2).
  exists (e1 ++ e2). rewrite !count_records_app.
  split_and!; try lia; [now rewrite J2, J1, app_assoc|].
  intros Hdry ok. rewrite !count_records_app, (Q1 Hdry ok), (Q2 Hdry ok). reflexivity.
Qed.

Lemma accounted_file f (s : Organizer D) : accounted cfg s (snd (_organize_file cfg f s)).
Proof.
  exists (emitted (_organize_file cfg f) s).
  destruct (organize_file_emitted cfg f s) as [Hj _].
  destruct (organize_file_counts cfg f s) as (Hm & He & Hs).
  split_and!; auto. intros Hdry ok. now apply organize_file_request_counts.
Qed.

Lemma accounted_record e (s : Organizer D) :
  is_rule_evaluation e = false -> is_store_request e = false ->
  match e with MoveFile _ _ _ | ShouldSkip _ _ _ => False | _ => True end ->
  accounted cfg s (snd (record e s)).
Proof.
  intros _ Hreq He. exists [e]. cbn.
  destruct e; try destruct He; try discriminate Hreq; cbn;
    split_and!; try reflexivity; try lia;
    intros _ answer; now destruct answer.
Qed.

Lemma scan_and_organize_accounted (fuel : nat) (path : string) (s : Organizer D) :
  accounted cfg s (snd (scan_and_organize cfg fuel path s)).
Proof.
  apply (scan_and_organize_invariant cfg (accounted (D:=D) cfg)).
  - exact accounted_refl.
  - exact accounted_trans.
  - exact accounted_file.
  - intros p ok s0. now apply accounted_record.
  - intros c ok s0. now apply accounted_record.
Qed.

Lemma organize_entries_app (l1 l2 : list Metadata) (s : Organizer D) :
  organize_entries cfg (l1 ++ l2) s =
  organize_entries cfg l2 (snd (organize_entries cfg l1 s)).
Proof.
  revert s. induction l1 as [|[f | ? ? | ?] l1 IH]; intros s; cbn [app].
  - reflexivity.
  - now rewrite !organize_entries_cons.
  - exact (IH s).
  - exact (IH s).
Qed.

Lemma organize_entries_files (l : list Metadata) (s : Organizer D) :
  organize_entries cfg l s = organize_entries cfg (File <$> files_of l) s.
Proof.
  revert s. induction l as [|[f | ? ? | ?] l IH]; intros s.
  - reflexivity.
  - change (File <$> files_of (File f :: l)) with (File f :: (File <$> files_of l)).
    now rewrite !organize_entries_cons.
  - exact (IH s).
  - exact (IH s).
Qed.

Lemma organize_entries_counters (l : list Metadata) (s : Organizer D) :
  let st := stats s in
  let st' := stats (snd (organize_entries cfg l s)) in
  let n := length (files_of l) in
  (moved_total st <= moved_total st')%nat /\
  (skipped st <= skipped st')%nat /\
  (errors st <= errors st')%nat /\
  (moved_total st' + skipped st' <= moved_total st + skipped st + n)%nat /\
  (errors st' <= errors st + 3 * n)%nat /\
  (is_dry_run cfg = true -> errors st' = errors st).
Proof.
  cbn zeta. revert s. induction l as [|[f | ? ? | ?] l IH]; intros s.
  - cbn. split_and!; auto; lia.
  - rewrite organize_entries_cons.
    change (files_of (File f :: l)) with (f :: files_of l). cbn [length].
    destruct (organize_file_counters cfg f s) as (A1 & A2 & A3 & A4 & A5 & A6).
    destruct (IH (snd (_organize_file cfg f s))) as (B1 & B2 & B3 & B4 & B5 & B6).
    split_and!; try lia. intros Hd. rewrite (B6 Hd), (A6 Hd). reflexivity.
  - exact (IH s).
  - exact (IH s).
Qed.

End ScanFacts.

(** X7. After a scan, however it ends, the counters that [print_summary]
    reports have grown by what the scan did: the moved counters together by
    the number of [_move_file] calls that returned [True], [errors] by the
    number that returned [False], [skipped] by the number of entries
    [_should_skip] held back.  Failed listing and folder requests are counted
    nowhere. *)
Theorem X7_counters_count_the_journal {D : Type} `{DropboxApi D}
    (cfg : Config) (fuel : nat) (path : string) (s : Organizer D) :
  let s' := snd (scan_and_organize cfg fuel path s) in
  let evs := emitted (scan_and_organize cfg fuel path) s in
  moved_total (stats s') =
    (moved_total (stats s) + count_records is_moved_record evs)%nat /\
  errors (stats s') = (errors (stats s) + count_records is_failed_record evs)%nat /\
  skipped (stats s') = (skipped (stats s) + count_records is_skipped_record evs)%nat.
Proof.
  cbn zeta.
  destruct (scan_and_organize_accounted cfg fuel path s) as (evs & Hj & Hm & He & Hs & _).
  rewrite (emitted_app _ _ _ Hj). auto.
Qed.

(** X8. Outside dry-run mode the counters match the requests made to the
    client during a scan: the moved counters together grow by the number of
    [files_move_v2] requests that returned, [errors] by the number of
    [files_move_v2] requests that raised. *)
Theorem X8_counters_match_move_requests {D : Type} `{DropboxApi D}
    (cfg : Config) (fuel : nat) (path : string) (s : Organizer D)
    (Hdry : is_dry_run cfg = false) :
  let s' := snd (scan_and_organize cfg fuel path s) in
  let evs := emitted (scan_and_organize cfg fuel path) s in
  moved_total (stats s') =
    (moved_total (stats s) + count_records (is_move_answer true) evs)%nat /\
  errors (stats s') =
    (errors (stats s) + count_records (is_move_answer false) evs)%nat.
Proof.
  cbn zeta.
  destruct (scan_and_organize_accounted cfg fuel path s) as (evs & Hj & Hm & He & _ & Hq).
  rewrite (emitted_app _ _ _ Hj), (Hq Hdry true), (Hq Hdry false). auto.
Qed.

Lemma X8_witness :
  let cfg := test_config false in
  let d := {| store_folders := []; store_denied := ["/Documents & Files"];
              store_metadata_down := false;
              store_listing := [File (root_file "a_2023.jpg");
                                File (root_file "notes.txt");
                                File (root_file "x.tmp")] |} in
  let s' := snd (scan_and_organize cfg 0 "" (start d)) in
  is_dry_run cfg = false /\
  moved_total (stats s') = 2%nat /\ errors (stats s') = 1%nat.
Proof.
  cbn zeta. split; [reflexivity|].
  refine (X8_counters_match_move_requests (test_config false) 0 "" (start _) eq_refl).
Defined.

(** X9. Organizing the entries of a listing counts every file at most
    once as moved or skipped, and at most three failed moves for it; no
    counter ever decreases, and in dry-run mode [errors] stays as it
    was. *)
Theorem X9_counters_are_bounded_by_the_listing {D : Type} `{DropboxApi D}
    (cfg : Config) (l : list Metadata) (s : Organizer D) :
  let st := stats s in
  let st' := stats (snd (organize_entries cfg l s)) in
  let n := length (files_of l) in
  (moved_total st <= moved_total st')%nat /\
  (skipped st <= skipped st')%nat /\
  (errors st <= errors st')%nat /\
  (moved_total st' + skipped st' <= moved_total st + skipped st + n)%nat /\
  (errors st' <= errors st + 3 * n)%nat /\
  (is_dry_run cfg = true -> errors st' = errors st).
Proof. exact (organize_entries_counters cfg l s). Qed.

Section Pages.

Context {D : Type} `{DropboxApi D}.
Variable cfg : Config.

Lemma same_store_refl (s : Organizer D) : same_store s s.
Proof. split; reflexivity. Qed.

Lemma blind_ret {A} (a : A) : journal_blind (ret (D:=D) a).
Proof. intros s1 s2 Hs. split; [reflexivity | exact Hs]. Qed.

Lemma blind_bind {A B} (m : M D A) (k : A -> M D B) :
  journal_blind m -> (forall a, journal_blind (k a)) -> journal_blind (bind m k).
Proof.
  intros Hm Hk s1 s2 Hs. unfold bind. destruct (Hm s1 s2 Hs) as [Ha Hs'].
  destruct (m s1) as [a1 s1'], (m s2) as [a2 s2']. cbn in Ha, Hs'. subst a2.
  exact (Hk a1 s1' s2' Hs').
Qed.

Lemma blind_record (e : Event) : journal_blind (record (D:=D) e).
Proof. intros s1 s2 [Hd Hst]. repeat split; assumption. Qed.

Lemma blind_set_dbx (d : D) : journal_blind (set_dbx d).
Proof. intros s1 s2 [Hd Hst]. repeat split; assumption. Qed.

Lemma blind_get_dbx : journal_blind (get_dbx (D:=D)).
Proof. intros s1 s2 [Hd Hst]. repeat split; assumption. Qed.

Lemma blind_update_stats (g : Stats -> Stats) : journal_blind (update_stats (D:=D) g).
Proof. intros s1 s2 [Hd Hst]. repeat split; cbn; congruence. Qed.

Ltac blind :=
  repeat first
    [ apply blind_ret | apply blind_record | apply blind_set_dbx
    | apply blind_get_dbx | apply blind_update_stats
    | apply blind_bind; [|intros ?]
    | match goal with
      | |- journal_blind (if ?b then _ else _) => destruct b
      | |- journal_blind (let (_, _) := ?x in _) => destruct x
      | |- journal_blind (match ?x with _ => _ end) => destruct x
      end ].

Lemma blind_ensure_folder_exists (folder_path : string) :
  journal_blind (_ensure_folder_exists cfg folder_path).
Proof. unfold _ensure_folder_exists. blind. Qed.

Lemma blind_move_file (from_path to_path : string) :
  journal_blind (_move_file cfg from_path to_path).
Proof. unfold _move_file. blind. Qed.

Lemma blind_organize_file (f : FileMetadata) : journal_blind (_organize_file cfg f).
Proof.
  unfold _organize_file, call. cbv zeta.
  repeat first
    [ apply blind_ensure_folder_exists | apply blind_move_file
    | apply blind_ret | apply blind_record | apply blind_update_stats
    | apply blind_bind; [|intros ?]
    | match goal with
      | |- journal_blind (if ?b then _ else _) => destruct b
      end ].
Qed.

Lemma blind_organize_entries (l : list Metadata) :
  journal_blind (organize_entries cfg l).
Proof.
  induction l as [|[f | ? ? | ?] l IH]; cbn [organize_entries];
    [apply blind_ret | | exact IH | exact IH].
  apply blind_bind; [apply blind_organize_file | intros _; exact IH].
Qed.

End Pages.

(** X10. Pagination does not change what a scan does to the files: when
    the listing comes in two pages, the second asked for with the cursor of
    the first once the entries of the first are organized, the scan returns
    and leaves the client and the counters as organizing the entries of both
    pages in one go does. *)
Theorem X10_two_pages_as_one {D : Type} `{DropboxApi D}
    (cfg : Config) (fuel : nat) (path : string) (s : Organizer D)
    (page1 page2 : ListFolderResult)
    (Hfirst : files_list_folder (dbx s)
                (match path with "" => "" | _ => "/" +:+ path end) = Some page1)
    (Hmore : has_more page1 = true)
    (Hsecond : files_list_folder_continue
                 (dbx (snd (organize_entries cfg (entries page1) s))) (cursor page1)
               = Some page2)
    (Hlast : has_more page2 = false) :
  let scan := scan_and_organize cfg (S fuel) path s in
  let one_go := organize_entries cfg (entries page1 ++ entries page2) s in
  fst scan = Returned /\
  dbx (snd scan) = dbx (snd one_go) /\
  stats (snd scan) = stats (snd one_go).
Proof.
  cbn zeta. rewrite organize_entries_app.
  unfold scan_and_organize, bind, get_dbx. rewrite Hfirst.
  set (list_path := match path with "" => "" | _ => "/" +:+ path end).
  assert (same_store (snd (record (FilesListFolder list_path true) s)) s) as Hs0
    by (split; reflexivity).
  destruct (record (FilesListFolder list_path true) s) as [[] s0]. cbn [snd] in Hs0.
  destruct (blind_organize_entries cfg (entries page1) s0 s Hs0) as [_ Hs1].
  destruct (organize_entries cfg (entries page1) s0) as [[] s1]. cbn [snd] in Hs1.
  cbn [scan_more]. rewrite Hmore. unfold bind, get_dbx.
  rewrite (proj1 Hs1), Hsecond.
  assert (same_store (snd (record (FilesListFolderContinue (cursor page1) true) s1))
                     (snd (organize_entries cfg (entries page1) s))) as Hs2
    by (split; [exact (proj1 Hs1) | exact (proj2 Hs1)]).
  destruct (record (FilesListFolderContinue (cursor page1) true) s1) as [[] s2].
  cbn [snd] in Hs2.
  destruct (blind_organize_entries cfg (entries page2) s2 _ Hs2) as [_ [Hd Hst]].
  destruct (organize_entries cfg (entries page2) s2) as [[] s3]. cbn [snd] in Hd, Hst.
  destruct fuel; cbn [scan_more]; rewrite Hlast; cbn; auto.
Qed.

Lemma X10_witness :
  let cfg := test_config false in
  let page2 := {| entries := [File (root_file "notes.txt"); Folder "Old" "/Old"];
                  has_more := false; cursor := "" |} in
  let page1 := {| entries := [File (root_file "a_2023.jpg")];
                  has_more := true; cursor := "c1" |} in
  let d := {| first_page := page1; next_pages := [("c1", page2)];
              paged_store := empty_store |} in
  let scan := scan_and_organize cfg 1 "" (start d) in
  has_more page1 = true /\ has_more page2 = false /\
  files_list_folder_continue
    (dbx (snd (organize_entries cfg (entries page1) (start d)))) (cursor page1)
    = Some page2 /\
  fst scan = Returned /\
  stats (snd scan) =
    {| photos_moved := 1; documents_moved := 1; temp_moved := 0;
       errors := 0; skipped := 0 |} /\
  omap (fun e => match e with
                 | FilesListFolder _ _ | FilesListFolderContinue _ _ => Some e
                 | _ => None
                 end) (journal (snd scan)) =
    [FilesListFolder "" true; FilesListFolderContinue "c1" true].
Proof.
  intros cfg page2 page1 d scan.
  assert (files_list_folder_continue
            (dbx (snd (organize_entries cfg (entries page1) (start d)))) (cursor page1)
          = Some page2) as Hsecond by (vm_compute; reflexivity).
  assert (files_list_folder (dbx (start d)) "" = Some page1) as Hfirst
    by reflexivity.
  assert (has_more page1 = true) as Hmore by reflexivity.
  assert (has_more page2 = false) as Hlast by reflexivity.
  destruct (X10_two_pages_as_one cfg 0 "" (start d) page1 page2
              Hfirst Hmore Hsecond Hlast) as (Hret & _ & Hst).
  split_and!; [reflexivity | reflexivity | exact Hsecond | exact Hret | |].
  - etransitivity; [exact Hst|]. vm_compute. reflexivity.
  - vm_compute. reflexivity.
Defined.

(** ** The order of requests *)

Section ProtocolFacts.

Lemma creates_when_missing_app pending l1 l2 :
  creates_when_missing pending l1 = true ->
  creates_when_missing None l2 = true ->
  creates_when_missing pending (l1 ++ l2) = true.
Proof.
  revert pending. induction l1 as [|e l1 IH]; intros pending H1 H2.
  - destruct pending; [discriminate | exact H2].
  - cbn [app creates_when_missing] in *.
    destruct pending as [q|], e as [| | | | | |q' [| |]|q' ok| | |];
      try discriminate; auto.
    apply andb_true_iff in H1 as [Hq H1]. rewrite Hq. cbn. auto.
Qed.

Lemma creates_when_missing_split pending evs1 e evs2 :
  creates_when_missing pending (evs1 ++ e :: evs2) = true ->
  (forall q ok, e = FilesCreateFolder q ok ->
     (evs1 = [] /\ pending = Some q) \/
     exists evs0, evs1 = evs0 ++ [FilesGetMetadata q PathNotFound]) /\
  (forall q, e = FilesGetMetadata q PathNotFound ->
     exists ok evs3, evs2 = FilesCreateFolder q ok :: evs3).
Proof.
  revert pending. induction evs1 as [|x evs1 IH]; intros pending Hall.
  - cbn [app creates_when_missing] in Hall. split.
    + intros q ok ->. left. split; [reflexivity|].
      destruct pending as [q'|]; [|discriminate].
      apply andb_true_iff in Hall as [Hq _]. apply String.eqb_eq in Hq. now subst.
    + intros q ->. destruct pending; [discriminate|].
      destruct evs2 as [|[| | | | | |? ?|q' ok| | |] evs3]; try discriminate.
      cbn in Hall. apply andb_true_iff in Hall as [Hq _].
      apply String.eqb_eq in Hq. subst. eauto.
  - cbn [app creates_when_missing] in Hall.
    assert (forall pending',
               creates_when_missing pending' (evs1 ++ e :: evs2) = true ->
               (pending' = None \/ exists q, pending' = Some q /\
                                              x = FilesGetMetadata q PathNotFound) ->
               (forall q ok, e = FilesCreateFolder q ok ->
                  (x :: evs1 = [] /\ pending = Some q) \/
                  exists evs0, x :: evs1 = evs0 ++ [FilesGetMetadata q PathNotFound]) /\
               (forall q, e = FilesGetMetadata q PathNotFound ->
                  exists ok evs3, evs2 = FilesCreateFolder q ok :: evs3)) as Hstep.
    { intros pending' Hrest Hpend. destruct (IH pending' Hrest) as [Hc Hm].
      split; [|exact Hm]. intros q ok He. right.
      destruct (Hc q ok He) as [[-> Hq] | [evs0 ->]].
      - destruct Hpend as [-> | (q' & -> & ->)]; [discriminate|].
        injection Hq as ->. now exists [].
      - now exists (x :: evs0). }
    destruct pending as [q|], x as [| | | | | |q' [| |]|q' ok| | |];
      try discriminate; try (apply (Hstep None Hall); now left).
    + apply andb_true_iff in Hall as [_ Hall]. apply (Hstep None Hall). now left.
    + apply (Hstep (Some q') Hall). right. eauto.
Qed.

Lemma creates_when_missing_quiet evs :
  Forall (fun e => is_ensure_event e = false \/ exists q, e = EnsureFolder q) evs ->
  creates_when_missing None evs = true.
Proof.
  induction 1 as [|e evs He _ IH]; [reflexivity|].
  cbn [creates_when_missing].
  destruct He as [He | [q ->]]; [|exact IH]. now destruct e.
Qed.

Lemma ensure_records_creates dry l ens :
  ensure_records dry l ens -> creates_when_missing None ens = true.
Proof.
  induction 1 as [|p l e1 e2 H1 _ IH]; [reflexivity|].
  apply creates_when_missing_app; [|exact IH].
  destruct H1; cbn; rewrite ?String.eqb_refl; reflexivity.
Qed.

Lemma Run_creates dry from_path p st st' evs :
  Run dry from_path p st st' evs ->
  Forall (fun step => is_rule_evaluation (fst step) = true) p ->
  creates_when_missing None evs = true.
Proof.
  assert (forall ev rest,
             is_rule_evaluation ev = true ->
             creates_when_missing None rest = true ->
             creates_when_missing None (ev :: rest) = true) as Hev
    by (intros ev rest He Hrest; now destruct ev).
  assert (forall ok to_path, creates_when_missing None
                               (move_records dry from_path to_path ok) = true)
    as Hmove by (intros ok to_path; unfold move_records; now destruct dry).
  induction 1 as [st | ev rest st st' evs _ IH | ev a rest st ens Hens
                 | ev a rest st st' ens evs Hd Hens _ IH];
    intros Hp; try apply Forall_cons in Hp as [He Hp]; cbn [fst] in *.
  - reflexivity.
  - auto.
  - apply Hev; [exact He|]. apply creates_when_missing_app; [|apply Hmove].
    eapply ensure_records_creates; eassumption.
  - apply Hev; [exact He|]. apply creates_when_missing_app.
    + eapply ensure_records_creates; eassumption.
    + apply creates_when_missing_app; [apply Hmove | auto].
Qed.

Lemma moves_after_ensure_weaken prev evs :
  moves_after_ensure None evs = true -> moves_after_ensure prev evs = true.
Proof. destruct evs as [|[] evs]; cbn; auto; discriminate. Qed.

Lemma moves_after_ensure_quiet prev l1 l2 :
  Forall (fun e => is_move_request e = false) l1 ->
  moves_after_ensure prev (l1 ++ l2) =
  moves_after_ensure (match last l1 with Some e => Some e | None => prev end) l2.
Proof.
  intros Hq. revert prev. induction Hq as [|e l1 He _ IH]; intros prev; [reflexivity|].
  cbn [app moves_after_ensure]. rewrite IH, last_cons.
  destruct e; try discriminate; cbn; now destruct (last l1).
Qed.

Lemma moves_after_ensure_app prev l1 l2 :
  moves_after_ensure prev l1 = true ->
  moves_after_ensure None l2 = true ->
  moves_after_ensure prev (l1 ++ l2) = true.
Proof.
  revert prev. induction l1 as [|e l1 IH]; intros prev H1 H2.
  - now apply moves_after_ensure_weaken.
  - cbn [app moves_after_ensure] in *.
    apply andb_true_iff in H1 as [He H1]. rewrite He. cbn. auto.
Qed.

Lemma moves_after_ensure_split prev evs1 from_path to_path ok evs2 :
  moves_after_ensure prev (evs1 ++ FilesMove from_path to_path ok :: evs2) = true ->
  exists q, match last evs1 with Some e => Some e | None => prev end =
              Some (EnsureFolder q) /\
            Py.startswith to_path (q +:+ "/") = true.
Proof.
  revert prev. induction evs1 as [|x evs1 IH]; intros prev Hall.
  - cbn [app moves_after_ensure last] in Hall.
    apply andb_true_iff in Hall as [Hall _].
    destruct prev as [[]|]; try discriminate. exists folder_path.
    split; [reflexivity | exact Hall].
  - cbn [app moves_after_ensure] in Hall.
    apply andb_true_iff in Hall as [_ Hall].
    destruct (IH _ Hall) as (q & Hlast & Hto). exists q.
    split; [|exact Hto].
    rewrite last_cons. now destruct (last evs1).
Qed.

Lemma ensure_records_last dry l ens q :
  ensure_records dry l ens -> last l = Some q ->
  last ens = Some (EnsureFolder q).
Proof.
  induction 1 as [|p l e1 e2 H1 H2 IH]; [discriminate|].
  rewrite last_cons, last_app. destruct (last l) as [q'|] eqn:Hl.
  - intros Hq. now rewrite (IH Hq).
  - intros [= <-]. destruct l; [|now rewrite last_cons in Hl; destruct (last l)].
    inversion H2; subst. cbn. now destruct H1.
Qed.

Lemma Run_moves_after_ensure dry from_path p st st' evs :
  Run dry from_path p st st' evs ->
  Forall (fun step => is_rule_evaluation (fst step) = true /\
                      match snd step with
                      | Some a => into_ensured a
                      | None => True
                      end) p ->
  moves_after_ensure None evs = true.
Proof.
  assert (forall ev a ens ok rest,
             is_rule_evaluation ev = true -> into_ensured a ->
             ensure_records dry (ensure a) ens ->
             moves_after_ensure None rest = true ->
             moves_after_ensure None
               (ev :: ens ++ move_records dry from_path (destination a) ok ++ rest)
             = true) as Hstep.
  { intros ev a ens ok rest Hev (q & Hlast & Hto) Hens Hrest.
    cbn [moves_after_ensure].
    replace (match ev with FilesMove _ _ _ => _ | _ => true end) with true
      by now destruct ev.
    cbn [andb]. rewrite moves_after_ensure_quiet.
    - rewrite (ensure_records_last _ _ _ _ Hens Hlast).
      unfold move_records. destruct dry; cbn [app moves_after_ensure andb].
      + now apply moves_after_ensure_weaken.
      + rewrite Hto. cbn [andb]. now apply moves_after_ensure_weaken.
    - destruct (ensure_records_events dry _ _ Hens) as [Hquiet _].
      eapply Forall_impl; [exact Hquiet|]. intros e He. now destruct e. }
  induction 1 as [st | ev rest st st' evs _ IH | ev a rest st ens Hens
                 | ev a rest st st' ens evs Hd Hens _ IH];
    intros Hp; try apply Forall_cons in Hp as [[He Ha] Hp]; cbn [fst snd] in *.
  - reflexivity.
  - cbn [moves_after_ensure]. destruct ev; try discriminate; cbn [andb];
      apply moves_after_ensure_weaken; auto.
  - specialize (Hstep ev a ens true [] He Ha Hens eq_refl).
    now rewrite app_nil_r in Hstep.
  - apply Hstep; auto.
Qed.

Lemma plan_into_ensured (cfg : Config) (file_name : string) :
  Forall (fun step => is_rule_evaluation (fst step) = true /\
                      match snd step with
                      | Some a => into_ensured a
                      | None => True
                      end) (plan cfg file_name).
Proof.
  assert (forall q rest, Py.startswith (q +:+ rest) q = true) as Hpre
    by (intros q rest; apply PyFacts.startswith_spec; eauto).
  unfold plan, photo_step, flat_step. repeat constructor; cbn [fst snd].
  - destruct (_extract_year_from_filename cfg file_name) as [[|c y]|]; try exact I.
    eexists. split; [reflexivity|]. cbn [destination].
    rewrite <- PyFacts.append_assoc. apply Hpre.
  - destruct (_is_document cfg file_name); [|exact I].
    eexists. split; [reflexivity|]. cbn [destination].
    rewrite <- PyFacts.append_assoc. apply Hpre.
  - destruct (_is_temp_file cfg file_name); [|exact I].
    eexists. split; [reflexivity|]. cbn [destination].
    rewrite <- PyFacts.append_assoc. apply Hpre.
Qed.

End ProtocolFacts.

Section ScanProtocol.

Context {D : Type} `{DropboxApi D}.
Variable cfg : Config.

Lemma orderly_file f (s : Organizer D) : orderly s (snd (_organize_file cfg f s)).
Proof.
  exists (emitted (_organize_file cfg f) s).
  destruct (organize_file_emitted cfg f s) as [Hj Hcase].
  split; [exact Hj|].
  destruct (_should_skip cfg (path_display f) (name f)).
  - destruct Hcase as (-> & _). split; reflexivity.
  - destruct Hcase as (evs0 & -> & Hrun & _). split.
    + exact (Run_creates _ _ _ _ _ _ Hrun (plan_rule_evaluations cfg (name f))).
    + cbn [moves_after_ensure andb]. apply moves_after_ensure_weaken.
      exact (Run_moves_after_ensure _ _ _ _ _ _ Hrun (plan_into_ensured cfg (name f))).
Qed.

Lemma scan_and_organize_orderly (fuel : nat) (path : string) (s : Organizer D) :
  orderly s (snd (scan_and_organize cfg fuel path s)).
Proof.
  apply (scan_and_organize_invariant cfg (orderly (D:=D))).
  - intros s0. exists []. now rewrite app_nil_r.
  - intros s1 s2 s3 (e1 & J1 & C1 & M1) (e2 & J2 & C2 & M2). exists (e1 ++ e2).
    split_and!.
    + now rewrite J2, J1, app_assoc.
    + now apply creates_when_missing_app.
    + now apply moves_after_ensure_app.
  - exact orderly_file.
  - intros p ok s0. now exists [FilesListFolder p ok].
  - intros c ok s0. now exists [FilesListFolderContinue c ok].
Qed.

End ScanProtocol.

(** X11. During a scan a folder is created only when it was just found
    missing: every [files_create_folder_v2] request comes directly after a
    [files_get_metadata] request for the same path that was answered "not
    found", and every such answer is directly followed by the request to
    create that path. *)
Theorem X11_folders_are_created_only_when_missing {D : Type} `{DropboxApi D}
    (cfg : Config) (fuel : nat) (path : string) (s : Organizer D)
    (evs1 : list Event) (e : Event) (evs2 : list Event)
    (Hsplit : emitted (scan_and_organize cfg fuel path) s = evs1 ++ e :: evs2) :
  (forall folder_path ok,
      e = FilesCreateFolder folder_path ok ->
      exists evs0, evs1 = evs0 ++ [FilesGetMetadata folder_path PathNotFound]) /\
  (forall folder_path,
      e = FilesGetMetadata folder_path PathNotFound ->
      exists ok evs3, evs2 = FilesCreateFolder folder_path ok :: evs3).
Proof.
  destruct (scan_and_organize_orderly cfg fuel path s) as (evs & Hj & Hc & _).
  rewrite (emitted_app _ _ _ Hj) in Hsplit. subst evs.
  destruct (creates_when_missing_split _ _ _ _ Hc) as [Hcreate Hmissing].
  split; [|exact Hmissing].
  intros folder_path ok He.
  destruct (Hcreate folder_path ok He) as [[_ Hq] | Hpre]; [discriminate | exact Hpre].
Qed.

Lemma X11_witness :
  let s := start (listed_store ["notes.txt"]) in
  let evs1 := [FilesListFolder "" true;
               ShouldSkip "/notes.txt" "notes.txt" false;
               ExtractYear "notes.txt" None;
               IsDocument "notes.txt" true;
               FilesGetMetadata "/Documents & Files" PathNotFound] in
  let e := FilesCreateFolder "/Documents & Files" true in
  let evs2 := [EnsureFolder "/Documents & Files";
               FilesMove "/notes.txt" "/Documents & Files/notes.txt" true;
               MoveFile "/notes.txt" "/Documents & Files/notes.txt" true] in
  emitted (scan_and_organize (test_config false) 0 "") s = evs1 ++ e :: evs2 /\
  exists evs0, evs1 = evs0 ++ [FilesGetMetadata "/Documents & Files" PathNotFound].
Proof.
  cbn zeta.
  assert (emitted (scan_and_organize (test_config false) 0 "")
                  (start (listed_store ["notes.txt"])) =
          [FilesListFolder "" true;
           ShouldSkip "/notes.txt" "notes.txt" false;
           ExtractYear "notes.txt" None;
           IsDocument "notes.txt" true;
           FilesGetMetadata "/Documents & Files" PathNotFound] ++
          FilesCreateFolder "/Documents & Files" true ::
          [EnsureFolder "/Documents & Files";
           FilesMove "/notes.txt" "/Documents & Files/notes.txt" true;
           MoveFile "/notes.txt" "/Documents & Files/notes.txt" true]) as Hsplit by (vm_compute; reflexivity).
  split; [exact Hsplit|].
  destruct (X11_folders_are_created_only_when_missing _ _ _ _ _ _ _ Hsplit) as [Hc _].
  exact (Hc _ _ eq_refl).
Defined.

(** X12. During a scan a file is only moved into a folder the organizer
    has just checked: every [files_move_v2] request comes directly after
    [_ensure_folder_exists] returned for a folder, and its destination is a
    name directly beneath that folder, whatever the folder requests
    answered. *)
Theorem X12_moves_follow_the_folder_check {D : Type} `{DropboxApi D}
    (cfg : Config) (fuel : nat) (path : string) (s : Organizer D)
    (evs1 : list Event) (from_path to_path : string) (ok : bool) (evs2 : list Event)
    (Hsplit : emitted (scan_and_organize cfg fuel path) s =
              evs1 ++ FilesMove from_path to_path ok :: evs2) :
  exists evs0 folder_path file_name,
    evs1 = evs0 ++ [EnsureFolder folder_path] /\
    to_path = folder_path +:+ "/" +:+ file_name.
Proof.
  destruct (scan_and_organize_orderly cfg fuel path s) as (evs & Hj & _ & Hm).
  rewrite (emitted_app _ _ _ Hj) in Hsplit. subst evs.
  destruct (moves_after_ensure_split _ _ _ _ _ _ Hm) as (q & Hlast & Hto).
  destruct (last evs1) as [e0|] eqn:Hl; [|discriminate].
  injection Hlast as ->. apply last_Some in Hl as [evs0 ->].
  apply PyFacts.startswith_spec in Hto as [file_name ->].
  exists evs0, q, file_name. split; [reflexivity | apply PyFacts.append_assoc].
Qed.

Lemma X12_witness :
  let d := {| store_folders := []; store_denied := ["/Photos Archive"];
              store_metadata_down := false;
              store_listing := [File (root_file "a_2023.jpg")] |} in
  let evs1 := [FilesListFolder "" true;
               ShouldSkip "/a_2023.jpg" "a_2023.jpg" false;
               ExtractYear "a_2023.jpg" (Some "2023");
               FilesGetMetadata "/Photos Archive" PathNotFound;
               FilesCreateFolder "/Photos Archive" false;
               EnsureFolder "/Photos Archive";
               FilesGetMetadata "/Photos Archive/2023" PathNotFound;
               FilesCreateFolder "/Photos Archive/2023" false;
               EnsureFolder "/Photos Archive/2023"] in
  let evs2 := [MoveFile "/a_2023.jpg" "/Photos Archive/2023/a_2023.jpg" false;
               IsDocument "a_2023.jpg" false;
               IsTempFile "a_2023.jpg" false] in
  emitted (scan_and_organize (test_config false) 0 "") (start d) =
    evs1 ++ FilesMove "/a_2023.jpg" "/Photos Archive/2023/a_2023.jpg" false :: evs2 /\
  exists evs0 folder_path file_name,
    evs1 = evs0 ++ [EnsureFolder folder_path] /\
    "/Photos Archive/2023/a_2023.jpg" = folder_path +:+ "/" +:+ file_name.
Proof.
  cbn zeta.
  assert (emitted (scan_and_organize (test_config false) 0 "")
            (start {| store_folders := []; store_denied := ["/Photos Archive"];
                      store_metadata_down := false;
                      store_listing := [File (root_file "a_2023.jpg")] |}) =
          [FilesListFolder "" true;
           ShouldSkip "/a_2023.jpg" "a_2023.jpg" false;
           ExtractYear "a_2023.jpg" (Some "2023");
           FilesGetMetadata "/Photos Archive" PathNotFound;
           FilesCreateFolder "/Photos Archive" false;
           EnsureFolder "/Photos Archive";
           FilesGetMetadata "/Photos Archive/2023" PathNotFound;
           FilesCreateFolder "/Photos Archive/2023" false;
           EnsureFolder "/Photos Archive/2023"] ++
          FilesMove "/a_2023.jpg" "/Photos Archive/2023/a_2023.jpg" false ::
          [MoveFile "/a_2023.jpg" "/Photos Archive/2023/a_2023.jpg" false;
           IsDocument "a_2023.jpg" false;
           IsTempFile "a_2023.jpg" false]) as Hsplit by (vm_compute; reflexivity).
  split; [exact Hsplit|].
  exact (X12_moves_follow_the_folder_check _ _ _ _ _ _ _ _ _ Hsplit).
Defined.

(** ** How a scan ends *)

Section ScanEnd.

Context {D : Type} `{DropboxApi D}.
Variable cfg : Config.

Lemma Run_no_listing dry from_path p st st' evs :
  Run dry from_path p st st' evs ->
  Forall (fun step => is_rule_evaluation (fst step) = true) p ->
  Forall (fun e => is_failed_listing e = false) evs.
Proof.
  assert (forall l ens, ensure_records dry l ens ->
                        Forall (fun e => is_failed_listing e = false) ens) as Hens0.
  { intros l ens Hens. destruct (ensure_records_events dry l ens Hens) as [Hquiet _].
    eapply Forall_impl; [exact Hquiet|]. intros e He. now destruct e. }
  assert (forall ok to_path,
             Forall (fun e => is_failed_listing e = false)
                    (move_records dry from_path to_path ok)) as Hmove
    by (intros ok to_path; unfold move_records; destruct dry; repeat constructor).
  induction 1 as [st | ev rest st st' evs _ IH | ev a rest st ens Hens
                 | ev a rest st st' ens evs Hd Hens _ IH];
    intros Hp; try apply Forall_cons in Hp as [He Hp]; cbn [fst] in *.
  - constructor.
  - constructor; [now destruct ev | auto].
  - constructor; [now destruct ev|]. apply Forall_app. eauto.
  - constructor; [now destruct ev|]. rewrite !Forall_app. eauto.
Qed.

Lemma organize_file_no_listing (f : FileMetadata) (s : Organizer D) :
  Forall (fun e => is_failed_listing e = false) (emitted (_organize_file cfg f) s).
Proof.
  destruct (organize_file_emitted cfg f s) as [_ Hcase].
  destruct (_should_skip cfg (path_display f) (name f)).
  - destruct Hcase as (-> & _). repeat constructor.
  - destruct Hcase as (evs0 & -> & Hrun & _). constructor; [reflexivity|].
    exact (Run_no_listing _ _ _ _ _ _ Hrun (plan_rule_evaluations cfg (name f))).
Qed.

Lemma organize_entries_no_listing (l : list Metadata) (s : Organizer D) :
  journal (snd (organize_entries cfg l s)) =
    journal s ++ emitted (organize_entries cfg l) s /\
  Forall (fun e => is_failed_listing e = false) (emitted (organize_entries cfg l) s).
Proof.
  destruct (organize_entries_records cfg (fun _ e => is_failed_listing e = false)
              organize_file_no_listing l s) as [Hj Hall].
  split; [exact Hj|]. eapply Forall_impl; [exact Hall|]. now intros e (_ & _ & He).
Qed.

Lemma ends_as_after evs1 outcome evs2 :
  Forall (fun e => is_failed_listing e = false) evs1 ->
  ends_as outcome evs2 -> ends_as outcome (evs1 ++ evs2).
Proof.
  intros H1 H2. destruct outcome; cbn in *; try (apply Forall_app; auto).
  destruct H2 as (evs0 & e & -> & He & H0). exists (evs1 ++ evs0), e.
  rewrite app_assoc. split_and!; auto. apply Forall_app; auto.
Qed.

Lemma scan_more_ends (fuel : nat) (result : ListFolderResult) (s : Organizer D) :
  exists evs,
    journal (snd (scan_more cfg fuel result s)) = journal s ++ evs /\
    ends_as (fst (scan_more cfg fuel result s)) evs.
Proof.
  revert result s. induction fuel as [|fuel IH]; intros result s; cbn;
    destruct (has_more result); cbn;
    try (exists []; rewrite app_nil_r; split; [reflexivity | constructor]).
  unfold bind, get_dbx.
  destruct (files_list_folder_continue (dbx s) (cursor result)) as [result'|].
  - destruct (record (FilesListFolderContinue (cursor result) true) s)
      as [[] s1] eqn:Hrec.
    assert (journal s1 = journal s ++ [FilesListFolderContinue (cursor result) true])
      as Hj1 by (injection Hrec as <-; reflexivity).
    destruct (organize_entries_no_listing (entries result') s1) as [Hj2 Hq].
    destruct (organize_entries cfg (entries result') s1) as [[] s2]. cbn [snd] in Hj2.
    destruct (IH result' s2) as (evs & Hj3 & Hend).
    exists ([FilesListFolderContinue (cursor result) true] ++
            emitted (organize_entries cfg (entries result')) s1 ++ evs).
    split; [now rewrite Hj3, Hj2, Hj1, <- !app_assoc|].
    apply ends_as_after; [repeat constructor|]. now apply ends_as_after.
  - cbn. exists [FilesListFolderContinue (cursor result) false].
    split; [reflexivity|]. exists [], (FilesListFolderContinue (cursor result) false).
    split_and!; [reflexivity | reflexivity | constructor].
Qed.

End ScanEnd.

(** X13. A scan ends in [sys.exit(1)] exactly when a listing request
    raised: then that request is the last thing the scan did, and no listing
    request failed before it; in a scan that returns, no listing request
    failed.  A failed folder or move request never ends the scan. *)
Theorem X13_exit_only_after_a_failed_listing {D : Type} `{DropboxApi D}
    (cfg : Config) (fuel : nat) (path : string) (s : Organizer D) :
  let evs := emitted (scan_and_organize cfg fuel path) s in
  match fst (scan_and_organize cfg fuel path s) with
  | Exited =>
      exists evs0 e, evs = evs0 ++ [e] /\ is_failed_listing e = true /\
                     Forall (fun e0 => is_failed_listing e0 = false) evs0
  | _ => Forall (fun e => is_failed_listing e = false) evs
  end.
Proof.
  cbn zeta. change (ends_as (fst (scan_and_organize cfg fuel path s))
                           (emitted (scan_and_organize cfg fuel path) s)).
  assert (exists evs,
             journal (snd (scan_and_organize cfg fuel path s)) = journal s ++ evs /\
             ends_as (fst (scan_and_organize cfg fuel path s)) evs)
    as (evs & Hj & Hend); [|now rewrite (emitted_app _ _ _ Hj)].
  unfold scan_and_organize, bind, get_dbx.
  set (list_path := match path with "" => "" | _ => "/" +:+ path end).
  destruct (files_list_folder (dbx s) list_path) as [result|].
  - destruct (record (FilesListFolder list_path true) s) as [[] s1] eqn:Hrec.
    assert (journal s1 = journal s ++ [FilesListFolder list_path true])
      as Hj1 by (injection Hrec as <-; reflexivity).
    destruct (organize_entries_no_listing cfg (entries result) s1) as [Hj2 Hq].
    destruct (organize_entries cfg (entries result) s1) as [[] s2]. cbn [snd] in Hj2.
    destruct (scan_more_ends cfg fuel result s2) as (evs & Hj3 & Hend).
    exists ([FilesListFolder list_path true] ++
            emitted (organize_entries cfg (entries result)) s1 ++ evs).
    split; [now rewrite Hj3, Hj2, Hj1, <- !app_assoc|].
    apply ends_as_after; [repeat constructor|]. now apply ends_as_after.
  - cbn. exists [FilesListFolder list_path false].
    split; [reflexivity|]. exists [], (FilesListFolder list_path false).
    split_and!; [reflexivity | reflexivity | constructor].
Qed.

(** ** Edge cases of the year rule, and the demo *)

Section CategoryFacts.

Context {D : Type} `{DropboxApi D}.
Variable cfg : Config.

(** A category no move is planned for is never decided on nor counted. *)
Lemma unplanned_category (c : Category) (f : FileMetadata) (s : Organizer D) :
  Forall (fun a => category a <> c) (candidates cfg f) ->
  (forall to_path, decision_of (emitted (_organize_file cfg f) s) <> MoveTo c to_path) /\
  moved_counter c (stats (snd (_organize_file cfg f s))) = moved_counter c (stats s).
Proof.
  intros Hcat. split.
  - intros to_path. rewrite decision_route. unfold route.
    destruct (_should_skip cfg _ _); [discriminate|].
    destruct (candidates cfg f) as [|a rest]; [discriminate|].
    apply Forall_cons in Hcat as [Ha _]. congruence.
  - destruct (organize_file_outcome cfg f s)
      as [(k & a & Hk & _ & -> & _) | (_ & -> & _)].
    + apply list_elem_of_lookup_2 in Hk. rewrite Forall_forall in Hcat.
      specialize (Hcat a Hk). destruct a as [[] ? ?], c; cbn in *; congruence.
    + destruct (_should_skip cfg _ _), c; reflexivity.
Qed.

End CategoryFacts.

(** X14. A year pattern that matches the empty string in a name gives an
    empty year, and an empty year is no year: the photo rule does not apply
    to the file, which goes on to the document and temp rules and is never
    counted as a photo. *)
Theorem X14_empty_year_is_no_photo {D : Type} `{DropboxApi D}
    (cfg : Config) (f : FileMetadata) (s : Organizer D)
    (Hyear : _extract_year_from_filename cfg (name f) = Some "") :
  Forall (fun a => category a <> Photos) (candidates cfg f) /\
  (forall to_path,
      decision_of (emitted (_organize_file cfg f) s) <> MoveTo Photos to_path) /\
  photos_moved (stats (snd (_organize_file cfg f s))) = photos_moved (stats s) /\
  decision_of (emitted (_organize_file cfg f) s) =
    if _should_skip cfg (path_display f) (name f) then Skip
    else if _is_document cfg (name f)
         then MoveTo Documents ("/" +:+ folder_of cfg Documents +:+ "/" +:+ name f)
         else if _is_temp_file cfg (name f)
              then MoveTo Temp ("/" +:+ folder_of cfg Temp +:+ "/" +:+ name f)
              else NoMatch.
Proof.
  assert (Forall (fun a => category a <> Photos) (candidates cfg f)) as Hcat.
  { rewrite candidates_unfold, Hyear. destruct (_should_skip cfg _ _); [constructor|].
    destruct (_is_document cfg (name f)); destruct (_is_temp_file cfg (name f));
      cbn; repeat constructor; discriminate. }
  destruct (unplanned_category cfg Photos f s Hcat) as [Hdec Hcount].
  split_and!; auto.
  rewrite decision_route. unfold route. rewrite candidates_unfold, Hyear.
  destruct (_should_skip cfg _ _); [reflexivity|].
  destruct (_is_document cfg (name f)); destruct (_is_temp_file cfg (name f));
    cbn; rewrite ?PyFacts.append_assoc; reflexivity.
Qed.

Lemma X14_witness :
  let f := root_file "IMG_0042.txt" in
  let s := start empty_store in
  _extract_year_from_filename digits_config (name f) = Some "" /\
  decision_of (emitted (_organize_file digits_config f) s) =
    MoveTo Documents "/Documents & Files/IMG_0042.txt" /\
  photos_moved (stats (snd (_organize_file digits_config f s))) = 0%nat.
Proof.
  intros f s.
  assert (_extract_year_from_filename digits_config (name f) = Some "") as Hyear
    by reflexivity.
  destruct (X14_empty_year_is_no_photo digits_config f s Hyear) as (_ & _ & Hcount & Hdec).
  split_and!; [exact Hyear | exact Hdec | exact Hcount].
Defined.

(** X15. The demo announces for a name what the organizer decides for a
    file of that name under the demo's configuration, whenever the
    organizer's skip rule and the demo's agree on the file.  They agree
    whenever the demo skips; the organizer also skips names that only start
    with a skip name and paths that hold a skip folder, which the demo goes
    on to classify. *)
Theorem X15_demo_announces_the_decision {D : Type} `{DropboxApi D}
    (f : FileMetadata) (s : Organizer D) :
  (_should_skip demo_config (path_display f) (name f) =
     Py.str_in (name f) [".dropbox"] ->
   demo_decision (demo_classify (name f)) =
     decision_of (emitted (_organize_file demo_config f) s)) /\
  (demo_classify (name f) = DemoSkipped ->
   _should_skip demo_config (path_display f) (name f) = true) /\
  (_should_skip demo_config (path_display f) (name f) = true ->
   decision_of (emitted (_organize_file demo_config f) s) = Skip).
Proof.
  split_and!.
  - intros Hskip. rewrite decision_route. unfold route, demo_classify.
    rewrite candidates_unfold, Hskip.
    destruct (Py.str_in (name f) [".dropbox"]); [reflexivity|].
    change (_extract_year_from_filename demo_config (name f))
      with (Py.search_20dd (name f)).
    change (_is_document demo_config (name f))
      with (Py.str_in (snd (Py.splitext (Py.lower (name f))))
              [".pdf"; ".docx"; ".txt"; ".xlsx"; ".pptx"; ".doc"; ".xls"]).
    change (_is_temp_file demo_config (name f))
      with (existsb (fun pattern => Py.contains pattern (name f))
              ["USER_SCOPED_TEMP"; "_sync"; ".tmp"]).
    change (folder_of demo_config Photos) with "Photos Archive".
    change (folder_of demo_config Documents) with "Documents & Files".
    change (folder_of demo_config Temp) with "Temp Files".
    destruct (Py.search_20dd (name f)) as [year|] eqn:Hsearch.
    + destruct (PyShape.search_20dd_year _ _ Hsearch) as (c & y & ->).
      cbn [app demo_decision category destination].
      rewrite ?PyFacts.append_assoc; reflexivity.
    + destruct (Py.str_in (snd (Py.splitext (Py.lower (name f)))) _).
      * cbn [app demo_decision category destination].
        rewrite ?PyFacts.append_assoc; reflexivity.
      * cbn [existsb List.find].
        destruct (Py.contains "USER_SCOPED_TEMP" (name f));
          [cbn; rewrite ?PyFacts.append_assoc; reflexivity|].
        destruct (Py.contains "_sync" (name f));
          [cbn; rewrite ?PyFacts.append_assoc; reflexivity|].
        destruct (Py.contains ".tmp" (name f));
          [cbn; rewrite ?PyFacts.append_assoc; reflexivity|].
        reflexivity.
  - unfold demo_classify.
    destruct (Py.str_in (name f) [".dropbox"]) eqn:Hin.
    + intros _. apply PyFacts.str_in_spec in Hin as [<- | []].
      unfold _should_skip.
      destruct (existsb _ _); [reflexivity|]. cbn. reflexivity.
    + destruct (Py.search_20dd (name f)); [discriminate|].
      destruct (Py.str_in (snd (Py.splitext (Py.lower (name f)))) _); [discriminate|].
      destruct (List.find _ _); discriminate.
  - intros Hskip. rewrite decision_route. unfold route. now rewrite Hskip.
Qed.

Lemma X15_witness :
  let f := root_file "IMG_20240101_120000.jpg" in
  let g := root_file ".dropbox.cache" in
  _should_skip demo_config (path_display f) (name f) = Py.str_in (name f) [".dropbox"] /\
  demo_decision (demo_classify (name f)) =
    decision_of (emitted (_organize_file demo_config f) (start empty_store)) /\
  demo_classify (name f) =
    DemoPhoto "2024" "/Photos Archive/2024/IMG_20240101_120000.jpg" /\
  demo_classify (name g) = DemoNoMatch /\
  decision_of (emitted (_organize_file demo_config g) (start empty_store)) = Skip.
Proof.
  intros f g.
  assert (_should_skip demo_config (path_display f) (name f) =
          Py.str_in (name f) [".dropbox"]) as Hskip by reflexivity.
  destruct (X15_demo_announces_the_decision f (start empty_store)) as (Hsame & _ & _).
  destruct (X15_demo_announces_the_decision g (start empty_store)) as (_ & _ & Hg).
  split_and!; [exact Hskip | exact (Hsame Hskip) | reflexivity | reflexivity |].
  apply Hg. reflexivity.
Defined.

(** ** Dry runs against live runs *)

Section DryAgainstLive.

Context {D : Type} `{DropboxApi D}.
Variable cfg : Config.

Lemma organize_file_dry_against_live (f : FileMetadata) (s_dry s_live : Organizer D) :
  stats s_dry = stats s_live ->
  errors (stats (snd (_organize_file (with_dry_run (Some false) cfg) f s_live))) =
    errors (stats s_live) ->
  stats (snd (_organize_file (with_dry_run (Some true) cfg) f s_dry)) =
  stats (snd (_organize_file (with_dry_run (Some false) cfg) f s_live)).
Proof.
  intros Hstats Hclean.
  pose proof (organize_file_outcome (with_dry_run (Some true) cfg) f s_dry) as Hd.
  pose proof (organize_file_outcome (with_dry_run (Some false) cfg) f s_live) as Hl.
  cbn zeta in Hd, Hl.
  change (candidates (with_dry_run (Some true) cfg) f) with (candidates cfg f) in Hd.
  change (candidates (with_dry_run (Some false) cfg) f) with (candidates cfg f) in Hl.
  change (_should_skip (with_dry_run (Some true) cfg)) with (_should_skip cfg) in Hd.
  change (_should_skip (with_dry_run (Some false) cfg)) with (_should_skip cfg) in Hl.
  assert (forall k st, errors (add_errors k st) = (errors st + k)%nat) as Herr
    by reflexivity.
  assert (forall c st, errors (incr_moved c st) = errors st) as Hmoved
    by (intros []; reflexivity).
  destruct Hd as [(k & a & Hk & _ & Hd & Hzero) | (_ & Hd & Hnone)];
    destruct Hl as [(k' & a' & Hk' & _ & Hl & _) | (_ & Hl & _)];
    rewrite Hd, Hl; rewrite Hl in Hclean.
  - rewrite (Hzero eq_refl) in *. rewrite Hmoved, Herr in Hclean.
    assert (k' = 0%nat) as -> by lia. rewrite Hk in Hk'. injection Hk' as ->.
    now rewrite Hstats.
  - rewrite (Hzero eq_refl) in *. exfalso.
    unfold candidates in *.
    destruct (_should_skip cfg (path_display f) (name f)); [discriminate|].
    rewrite Herr in Hclean.
    destruct (omap snd (plan cfg (name f))); [discriminate | cbn in Hclean; lia].
  - rewrite (Hnone eq_refl) in Hk'. discriminate.
  - rewrite (Hnone eq_refl). now rewrite Hstats.
Qed.

End DryAgainstLive.

(** X16. A dry run tells what a live run will count: over the same entries
    and from the same counters, the counters after a dry run are those after
    a live run, provided the live run ends without a new error, that is,
    provided none of its moves failed. *)
Theorem X16_dry_run_predicts_a_clean_live_run {D : Type} `{DropboxApi D}
    (cfg : Config) (l : list Metadata) (s_dry s_live : Organizer D)
    (Hstats : stats s_dry = stats s_live)
    (Hclean : errors (stats (snd (organize_entries (with_dry_run (Some false) cfg)
                                    l s_live))) = errors (stats s_live)) :
  stats (snd (organize_entries (with_dry_run (Some true) cfg) l s_dry)) =
  stats (snd (organize_entries (with_dry_run (Some false) cfg) l s_live)).
Proof.
  revert s_dry s_live Hstats Hclean.
  induction l as [|[f | ? ? | ?] l IH]; intros s_dry s_live Hstats.
  - intros _. exact Hstats.
  - rewrite !organize_entries_cons. intros Hclean.
    destruct (organize_file_counters (with_dry_run (Some false) cfg) f s_live)
      as (_ & _ & Hup & _).
    destruct (organize_entries_counters (with_dry_run (Some false) cfg) l
                (snd (_organize_file (with_dry_run (Some false) cfg) f s_live)))
      as (_ & _ & Hup' & _).
    assert (errors (stats (snd (_organize_file (with_dry_run (Some false) cfg)
                                  f s_live))) = errors (stats s_live)) as Hfile by lia.
    apply IH; [now apply organize_file_dry_against_live | now rewrite Hfile].
  - exact (IH s_dry s_live Hstats).
  - exact (IH s_dry s_live Hstats).
Qed.

Lemma X16_witness :
  let l := [File (root_file "a_2023.jpg"); Folder "Old" "/Old";
            File (root_file "notes.txt");
            File (root_file ".dropbox"); File (root_file "x.dat")] in
  let s := start empty_store in
  let cfg := test_config false in
  stats s = stats s /\
  errors (stats (snd (organize_entries (with_dry_run (Some false) cfg) l s))) =
    errors (stats s) /\
  stats (snd (organize_entries (with_dry_run (Some true) cfg) l s)) =
    {| photos_moved := 1; documents_moved := 1; temp_moved := 0;
       errors := 0; skipped := 1 |} /\
  stats (snd (organize_entries (with_dry_run (Some false) cfg) l s)) =
    {| photos_moved := 1; documents_moved := 1; temp_moved := 0;
       errors := 0; skipped := 1 |}.
Proof.
  intros l s cfg.
  assert (errors (stats (snd (organize_entries (with_dry_run (Some false) cfg) l s))) =
          errors (stats s)) as Hclean by (vm_compute; reflexivity).
  pose proof (X16_dry_run_predicts_a_clean_live_run cfg l s s eq_refl Hclean) as Hsame.
  split_and!; [reflexivity | exact Hclean | vm_compute; reflexivity |].
  rewrite <- Hsame. vm_compute. reflexivity.
Defined.
